(** * dragino-basicfwd: relay codec and LoRaHub HAL

    A shallow embedding of
    - [relay/lora_relay_protocol.c] (the compact binary relay protocol),
    - [onehub/libhub/lorahub_hal.c] and
      [liblora/onehub/lorahub/lorahub_hal_rx.c] (the SX126x HAL),
    - the reception batch of [inc/gwcfg.h],
    with the properties of the gateway specification that concern them,
    and of
    - [onehub/libhub/lorahub_aux.c] and [liblora/basic_aux.h] (parameter
      checks, waits and timeouts),
    - [onehub/radio_drivers/sx126x_driver/src/sx126x_hal.c] (the radio over
      SPI),
    - [inc/zhelpers.h] and [fwd/logger.c] (the log thread),
    with properties of the code itself.

    C integers are modelled as [Z] with the wrap-around of their type
    written out; byte buffers and C arrays are lists of [Z]. *)

From Stdlib Require Import ZArith List Bool Lia String.
From Stdlib Require Import Ascii.
From coqutil Require Import Z.bitblast.
Import ListNotations.
Local Open Scope Z_scope.

(** ** Fixed-width integers *)

Definition u8 (x : Z) : Z := x mod 256.
Definition u16 (x : Z) : Z := x mod 65536.
Definition u32 (x : Z) : Z := x mod 4294967296.

(** Conversion to a signed type keeps the low bits (two's complement). *)
Definition s8 (x : Z) : Z :=
  let y := x mod 256 in if y <? 128 then y else y - 256.
Definition s32 (x : Z) : Z :=
  let y := x mod 4294967296 in if y <? 2147483648 then y else y - 4294967296.

Definition is_u8 (x : Z) : Prop := 0 <= x < 256.
Definition is_u16 (x : Z) : Prop := 0 <= x < 65536.
Definition is_u32 (x : Z) : Prop := 0 <= x < 4294967296.
Definition is_s8 (x : Z) : Prop := -128 <= x < 128.

(** [data[i]] on a byte buffer; the default is only met past the end of the
    list, where the C program would read outside the buffer. *)
Definition byte_at (data : list Z) (i : Z) : Z := nth (Z.to_nat i) data 0.

(** [memcpy(dst, src, n)] on arrays held as lists: the first [n] cells of
    [dst] are replaced, the others keep their content. *)
Definition memcpy (dst src : list Z) (n : Z) : list Z :=
  firstn (Z.to_nat n) src ++ skipn (Z.to_nat n) dst.

(** ** The relay protocol: lora_relay_protocol.h *)

Module Relay.

Definition MAX_PHY_PAYLOAD_LEN : Z := 245.
Definition MAX_EVENT_PAYLOAD_LEN : Z := 240.

(* enum meta_type *)
Definition LORAWAN_TYPE : Z := 0x07.
(* enum payload_type *)
Definition UPLINK_TYPE : Z := 0x00.
Definition DOWNLINK_TYPE : Z := 0x01.
Definition EVENT_TYPE : Z := 0x03.
(* enum event_type *)
Definition EVENT_JOIN : Z := 0x01.
Definition EVENT_RESET : Z := 0x02.
Definition EVENT_ERROR : Z := 0x03.
Definition EVENT_TIMEOUT : Z := 0x04.

(* struct uplink_packet *)
Record uplink_packet := mk_uplink {
  ul_meta_type : Z;            (* meta_type_t *)
  ul_payload_type : Z;         (* payload_type_t *)
  ul_hop_count : Z;            (* uint8_t *)
  uplink_id : Z;               (* uint16_t, 12 bits used *)
  ul_data_rate : Z;            (* uint8_t *)
  ul_rssi : Z;                 (* int8_t *)
  ul_snr : Z;                  (* int8_t *)
  ul_channel : Z;              (* uint8_t *)
  ul_phy_payload : list Z;     (* uint8_t [MAX_PHY_PAYLOAD_LEN] *)
  ul_payload_len : Z           (* uint16_t *)
}.

(* struct downlink_packet *)
Record downlink_packet := mk_downlink {
  dl_meta_type : Z;
  dl_payload_type : Z;
  dl_hop_count : Z;            (* uint8_t *)
  dwlink_id : Z;               (* uint16_t, 12 bits used *)
  dl_data_rate : Z;            (* uint8_t *)
  dl_frequency : Z;            (* uint32_t *)
  dl_tx_power : Z;             (* uint8_t, 4 bits on the wire *)
  dl_delay : Z;                (* uint8_t, 4 bits on the wire *)
  dl_count_us : Z;             (* uint32_t *)
  dl_phy_payload : list Z;     (* uint8_t [MAX_PHY_PAYLOAD_LEN] *)
  dl_payload_len : Z           (* uint16_t *)
}.

(* struct event_packet *)
Record event_packet := mk_event {
  ev_meta_type : Z;
  ev_payload_type : Z;
  ev_hop_count : Z;            (* uint8_t *)
  event_id : Z;                (* uint16_t *)
  event_type : Z;              (* event_type_t *)
  event_payload : list Z;      (* uint8_t [MAX_EVENT_PAYLOAD_LEN] *)
  ev_payload_len : Z           (* uint16_t *)
}.

(** *** Byte order *)

(** The byte swap that [be_to_host32] performs on a little-endian host. *)
Definition bswap32 (value : Z) : Z :=
  Z.lor (Z.lor (Z.lor
    (u32 (Z.shiftl (Z.land value 0x000000FF) 24))
    (u32 (Z.shiftl (Z.land value 0x0000FF00) 8)))
    (Z.shiftr (Z.land value 0x00FF0000) 8))
    (Z.shiftr (Z.land value 0xFF000000) 24).

Section Codec.

(** What [is_big_endian()] answers on the host. *)
Variable is_big_endian : bool.

Definition be_to_host32 (value : Z) : Z :=
  if is_big_endian then value else bswap32 value.

Definition host_to_be32 (value : Z) : Z := be_to_host32 value.

(** *** MHDR *)

Definition build_mhdr (meta_type payload_type hop_count : Z) : Z :=
  let mhdr := 0 in
  let mhdr := u8 (Z.lor mhdr (Z.shiftl (Z.land meta_type 0x07) 5)) in
  let mhdr := u8 (Z.lor mhdr (Z.shiftl (Z.land payload_type 0x03) 3)) in
  let mhdr := u8 (Z.lor mhdr (Z.land hop_count 0x07)) in
  mhdr.

(** The three output pointers are the addresses of fields of the packet being
    filled, so the NULL test of the source never fires and the call returns
    [true] with the three fields. *)
Definition parse_mhdr (mhdr_byte : Z) : bool * (Z * Z * Z) :=
  (true, (Z.land (Z.shiftr mhdr_byte 5) 0x07,
          Z.land (Z.shiftr mhdr_byte 3) 0x03,
          Z.land mhdr_byte 0x07)).

(** *** Uplink *)

(** [heap_ok] is the outcome of [malloc]; [packet = None] is a NULL packet
    pointer and [out_len = false] a NULL length pointer.  The result is the
    allocated buffer with the value stored in [*out_len], or [None] for a
    NULL return (the length already stored when [malloc] fails is not kept).
    The final [index += payload_len] of the source has no effect on the
    result. *)
Definition pack_uplink_packet (heap_ok : bool) (packet : option uplink_packet)
    (out_len : bool) : option (list Z * Z) :=
  match packet with
  | None => None
  | Some p =>
    if negb out_len || (ul_payload_len p >? MAX_PHY_PAYLOAD_LEN) then None
    else if negb (ul_payload_type p =? UPLINK_TYPE) then None
    else if negb (ul_meta_type p =? LORAWAN_TYPE) then None
    else
      let len := u16 (1 + 5 + ul_payload_len p) in
      if negb heap_ok then None
      else
        Some ([ build_mhdr (ul_meta_type p) (ul_payload_type p) (ul_hop_count p);
                Z.land (Z.shiftr (uplink_id p) 4) 0xFF;
                u8 (Z.lor (Z.shiftl (Z.land (uplink_id p) 0x0F) 4)
                          (Z.land (ul_data_rate p) 0x0F));
                u8 (ul_rssi p);
                u8 (ul_snr p);
                ul_channel p ]
              ++ firstn (Z.to_nat (ul_payload_len p)) (ul_phy_payload p),
              len)
  end.

Definition ul_set_mhdr (p : uplink_packet) (m : Z * Z * Z) : uplink_packet :=
  let '(mt, pt, hc) := m in
  mk_uplink mt pt hc (uplink_id p) (ul_data_rate p) (ul_rssi p) (ul_snr p)
            (ul_channel p) (ul_phy_payload p) (ul_payload_len p).

Definition ul_set_uplink_id (p : uplink_packet) (v : Z) : uplink_packet :=
  mk_uplink (ul_meta_type p) (ul_payload_type p) (ul_hop_count p) v
            (ul_data_rate p) (ul_rssi p) (ul_snr p) (ul_channel p)
            (ul_phy_payload p) (ul_payload_len p).

Definition ul_set_data_rate (p : uplink_packet) (v : Z) : uplink_packet :=
  mk_uplink (ul_meta_type p) (ul_payload_type p) (ul_hop_count p) (uplink_id p)
            v (ul_rssi p) (ul_snr p) (ul_channel p) (ul_phy_payload p)
            (ul_payload_len p).

Definition ul_set_rssi (p : uplink_packet) (v : Z) : uplink_packet :=
  mk_uplink (ul_meta_type p) (ul_payload_type p) (ul_hop_count p) (uplink_id p)
            (ul_data_rate p) v (ul_snr p) (ul_channel p) (ul_phy_payload p)
            (ul_payload_len p).

Definition ul_set_snr (p : uplink_packet) (v : Z) : uplink_packet :=
  mk_uplink (ul_meta_type p) (ul_payload_type p) (ul_hop_count p) (uplink_id p)
            (ul_data_rate p) (ul_rssi p) v (ul_channel p) (ul_phy_payload p)
            (ul_payload_len p).

Definition ul_set_channel (p : uplink_packet) (v : Z) : uplink_packet :=
  mk_uplink (ul_meta_type p) (ul_payload_type p) (ul_hop_count p) (uplink_id p)
            (ul_data_rate p) (ul_rssi p) (ul_snr p) v (ul_phy_payload p)
            (ul_payload_len p).

Definition ul_set_payload_len (p : uplink_packet) (v : Z) : uplink_packet :=
  mk_uplink (ul_meta_type p) (ul_payload_type p) (ul_hop_count p) (uplink_id p)
            (ul_data_rate p) (ul_rssi p) (ul_snr p) (ul_channel p)
            (ul_phy_payload p) v.

Definition ul_set_phy_payload (p : uplink_packet) (v : list Z) : uplink_packet :=
  mk_uplink (ul_meta_type p) (ul_payload_type p) (ul_hop_count p) (uplink_id p)
            (ul_data_rate p) (ul_rssi p) (ul_snr p) (ul_channel p) v
            (ul_payload_len p).

(** [data = None] and [packet = None] are NULL pointers.  The result is the
    returned [bool] with the content of [*packet] when the call returns: the
    fields decoded before a failed check stay written.  [index] follows the
    [index++] of the source. *)
Definition unpack_uplink_packet (data : option (list Z)) (len : Z)
    (packet : option uplink_packet) : bool * option uplink_packet :=
  match data, packet with
  | Some d, Some p =>
    if len <? 6 then (false, packet)
    else
      let index := 0 in
      let '(ok, m) := parse_mhdr (byte_at d index) in
      let p := ul_set_mhdr p m in
      let index := index + 1 in
      if negb ok then (false, Some p)
      else if negb (ul_payload_type p =? UPLINK_TYPE) then (false, Some p)
      else if negb (ul_meta_type p =? LORAWAN_TYPE) then (false, Some p)
      else
        let p := ul_set_uplink_id p
                   (u16 (Z.lor (Z.shiftl (byte_at d index) 4)
                               (Z.land (Z.shiftr (byte_at d (index + 1)) 4) 0x0F))) in
        let p := ul_set_data_rate p (Z.land (byte_at d (index + 1)) 0x0F) in
        let index := index + 2 in
        let p := ul_set_rssi p (s8 (byte_at d index)) in
        let index := index + 1 in
        let p := ul_set_snr p (s8 (byte_at d index)) in
        let index := index + 1 in
        if (ul_snr p <? -32) || (ul_snr p >? 31) then (false, Some p)
        else
          let p := ul_set_channel p (byte_at d index) in
          let index := index + 1 in
          let p := ul_set_payload_len p (u16 (len - index)) in
          if ul_payload_len p >? MAX_PHY_PAYLOAD_LEN then (false, Some p)
          else
            (true, Some (ul_set_phy_payload p
                           (memcpy (ul_phy_payload p) (skipn (Z.to_nat index) d)
                                   (ul_payload_len p))))
  | _, _ => (false, packet)
  end.

(** *** Downlink *)

(** The four bytes [(v >> 24) & 0xFF], ..., [v & 0xFF] of a 32-bit value. *)
Definition bytes32 (v : Z) : list Z :=
  [ Z.land (Z.shiftr v 24) 0xFF; Z.land (Z.shiftr v 16) 0xFF;
    Z.land (Z.shiftr v 8) 0xFF; Z.land v 0xFF ].

(** [(uint32_t)data[i] << 24 | ... | data[i+3]]. *)
Definition read32 (d : list Z) (i : Z) : Z :=
  let v := u32 (Z.shiftl (byte_at d i) 24) in
  let v := Z.lor v (u32 (Z.shiftl (byte_at d (i + 1)) 16)) in
  let v := Z.lor v (u32 (Z.shiftl (byte_at d (i + 2)) 8)) in
  let v := Z.lor v (byte_at d (i + 3)) in
  v.

Definition pack_downlink_packet (heap_ok : bool) (packet : option downlink_packet)
    (out_len : bool) : option (list Z * Z) :=
  match packet with
  | None => None
  | Some p =>
    if negb out_len || (dl_payload_len p >? MAX_PHY_PAYLOAD_LEN) then None
    else if negb (dl_payload_type p =? DOWNLINK_TYPE) then None
    else if negb (dl_meta_type p =? LORAWAN_TYPE) then None
    else
      let len := u16 (1 + 7 + 4 + dl_payload_len p) in
      if negb heap_ok then None
      else
        let freq_be := host_to_be32 (dl_frequency p) in
        let count_us_be := host_to_be32 (dl_count_us p) in
        Some ([ build_mhdr (dl_meta_type p) (dl_payload_type p) (dl_hop_count p);
                Z.land (Z.shiftr (dwlink_id p) 4) 0xFF;
                u8 (Z.lor (Z.shiftl (Z.land (dwlink_id p) 0x0F) 4)
                          (Z.land (dl_data_rate p) 0x0F)) ]
              ++ bytes32 freq_be
              ++ [ u8 (Z.lor (Z.shiftl (Z.land (dl_tx_power p) 0x0F) 4)
                             (Z.land (dl_delay p) 0x0F)) ]
              ++ bytes32 count_us_be
              ++ firstn (Z.to_nat (dl_payload_len p)) (dl_phy_payload p),
              len)
  end.

Definition dl_set_mhdr (p : downlink_packet) (m : Z * Z * Z) : downlink_packet :=
  let '(mt, pt, hc) := m in
  mk_downlink mt pt hc (dwlink_id p) (dl_data_rate p) (dl_frequency p)
              (dl_tx_power p) (dl_delay p) (dl_count_us p) (dl_phy_payload p)
              (dl_payload_len p).

Definition dl_set_dwlink_id (p : downlink_packet) (v : Z) : downlink_packet :=
  mk_downlink (dl_meta_type p) (dl_payload_type p) (dl_hop_count p) v
              (dl_data_rate p) (dl_frequency p) (dl_tx_power p) (dl_delay p)
              (dl_count_us p) (dl_phy_payload p) (dl_payload_len p).

Definition dl_set_data_rate (p : downlink_packet) (v : Z) : downlink_packet :=
  mk_downlink (dl_meta_type p) (dl_payload_type p) (dl_hop_count p) (dwlink_id p)
              v (dl_frequency p) (dl_tx_power p) (dl_delay p) (dl_count_us p)
              (dl_phy_payload p) (dl_payload_len p).

Definition dl_set_frequency (p : downlink_packet) (v : Z) : downlink_packet :=
  mk_downlink (dl_meta_type p) (dl_payload_type p) (dl_hop_count p) (dwlink_id p)
              (dl_data_rate p) v (dl_tx_power p) (dl_delay p) (dl_count_us p)
              (dl_phy_payload p) (dl_payload_len p).

Definition dl_set_tx_power (p : downlink_packet) (v : Z) : downlink_packet :=
  mk_downlink (dl_meta_type p) (dl_payload_type p) (dl_hop_count p) (dwlink_id p)
              (dl_data_rate p) (dl_frequency p) v (dl_delay p) (dl_count_us p)
              (dl_phy_payload p) (dl_payload_len p).

Definition dl_set_delay (p : downlink_packet) (v : Z) : downlink_packet :=
  mk_downlink (dl_meta_type p) (dl_payload_type p) (dl_hop_count p) (dwlink_id p)
              (dl_data_rate p) (dl_frequency p) (dl_tx_power p) v (dl_count_us p)
              (dl_phy_payload p) (dl_payload_len p).

Definition dl_set_count_us (p : downlink_packet) (v : Z) : downlink_packet :=
  mk_downlink (dl_meta_type p) (dl_payload_type p) (dl_hop_count p) (dwlink_id p)
              (dl_data_rate p) (dl_frequency p) (dl_tx_power p) (dl_delay p) v
              (dl_phy_payload p) (dl_payload_len p).

Definition dl_set_payload_len (p : downlink_packet) (v : Z) : downlink_packet :=
  mk_downlink (dl_meta_type p) (dl_payload_type p) (dl_hop_count p) (dwlink_id p)
              (dl_data_rate p) (dl_frequency p) (dl_tx_power p) (dl_delay p)
              (dl_count_us p) (dl_phy_payload p) v.

Definition dl_set_phy_payload (p : downlink_packet) (v : list Z) : downlink_packet :=
  mk_downlink (dl_meta_type p) (dl_payload_type p) (dl_hop_count p) (dwlink_id p)
              (dl_data_rate p) (dl_frequency p) (dl_tx_power p) (dl_delay p)
              (dl_count_us p) v (dl_payload_len p).

Definition unpack_downlink_packet (data : option (list Z)) (len : Z)
    (packet : option downlink_packet) : bool * option downlink_packet :=
  match data, packet with
  | Some d, Some p =>
    if len <? 12 then (false, packet)
    else
      let index := 0 in
      let '(ok, m) := parse_mhdr (byte_at d index) in
      let p := dl_set_mhdr p m in
      let index := index + 1 in
      if negb ok then (false, Some p)
      else if negb (dl_payload_type p =? DOWNLINK_TYPE) then (false, Some p)
      else if negb (dl_meta_type p =? LORAWAN_TYPE) then (false, Some p)
      else
        let p := dl_set_dwlink_id p
                   (u16 (Z.lor (Z.shiftl (byte_at d index) 4)
                               (Z.land (Z.shiftr (byte_at d (index + 1)) 4) 0x0F))) in
        let p := dl_set_data_rate p (Z.land (byte_at d (index + 1)) 0x0F) in
        let index := index + 2 in
        let freq_be := read32 d index in
        let index := index + 4 in
        let p := dl_set_frequency p (be_to_host32 freq_be) in
        let p := dl_set_tx_power p (Z.land (Z.shiftr (byte_at d index) 4) 0x0F) in
        let p := dl_set_delay p (Z.land (byte_at d index) 0x0F) in
        let index := index + 1 in
        let count_us_be := read32 d index in
        let index := index + 4 in
        let p := dl_set_count_us p (be_to_host32 count_us_be) in
        let p := dl_set_payload_len p (u16 (len - index)) in
        if dl_payload_len p >? MAX_PHY_PAYLOAD_LEN then (false, Some p)
        else
          (true, Some (dl_set_phy_payload p
                         (memcpy (dl_phy_payload p) (skipn (Z.to_nat index) d)
                                 (dl_payload_len p))))
  | _, _ => (false, packet)
  end.

(** *** Event *)

Definition pack_event_packet (heap_ok : bool) (packet : option event_packet)
    (out_len : bool) : option (list Z * Z) :=
  match packet with
  | None => None
  | Some p =>
    if negb out_len || (ev_payload_len p >? MAX_EVENT_PAYLOAD_LEN) then None
    else if negb (ev_payload_type p =? EVENT_TYPE) then None
    else if negb (ev_meta_type p =? LORAWAN_TYPE) then None
    else
      let len := u16 (1 + 3 + ev_payload_len p) in
      if negb heap_ok then None
      else
        Some ([ build_mhdr (ev_meta_type p) (ev_payload_type p) (ev_hop_count p);
                Z.land (Z.shiftr (event_id p) 8) 0xFF;
                Z.land (event_id p) 0xFF;
                u8 (event_type p) ]
              ++ firstn (Z.to_nat (ev_payload_len p)) (event_payload p),
              len)
  end.

Definition ev_set_mhdr (p : event_packet) (m : Z * Z * Z) : event_packet :=
  let '(mt, pt, hc) := m in
  mk_event mt pt hc (event_id p) (event_type p) (event_payload p)
           (ev_payload_len p).

Definition ev_set_event_id (p : event_packet) (v : Z) : event_packet :=
  mk_event (ev_meta_type p) (ev_payload_type p) (ev_hop_count p) v
           (event_type p) (event_payload p) (ev_payload_len p).

Definition ev_set_event_type (p : event_packet) (v : Z) : event_packet :=
  mk_event (ev_meta_type p) (ev_payload_type p) (ev_hop_count p) (event_id p)
           v (event_payload p) (ev_payload_len p).

Definition ev_set_payload_len (p : event_packet) (v : Z) : event_packet :=
  mk_event (ev_meta_type p) (ev_payload_type p) (ev_hop_count p) (event_id p)
           (event_type p) (event_payload p) v.

Definition ev_set_event_payload (p : event_packet) (v : list Z) : event_packet :=
  mk_event (ev_meta_type p) (ev_payload_type p) (ev_hop_count p) (event_id p)
           (event_type p) v (ev_payload_len p).

Definition unpack_event_packet (data : option (list Z)) (len : Z)
    (packet : option event_packet) : bool * option event_packet :=
  match data, packet with
  | Some d, Some p =>
    if len <? 4 then (false, packet)
    else
      let index := 0 in
      let '(ok, m) := parse_mhdr (byte_at d index) in
      let p := ev_set_mhdr p m in
      let index := index + 1 in
      if negb ok then (false, Some p)
      else if negb (ev_payload_type p =? EVENT_TYPE) then (false, Some p)
      else if negb (ev_meta_type p =? LORAWAN_TYPE) then (false, Some p)
      else
        let p := ev_set_event_id p (u16 (Z.shiftl (byte_at d index) 8)) in
        let index := index + 1 in
        let p := ev_set_event_id p (Z.lor (event_id p) (byte_at d index)) in
        let index := index + 1 in
        let p := ev_set_event_type p (byte_at d index) in
        let index := index + 1 in
        let p := ev_set_payload_len p (u16 (len - index)) in
        if ev_payload_len p >? MAX_EVENT_PAYLOAD_LEN then (false, Some p)
        else
          (true, Some (ev_set_event_payload p
                         (memcpy (event_payload p) (skipn (Z.to_nat index) d)
                                 (ev_payload_len p))))
  | _, _ => (false, packet)
  end.

End Codec.

End Relay.

(** ** The SX126x HAL: basic_hal.h, lorahub_hal.h, lorahub_aux.c,
       lorahub_hal_rx.c, lorahub_hal.c *)

Module Hal.

(* return status code *)
Definition LGW_HAL_SUCCESS : Z := 0.
Definition LGW_HAL_ERROR : Z := -1.

Definition MOD_UNDEFINED : Z := 0.
Definition MOD_CW : Z := 0x08.
Definition MOD_LORA : Z := 0x10.
Definition MOD_FSK : Z := 0x20.

Definition BW_UNDEFINED : Z := 0.
Definition BW_500KHZ : Z := 0x06.
Definition BW_250KHZ : Z := 0x05.
Definition BW_125KHZ : Z := 0x04.
Definition BW_800KHZ : Z := 0x0F.
Definition BW_400KHZ : Z := 0x0E.
Definition BW_200KHZ : Z := 0x0D.

Definition DR_UNDEFINED : Z := 0.
Definition DR_LORA_SF5 : Z := 5.
Definition DR_LORA_SF6 : Z := 6.
Definition DR_LORA_SF7 : Z := 7.
Definition DR_LORA_SF8 : Z := 8.
Definition DR_LORA_SF9 : Z := 9.
Definition DR_LORA_SF10 : Z := 10.
Definition DR_LORA_SF11 : Z := 11.
Definition DR_LORA_SF12 : Z := 12.

Definition CR_UNDEFINED : Z := 0.
Definition CR_LORA_4_5 : Z := 0x01.
Definition CR_LORA_4_6 : Z := 0x02.
Definition CR_LORA_4_7 : Z := 0x03.
Definition CR_LORA_4_8 : Z := 0x04.

Definition STAT_UNDEFINED : Z := 0x00.
Definition STAT_NO_CRC : Z := 0x01.
Definition STAT_CRC_BAD : Z := 0x11.
Definition STAT_CRC_OK : Z := 0x10.

Definition TX_STATUS_UNKNOWN : Z := 0.
Definition TX_OFF : Z := 1.
Definition TX_FREE : Z := 2.
Definition TX_SCHEDULED : Z := 3.
Definition TX_EMITTING : Z := 4.

Definition RX_STATUS_UNKNOWN : Z := 0.
Definition RX_OFF : Z := 1.
Definition RX_ON : Z := 2.
Definition RX_SUSPENDED : Z := 3.

Definition IS_LORA_BW (bw : Z) : bool :=
  (bw =? BW_125KHZ) || (bw =? BW_250KHZ) || (bw =? BW_500KHZ)
  || (bw =? BW_400KHZ) || (bw =? BW_800KHZ).

Definition IS_LORA_DR (dr : Z) : bool :=
  (dr =? DR_LORA_SF5) || (dr =? DR_LORA_SF6) || (dr =? DR_LORA_SF7)
  || (dr =? DR_LORA_SF8) || (dr =? DR_LORA_SF9) || (dr =? DR_LORA_SF10)
  || (dr =? DR_LORA_SF11) || (dr =? DR_LORA_SF12).

Definition IS_LORA_CR (cr : Z) : bool :=
  (cr =? CR_LORA_4_5) || (cr =? CR_LORA_4_6) || (cr =? CR_LORA_4_7)
  || (cr =? CR_LORA_4_8).

(* struct lgw_pkt_rx_s; a float field holds the number it stands for (the HAL
   only stores integers converted from int8_t, and 0.0). *)
Record lgw_pkt_rx_s := mk_pkt_rx {
  freq_hz : Z;               (* uint32_t *)
  freq_offset : Z;           (* int32_t *)
  if_chain : Z;              (* uint8_t *)
  status : Z;                (* uint8_t *)
  count_us : Z;              (* uint32_t *)
  rf_chain : Z;              (* uint8_t *)
  modem_id : Z;              (* uint8_t *)
  modulation : Z;            (* uint8_t *)
  bandwidth : Z;             (* uint8_t *)
  datarate : Z;              (* uint32_t *)
  coderate : Z;              (* uint8_t *)
  rssic : Z;                 (* float *)
  rssis : Z;                 (* float *)
  snr : Z;                   (* float *)
  snr_min : Z;               (* float *)
  snr_max : Z;               (* float *)
  crc : Z;                   (* uint16_t *)
  size : Z;                  (* uint16_t *)
  payload : list Z;          (* uint8_t [256] *)
  ftime_received : bool;
  ftime : Z                  (* uint32_t *)
}.

(* struct sx126x_conf_rxrf_s; rssi_offset is kept as the 32-bit image of the
   float, which is what memcpy moves. *)
Record sx126x_conf_rxrf_s := mk_rxrf {
  rf_freq_hz : Z;            (* uint32_t *)
  rssi_offset : Z;           (* float *)
  tx_enable : bool
}.

(* struct sx126x_conf_rxif_s; datarate[LGW_MULTI_SF_NB] has two cells. *)
Record sx126x_conf_rxif_s := mk_rxif {
  if_modulation : Z;         (* uint8_t *)
  if_bandwidth : Z;          (* uint8_t *)
  if_datarate : Z * Z;       (* uint8_t [2] *)
  if_coderate : Z            (* uint8_t *)
}.

(** The file-scope variables of lorahub_hal.c. *)
Record hal_state := mk_hal {
  is_started : bool;
  rx_status : Z;
  tx_status : Z;
  rxrf_conf : sx126x_conf_rxrf_s;
  rxif_conf : sx126x_conf_rxif_s
}.

Definition hal_init : hal_state :=
  mk_hal false RX_STATUS_UNKNOWN TX_STATUS_UNKNOWN
         (mk_rxrf 0 0 false)
         (mk_rxif MOD_UNDEFINED BW_UNDEFINED (DR_UNDEFINED, DR_UNDEFINED) CR_UNDEFINED).

Definition set_rxrf_conf (st : hal_state) (c : sx126x_conf_rxrf_s) : hal_state :=
  mk_hal (is_started st) (rx_status st) (tx_status st) c (rxif_conf st).

Definition set_rxif_conf (st : hal_state) (c : sx126x_conf_rxif_s) : hal_state :=
  mk_hal (is_started st) (rx_status st) (tx_status st) (rxrf_conf st) c.

(** [conf = None] is a NULL pointer.  The result is the return code and the
    file-scope state after the call. *)
Definition sx126x_rxrf_setconf (conf : option sx126x_conf_rxrf_s) (st : hal_state)
    : Z * hal_state :=
  match conf with
  | None => (LGW_HAL_ERROR, st)                       (* CHECK_NULL *)
  | Some c =>
    if Bool.eqb (is_started st) true then (LGW_HAL_ERROR, st)
    else (LGW_HAL_SUCCESS, set_rxrf_conf st c)        (* memcpy *)
  end.

Definition sx126x_rxif_setconf (conf : option sx126x_conf_rxif_s) (st : hal_state)
    : Z * hal_state :=
  match conf with
  | None => (LGW_HAL_ERROR, st)                       (* CHECK_NULL *)
  | Some c =>
    if Bool.eqb (is_started st) true then (LGW_HAL_ERROR, st)
    else if Bool.eqb (IS_LORA_DR (fst (if_datarate c))) false then (LGW_HAL_ERROR, st)
    else if negb (snd (if_datarate c) =? DR_UNDEFINED)
            && Bool.eqb (IS_LORA_DR (snd (if_datarate c))) false
         then (LGW_HAL_ERROR, st)
    else if Bool.eqb (IS_LORA_BW (if_bandwidth c)) false then (LGW_HAL_ERROR, st)
    else if Bool.eqb (IS_LORA_CR (if_coderate c)) false then (LGW_HAL_ERROR, st)
    else (LGW_HAL_SUCCESS, set_rxif_conf st c)        (* memcpy *)
  end.

Section TimestampCorrection.

(** [sx126x_get_lora_bw_in_hz] is declared in lorahub_aux.h
    ([uint32_t sx126x_get_lora_bw_in_hz( uint8_t bw )]); in lorahub_aux.c its
    body is inside a comment, so the function the build links is not among
    the sources and the bandwidth in Hz of a bandwidth code is left open. *)
Variable sx126x_get_lora_bw_in_hz : Z -> Z.

(** [( 1 << sf ) * 1000000 / bw_in_hz]: the product is an [int] converted to
    [unsigned] for the division; the model takes its low 32 bits (from SF12
    on the [int] product overflows in C).  Both parameters are [uint8_t] and
    [bw_in_hz] is a [uint32_t]. *)
Definition sx126x_radio_timestamp_correction (sf bw : Z) : Z :=
  let t_symbol_us := 0 in
  let bw_in_hz := u32 (sx126x_get_lora_bw_in_hz (u8 bw)) in
  if negb (bw_in_hz =? 0)
  then u32 (u32 (Z.shiftl 1 (u8 sf) * 1000000) / bw_in_hz)
  else t_symbol_us.

End TimestampCorrection.

(** The file-scope variables of lorahub_hal_rx.c that the receive path uses
    ([configured_freq_hz] and [configured_bw] are only written, by
    [sx126x_radio_configure_rx]). *)
Record rx_state := mk_rx {
  irq_fired : bool;
  irq_count_us : Z;
  flag_rx_done : bool;
  flag_rx_crc_error : bool;
  flag_rx_timeout : bool;
  main_detector_sf : Z;
  side_detector_sf : Z
}.

(** What the radio driver (RAL), which is outside the repository, answers
    during one call of [sx126x_radio_get_pkt]. *)
Record radio_env := mk_env {
  irq_regs : Z;                       (* ral_get_and_clear_irq_status *)
  pkt_status_ok : bool;               (* ral_get_lora_rx_pkt_status == RAL_STATUS_OK *)
  rssi_pkt_in_dbm : Z;                (* int8_t *)
  snr_pkt_in_db : Z;                  (* int8_t *)
  pkt_payload_ok : bool;              (* ral_get_pkt_payload == RAL_STATUS_OK *)
  pkt_payload : list Z -> list Z;     (* the payload buffer after the call *)
  pkt_size : Z                        (* uint16_t *)
}.

(** The values [sx126x_radio_get_pkt] hands back through its pointers. *)
Record get_pkt_out := mk_out {
  o_irq_received : bool;
  o_count_us : Z;
  o_sf : Z;
  o_rssi : Z;
  o_snr : Z;
  o_status : Z;
  o_size : Z;
  o_payload : list Z
}.

Section Radio.

(** The interrupt masks of the RAL headers, which are outside the repository. *)
Variables RAL_IRQ_RX_DONE RAL_IRQ_RX_CRC_ERROR RAL_IRQ_RX_TIMEOUT : Z.

(** The bandwidth table of lorahub_aux.h, whose body is not among the
    sources. *)
Variable sx126x_get_lora_bw_in_hz : Z -> Z.

Definition radio_irq_process (rx : rx_state) (env : radio_env) : rx_state :=
  if Bool.eqb (irq_fired rx) true then
    let regs := irq_regs env in
    mk_rx false (irq_count_us rx)
      (if Z.land regs RAL_IRQ_RX_DONE =? RAL_IRQ_RX_DONE then true else flag_rx_done rx)
      (if Z.land regs RAL_IRQ_RX_CRC_ERROR =? RAL_IRQ_RX_CRC_ERROR then true
       else flag_rx_crc_error rx)
      (if Z.land regs RAL_IRQ_RX_TIMEOUT =? RAL_IRQ_RX_TIMEOUT then true
       else flag_rx_timeout rx)
      (main_detector_sf rx) (side_detector_sf rx)
  else rx.

(** The result is the return value, the file-scope state and the outputs.
    [ASSERT_RAL_RC] returns -1 at once when the driver call fails. *)
Definition sx126x_radio_get_pkt (rx : rx_state) (env : radio_env) (payload : list Z)
    : Z * rx_state * get_pkt_out :=
  let nb_pkt_received := 0 in
  let rssi_offset := 0 in
  let sf := main_detector_sf rx in
  let rx := radio_irq_process rx env in
  if Bool.eqb (flag_rx_done rx) true || Bool.eqb (flag_rx_crc_error rx) true then
    let count := irq_count_us rx in
    if negb (pkt_status_ok env)
    then (-1, rx, mk_out true count sf 0 0 STAT_UNDEFINED 0 payload)
    else
      let rssi := s8 (rssi_pkt_in_dbm env + rssi_offset) in
      let snr := snr_pkt_in_db env in
      if Bool.eqb (flag_rx_crc_error rx) true then
        (nb_pkt_received + 1,
         mk_rx (irq_fired rx) (irq_count_us rx) false false (flag_rx_timeout rx)
               (main_detector_sf rx) (side_detector_sf rx),
         mk_out true count sf rssi snr STAT_CRC_BAD 0 payload)
      else if negb (pkt_payload_ok env)
      then (-1, rx,
            mk_out true count sf rssi snr STAT_CRC_OK (pkt_size env)
                   (pkt_payload env payload))
      else
        (nb_pkt_received + 1,
         mk_rx (irq_fired rx) (irq_count_us rx) false false (flag_rx_timeout rx)
               (main_detector_sf rx) (side_detector_sf rx),
         mk_out true count sf rssi snr STAT_CRC_OK (pkt_size env)
                (pkt_payload env payload))
  else if Bool.eqb (flag_rx_timeout rx) true then
    (nb_pkt_received,
     mk_rx (irq_fired rx) (irq_count_us rx) (flag_rx_done rx) (flag_rx_crc_error rx)
           false (main_detector_sf rx) (side_detector_sf rx),
     mk_out true 0 sf 0 0 STAT_UNDEFINED 0 payload)
  else
    (nb_pkt_received, rx, mk_out false 0 sf 0 0 STAT_UNDEFINED 0 payload).

(** [memset( p, 0, sizeof( struct lgw_pkt_rx_s ) )] *)
Definition pkt_rx_zero : lgw_pkt_rx_s :=
  mk_pkt_rx 0 0 0 0 0 0 0 0 0 0 0 0 0 0 0 0 0 0 (repeat 0 256%nat) false 0.

Definition set_payload (p : lgw_pkt_rx_s) (pl : list Z) : lgw_pkt_rx_s :=
  mk_pkt_rx (freq_hz p) (freq_offset p) (if_chain p) (status p) (count_us p)
    (rf_chain p) (modem_id p) (modulation p) (bandwidth p) (datarate p)
    (coderate p) (rssic p) (rssis p) (snr p) (snr_min p) (snr_max p) (crc p)
    (size p) pl (ftime_received p) (ftime p).

(** What one call of [sx126x_receive] leaves behind. *)
Record receive_result := mk_recv {
  r_ret : Z;                          (* the returned int *)
  r_pkt_data : list lgw_pkt_rx_s;     (* the caller's array after the call *)
  r_rx : rx_state;                    (* lorahub_hal_rx.c variables *)
  r_rearmed : bool                    (* sx126x_radio_set_rx was called *)
}.

(** [pkt_data] is the caller's array; the function only uses [&pkt_data[0]].
    With an array of no cell the stores through that pointer fall outside it
    and the model has no result ([None]). *)
Definition sx126x_receive (max_pkt : Z) (pkt_data : list lgw_pkt_rx_s)
    (st : hal_state) (rx : rx_state) (env : radio_env) : option receive_result :=
  if Bool.eqb (is_started st) false
  then Some (mk_recv LGW_HAL_ERROR pkt_data rx false)
  else
    match pkt_data with
    | [] => None
    | _ :: others =>
      let p := pkt_rx_zero in
      let '(nb_packet_received, rx', out) := sx126x_radio_get_pkt rx env (payload p) in
      let p := set_payload p (o_payload out) in
      let p :=
        if nb_packet_received >? 0 then
          let dr := u32 (o_sf out) in
          let bw := if_bandwidth (rxif_conf st) in
          let count_us_correction :=
            sx126x_radio_timestamp_correction sx126x_get_lora_bw_in_hz dr bw in
          {| freq_hz := rf_freq_hz (rxrf_conf st);
             freq_offset := freq_offset p;
             if_chain := 0;
             status := o_status out;
             count_us := u32 (o_count_us out - count_us_correction);
             rf_chain := 0;
             modem_id := modem_id p;
             modulation := if_modulation (rxif_conf st);
             bandwidth := bw;
             datarate := dr;
             coderate := if_coderate (rxif_conf st);
             rssic := o_rssi out;
             rssis := rssis p;
             snr := o_snr out;
             snr_min := snr_min p;
             snr_max := snr_max p;
             crc := crc p;
             size := o_size out;
             payload := payload p;
             ftime_received := ftime_received p;
             ftime := ftime p |}
        else p in
      Some (mk_recv nb_packet_received (p :: others) rx'
                    (Bool.eqb (o_irq_received out) true))
    end.

End Radio.

(** *** The wait before transmission, in [sx126x_send] *)

Definition SX126X_RTC_FREQ_IN_HZ : Z := 64000.

(** [( tick ) * 1000000 / ( freq )] on [uint32_t] operands. *)
Definition TCXO_STARTUP_TIME_US (tick freq : Z) : Z := u32 (tick * 1000000) / freq.

(** The condition of the [do ... while]:
    [( int32_t )( pkt_data->count_us - count_us_now ) > ( int32_t ) tcxo_startup_time_us]. *)
Definition send_wait_cond (target count_us_now tcxo_startup_time_us : Z) : bool :=
  s32 (u32 (target - count_us_now)) >? s32 tcxo_startup_time_us.

(** The [do { sx126x_get_instcnt( &count_us_now ); wait_ms( 100 ); } while( ... )]
    loop of [sx126x_send].  [clock] holds the successive readings of the
    counter; the result is the reading at which the loop is left and the
    readings not consumed, or [None] when the loop is still waiting after the
    last reading. *)
Fixpoint sx126x_send_wait (target tcxo_startup_time_us : Z) (clock : list Z)
    : option (Z * list Z) :=
  match clock with
  | [] => None
  | count_us_now :: later =>
    if send_wait_cond target count_us_now tcxo_startup_time_us
    then sx126x_send_wait target tcxo_startup_time_us later
    else Some (count_us_now, later)
  end.

End Hal.

(** ** Gateway data: gwcfg.h *)

Module Gw.




End Gw.

(** ** Packets of the C types, valid packets *)

Section RelayPackets.
Import Relay.

Definition in_range (lo hi x : Z) : bool := (lo <=? x) && (x <? hi).

(** The fields are in the range of their C types and the payload array has
    its declared size. *)
Definition uplink_typed (p : uplink_packet) : bool :=
  in_range 0 4294967296 (ul_meta_type p) && in_range 0 4294967296 (ul_payload_type p)
  && in_range 0 256 (ul_hop_count p) && in_range 0 65536 (uplink_id p)
  && in_range 0 256 (ul_data_rate p) && in_range (-128) 128 (ul_rssi p)
  && in_range (-128) 128 (ul_snr p) && in_range 0 256 (ul_channel p)
  && (Z.of_nat (List.length (ul_phy_payload p)) =? MAX_PHY_PAYLOAD_LEN)
  && in_range 0 65536 (ul_payload_len p).

Definition downlink_typed (p : downlink_packet) : bool :=
  in_range 0 4294967296 (dl_meta_type p) && in_range 0 4294967296 (dl_payload_type p)
  && in_range 0 256 (dl_hop_count p) && in_range 0 65536 (dwlink_id p)
  && in_range 0 256 (dl_data_rate p) && in_range 0 4294967296 (dl_frequency p)
  && in_range 0 256 (dl_tx_power p) && in_range 0 256 (dl_delay p)
  && in_range 0 4294967296 (dl_count_us p)
  && (Z.of_nat (List.length (dl_phy_payload p)) =? MAX_PHY_PAYLOAD_LEN)
  && in_range 0 65536 (dl_payload_len p).

Definition event_typed (p : event_packet) : bool :=
  in_range 0 4294967296 (ev_meta_type p) && in_range 0 4294967296 (ev_payload_type p)
  && in_range 0 256 (ev_hop_count p) && in_range 0 65536 (event_id p)
  && in_range 0 4294967296 (event_type p)
  && (Z.of_nat (List.length (event_payload p)) =? MAX_EVENT_PAYLOAD_LEN)
  && in_range 0 65536 (ev_payload_len p).

(** Validity as the specification lists it: discriminators, hop count below
    8, 12-bit id, 4-bit data rate, uplink SNR in -32..31, payload length
    within the cap of the kind. *)
Definition uplink_valid (p : uplink_packet) : bool :=
  (ul_meta_type p =? LORAWAN_TYPE) && (ul_payload_type p =? UPLINK_TYPE)
  && (ul_hop_count p <? 8) && (uplink_id p <? 4096) && (ul_data_rate p <? 16)
  && in_range (-32) 32 (ul_snr p) && (ul_payload_len p <=? MAX_PHY_PAYLOAD_LEN).

Definition downlink_valid (p : downlink_packet) : bool :=
  (dl_meta_type p =? LORAWAN_TYPE) && (dl_payload_type p =? DOWNLINK_TYPE)
  && (dl_hop_count p <? 8) && (dwlink_id p <? 4096) && (dl_data_rate p <? 16)
  && (dl_payload_len p <=? MAX_PHY_PAYLOAD_LEN).

Definition event_valid (p : event_packet) : bool :=
  (ev_meta_type p =? LORAWAN_TYPE) && (ev_payload_type p =? EVENT_TYPE)
  && (ev_hop_count p <? 8) && (ev_payload_len p <=? MAX_EVENT_PAYLOAD_LEN).

(** What the wire format adds: a downlink carries [tx_power] and [delay] on 4
    bits each, an event carries [event_type] on one byte. *)
Definition downlink_fits_wire (p : downlink_packet) : bool :=
  (dl_tx_power p <? 16) && (dl_delay p <? 16).

Definition event_fits_wire (p : event_packet) : bool := event_type p <? 256.

(** Two packets are the same packet when their fields and their payload
    bytes (the first [payload_len] cells of the array) are equal. *)
Definition uplink_same (p q : uplink_packet) : Prop :=
  ul_meta_type p = ul_meta_type q /\ ul_payload_type p = ul_payload_type q /\
  ul_hop_count p = ul_hop_count q /\ uplink_id p = uplink_id q /\
  ul_data_rate p = ul_data_rate q /\ ul_rssi p = ul_rssi q /\
  ul_snr p = ul_snr q /\ ul_channel p = ul_channel q /\
  ul_payload_len p = ul_payload_len q /\
  firstn (Z.to_nat (ul_payload_len p)) (ul_phy_payload p)
  = firstn (Z.to_nat (ul_payload_len q)) (ul_phy_payload q).

Definition downlink_same (p q : downlink_packet) : Prop :=
  dl_meta_type p = dl_meta_type q /\ dl_payload_type p = dl_payload_type q /\
  dl_hop_count p = dl_hop_count q /\ dwlink_id p = dwlink_id q /\
  dl_data_rate p = dl_data_rate q /\ dl_frequency p = dl_frequency q /\
  dl_tx_power p = dl_tx_power q /\ dl_delay p = dl_delay q /\
  dl_count_us p = dl_count_us q /\ dl_payload_len p = dl_payload_len q /\
  firstn (Z.to_nat (dl_payload_len p)) (dl_phy_payload p)
  = firstn (Z.to_nat (dl_payload_len q)) (dl_phy_payload q).

Definition event_same (p q : event_packet) : Prop :=
  ev_meta_type p = ev_meta_type q /\ ev_payload_type p = ev_payload_type q /\
  ev_hop_count p = ev_hop_count q /\ event_id p = event_id q /\
  event_type p = event_type q /\ ev_payload_len p = ev_payload_len q /\
  firstn (Z.to_nat (ev_payload_len p)) (event_payload p)
  = firstn (Z.to_nat (ev_payload_len q)) (event_payload q).

(** The discriminators an MHDR byte carries. *)
Definition mhdr_meta_type (mhdr_byte : Z) : Z := Z.land (Z.shiftr mhdr_byte 5) 0x07.
Definition mhdr_payload_type (mhdr_byte : Z) : Z := Z.land (Z.shiftr mhdr_byte 3) 0x03.

(** The 32-bit value made of four bytes, most significant first. *)
Definition combine32 (b3 b2 b1 b0 : Z) : Z :=
  Z.lor (Z.lor (Z.lor (Z.shiftl b3 24) (Z.shiftl b2 16)) (Z.shiftl b1 8)) b0.

(** Decoding, into [dst], what the encoder made of [p]. *)
Definition uplink_roundtrip (p dst : uplink_packet) : bool * option uplink_packet :=
  match pack_uplink_packet true (Some p) true with
  | Some (buf, len) => unpack_uplink_packet (Some buf) len (Some dst)
  | None => (false, None)
  end.

Definition downlink_roundtrip (big_endian : bool) (p dst : downlink_packet)
    : bool * option downlink_packet :=
  match pack_downlink_packet big_endian true (Some p) true with
  | Some (buf, len) => unpack_downlink_packet big_endian (Some buf) len (Some dst)
  | None => (false, None)
  end.

Definition event_roundtrip (p dst : event_packet) : bool * option event_packet :=
  match pack_event_packet true (Some p) true with
  | Some (buf, len) => unpack_event_packet (Some buf) len (Some dst)
  | None => (false, None)
  end.

(** The packets of the examples. *)
Definition zero_payload (n : nat) : list Z := repeat 0 n.

Definition example_uplink : uplink_packet :=
  mk_uplink 7 0 2 0xABC 5 (-80) 7 3 ([0xDE; 0xAD] ++ zero_payload 243) 2.

Definition example_downlink (tx_power : Z) : downlink_packet :=
  mk_downlink 7 1 2 0xABC 5 868100000 tx_power 3 0x12345678
              ([0xDE; 0xAD] ++ zero_payload 243) 2.

Definition example_event : event_packet :=
  mk_event 7 3 1 0xBEEF EVENT_RESET ([1; 2; 3] ++ zero_payload 237) 3.

End RelayPackets.

(** ** Vocabulary of the HAL properties *)

Section HalVocabulary.
Import Hal.

(** [( int32_t )( target - count_us_now )]: how far ahead of the counter the
    target is. *)
Definition count_us_ahead (target count_us_now : Z) : Z :=
  s32 (u32 (target - count_us_now)).

(** What [sx126x_rxif_setconf] refuses in a configuration: a first data rate
    that is not a LoRa spreading factor, a second one that is neither
    [DR_UNDEFINED] (no second detector) nor a LoRa spreading factor, a
    bandwidth or a code rate that is not a LoRa one. *)
Definition rxif_invalid (c : sx126x_conf_rxif_s) : Prop :=
  IS_LORA_DR (fst (if_datarate c)) = false \/
  (snd (if_datarate c) <> DR_UNDEFINED /\ IS_LORA_DR (snd (if_datarate c)) = false) \/
  IS_LORA_BW (if_bandwidth c) = false \/
  IS_LORA_CR (if_coderate c) = false.

(** The configurations and states of the examples. *)
Definition example_rxif : sx126x_conf_rxif_s :=
  mk_rxif MOD_LORA BW_125KHZ (DR_LORA_SF7, DR_UNDEFINED) CR_LORA_4_5.

Definition example_rxrf : sx126x_conf_rxrf_s := mk_rxrf 868100000 0 true.

Definition hal_started : hal_state :=
  mk_hal true RX_ON TX_FREE example_rxrf example_rxif.

(** An interrupt has fired and the radio reports a received packet of two
    bytes; the masks are example values. *)
Definition example_irq_rx_done : Z := 2.
Definition example_irq_rx_crc_error : Z := 64.
Definition example_irq_rx_timeout : Z := 512.

(** A bandwidth table for the examples: 125, 250 and 500 kHz. *)
Definition example_bw_in_hz (bw : Z) : Z :=
  if bw =? BW_125KHZ then 125000
  else if bw =? BW_250KHZ then 250000
  else if bw =? BW_500KHZ then 500000
  else 0.

Definition example_rx : rx_state := mk_rx true 5000000 false false false DR_LORA_SF7 DR_UNDEFINED.

Definition example_env : radio_env :=
  mk_env example_irq_rx_done true (-80) 7 true
         (fun buf => [0xDE; 0xAD] ++ skipn 2 buf) 2.

End HalVocabulary.

(** ** Vocabulary of the gateway properties *)

Section GwVocabulary.
Import Gw.



End GwVocabulary.

(** ** The relay protocol: identifiers and packet creation *)

Section RelayCreation.
Import Relay.

(** [generate_uplink_id]: [initialized] is the function's static flag and
    [rand_value] what [rand()] returns.  The result is the identifier, the
    flag after the call, and whether [srand] was called. *)
Definition generate_uplink_id (initialized : bool) (rand_value : Z) : Z * bool * bool :=
  let seeded := negb initialized in
  (u16 (Z.land rand_value 0x0FFF), true, seeded).

(** [generate_dwlink_id] calls [generate_uplink_id], and shares its flag. *)
Definition generate_dwlink_id (initialized : bool) (rand_value : Z) : Z * bool * bool :=
  generate_uplink_id initialized rand_value.

(** Successive calls, one per value of [rand()]: the identifiers, the flag
    at the end and the number of calls of [srand]. *)
Fixpoint generate_ids (initialized : bool) (rand_values : list Z) : list Z * bool * nat :=
  match rand_values with
  | [] => ([], initialized, 0%nat)
  | r :: later =>
    let '(id, initialized', seeded) := generate_uplink_id initialized r in
    let '(ids, final, seedings) := generate_ids initialized' later in
    (id :: ids, final, ((if seeded then 1 else 0) + seedings)%nat)
  end.

(** [init_uplink_packet]: [memset] to zero, then the defaults; a NULL pointer
    is left alone. *)
Definition init_uplink_packet (packet : option uplink_packet) : option uplink_packet :=
  match packet with
  | None => None
  | Some _ =>
    Some (mk_uplink LORAWAN_TYPE UPLINK_TYPE 0 0 0 0 0 0
                    (repeat 0 (Z.to_nat MAX_PHY_PAYLOAD_LEN)) 0)
  end.

(** [create_uplink_packet]: [heap_ok] is the outcome of [malloc] and [fresh]
    the content of the block it returns. *)
Definition create_uplink_packet (heap_ok : bool) (fresh : uplink_packet)
    : option uplink_packet :=
  if heap_ok then init_uplink_packet (Some fresh) else None.

(** The result is the packet (or NULL) and the flag of the identifier
    generator, which is only called when the allocation succeeded. *)
Definition create_uplink_packet_with_params (heap_ok : bool) (fresh : uplink_packet)
    (initialized : bool) (rand_value : Z) (data_rate rssi snr channel : Z)
    : option uplink_packet * bool :=
  match create_uplink_packet heap_ok fresh with
  | Some p =>
    let '(id, initialized', _) := generate_uplink_id initialized rand_value in
    let p := ul_set_uplink_id p id in
    let p := ul_set_data_rate p data_rate in
    let p := ul_set_rssi p rssi in
    let p := ul_set_snr p snr in
    let p := ul_set_channel p channel in
    (Some p, initialized')
  | None => (None, initialized)
  end.

Definition init_downlink_packet (packet : option downlink_packet) : option downlink_packet :=
  match packet with
  | None => None
  | Some _ =>
    Some (mk_downlink LORAWAN_TYPE DOWNLINK_TYPE 0 0 0 0 0 0 0
                      (repeat 0 (Z.to_nat MAX_PHY_PAYLOAD_LEN)) 0)
  end.

Definition create_downlink_packet (heap_ok : bool) (fresh : downlink_packet)
    : option downlink_packet :=
  if heap_ok then init_downlink_packet (Some fresh) else None.

Definition create_downlink_packet_with_params (heap_ok : bool) (fresh : downlink_packet)
    (initialized : bool) (rand_value : Z) (data_rate frequency tx_power delay : Z)
    : option downlink_packet * bool :=
  match create_downlink_packet heap_ok fresh with
  | Some p =>
    let '(id, initialized', _) := generate_dwlink_id initialized rand_value in
    let p := dl_set_dwlink_id p id in
    let p := dl_set_data_rate p data_rate in
    let p := dl_set_frequency p frequency in
    let p := dl_set_tx_power p tx_power in
    let p := dl_set_delay p delay in
    (Some p, initialized')
  | None => (None, initialized)
  end.

(** A buffer of bytes. *)
Definition bytes (d : list Z) : Prop := Forall (fun b => 0 <= b < 256) d.

(** The cells of a payload array are bytes. *)
Definition uplink_payload_bytes (p : uplink_packet) : Prop := bytes (ul_phy_payload p).
Definition downlink_payload_bytes (p : downlink_packet) : Prop := bytes (dl_phy_payload p).
Definition event_payload_bytes (p : event_packet) : Prop := bytes (event_payload p).

(** What the wire keeps of a packet's fields. *)
Definition uplink_on_wire (p : uplink_packet) : uplink_packet :=
  mk_uplink (ul_meta_type p) (ul_payload_type p) (Z.land (ul_hop_count p) 0x07)
            (Z.land (uplink_id p) 0x0FFF) (Z.land (ul_data_rate p) 0x0F)
            (ul_rssi p) (ul_snr p) (ul_channel p) (ul_phy_payload p)
            (ul_payload_len p).

Definition downlink_on_wire (p : downlink_packet) : downlink_packet :=
  mk_downlink (dl_meta_type p) (dl_payload_type p) (Z.land (dl_hop_count p) 0x07)
              (Z.land (dwlink_id p) 0x0FFF) (Z.land (dl_data_rate p) 0x0F)
              (dl_frequency p) (Z.land (dl_tx_power p) 0x0F)
              (Z.land (dl_delay p) 0x0F) (dl_count_us p) (dl_phy_payload p)
              (dl_payload_len p).

Definition event_on_wire (p : event_packet) : event_packet :=
  mk_event (ev_meta_type p) (ev_payload_type p) (Z.land (ev_hop_count p) 0x07)
           (event_id p) (Z.land (event_type p) 0xFF) (event_payload p)
           (ev_payload_len p).

(** The conditions under which each decoder returns true. *)
Definition uplink_accepts (d : list Z) (len : Z) : Prop :=
  6 <= len <= 6 + MAX_PHY_PAYLOAD_LEN /\
  mhdr_meta_type (byte_at d 0) = LORAWAN_TYPE /\
  mhdr_payload_type (byte_at d 0) = UPLINK_TYPE /\
  -32 <= s8 (byte_at d 4) <= 31.

Definition downlink_accepts (d : list Z) (len : Z) : Prop :=
  12 <= len <= 12 + MAX_PHY_PAYLOAD_LEN /\
  mhdr_meta_type (byte_at d 0) = LORAWAN_TYPE /\
  mhdr_payload_type (byte_at d 0) = DOWNLINK_TYPE.

Definition event_accepts (d : list Z) (len : Z) : Prop :=
  4 <= len <= 4 + MAX_EVENT_PAYLOAD_LEN /\
  mhdr_meta_type (byte_at d 0) = LORAWAN_TYPE /\
  mhdr_payload_type (byte_at d 0) = EVENT_TYPE.

(** Decoding, on a host of the other byte order, what a host whose byte
    order is [is_big_endian] encoded. *)
Definition downlink_crossed (is_big_endian : bool) (p dst : downlink_packet)
    : bool * option downlink_packet :=
  match pack_downlink_packet is_big_endian true (Some p) true with
  | Some (buf, len) => unpack_downlink_packet (negb is_big_endian) (Some buf) len (Some dst)
  | None => (false, None)
  end.

(** The four cells of a buffer from cell [i] on. *)
Definition four_bytes_at (buf : list Z) (i : nat) : list Z := firstn 4 (skipn i buf).

(** An accepted uplink frame, of six header bytes and two payload bytes. *)
Definition example_frame : list Z := [0xE2; 0xAB; 0xC5; 0xB0; 0x07; 0x03; 0xDE; 0xAD].

End RelayCreation.

(** ** The SX126x HAL: configuration checks, start, stop, status,
       transmission, clock; lorahub_aux.c, lorahub_hal_rx.c, lorahub_hal.c *)

Section HalControl.
Import Hal.

(** *** lorahub_aux.c *)

Definition FREQ_HZ_SUBGHZ_MIN : Z := 150000000.
Definition FREQ_HZ_SUBGHZ_MAX : Z := 960000000.

Definition STD_LORA_PREAMBLE : Z := 8.
Definition HDR_LORA_PREAMBLE : Z := 12.

Definition LORA_SYNC_WORD_PRIVATE : Z := 0x12.
Definition LORA_SYNC_WORD_PUBLIC_SUBGHZ : Z := 0x34.
Definition LORA_SYNC_WORD_PUBLIC_WW2G4 : Z := 0x21.

Definition LPWAN_NETWORK_TYPE_PUBLIC : Z := 0.
Definition LPWAN_NETWORK_TYPE_PRIVATE : Z := 1.
Definition LPWAN_NETWORK_TYPE : Z := LPWAN_NETWORK_TYPE_PUBLIC.

Definition TX_STATUS : Z := 1.
Definition RX_STATUS : Z := 2.
Definition SX126X_RF_CHAIN_NB : Z := 1.

Definition sx126x_check_lora_mod_params (freq_hz bw cr : Z) : Z :=
  if (freq_hz <? FREQ_HZ_SUBGHZ_MIN) || (freq_hz >? FREQ_HZ_SUBGHZ_MAX)
  then LGW_HAL_ERROR
  else if negb (bw =? BW_125KHZ) && negb (bw =? BW_250KHZ) && negb (bw =? BW_500KHZ)
  then LGW_HAL_ERROR
  else if negb (cr =? CR_LORA_4_5) && negb (cr =? CR_LORA_4_6)
          && negb (cr =? CR_LORA_4_7) && negb (cr =? CR_LORA_4_8)
  then LGW_HAL_ERROR
  else LGW_HAL_SUCCESS.

Definition sx126x_get_lora_sync_word (freq_hz sf : Z) : Z :=
  let lora_sync_word := LORA_SYNC_WORD_PRIVATE in
  if LPWAN_NETWORK_TYPE =? LPWAN_NETWORK_TYPE_PUBLIC then
    if freq_hz >=? 2400000000 then LORA_SYNC_WORD_PUBLIC_WW2G4
    else if sf >=? DR_LORA_SF7 then LORA_SYNC_WORD_PUBLIC_SUBGHZ
    else lora_sync_word
  else lora_sync_word.

Definition sx126x_check_lora_dualsf_conf (bw sf1 sf2 : Z) : Z := LGW_HAL_SUCCESS.

(** The members of the driver's enumerations that the HAL names; [None] is
    the [-1] that a conversion returns for a value it does not support. *)
Inductive ral_lora_sf_t :=
| RAL_LORA_SF5 | RAL_LORA_SF6 | RAL_LORA_SF7 | RAL_LORA_SF8
| RAL_LORA_SF9 | RAL_LORA_SF10 | RAL_LORA_SF11 | RAL_LORA_SF12.

Inductive ral_lora_bw_t := RAL_LORA_BW_125_KHZ | RAL_LORA_BW_250_KHZ | RAL_LORA_BW_500_KHZ.

Inductive ral_lora_cr_t := RAL_LORA_CR_4_5 | RAL_LORA_CR_4_6 | RAL_LORA_CR_4_7 | RAL_LORA_CR_4_8.

Definition sx126x_convert_hal_to_ral_sf (sf : Z) : option ral_lora_sf_t :=
  if sf =? DR_LORA_SF5 then Some RAL_LORA_SF5
  else if sf =? DR_LORA_SF6 then Some RAL_LORA_SF6
  else if sf =? DR_LORA_SF7 then Some RAL_LORA_SF7
  else if sf =? DR_LORA_SF8 then Some RAL_LORA_SF8
  else if sf =? DR_LORA_SF9 then Some RAL_LORA_SF9
  else if sf =? DR_LORA_SF10 then Some RAL_LORA_SF10
  else if sf =? DR_LORA_SF11 then Some RAL_LORA_SF11
  else if sf =? DR_LORA_SF12 then Some RAL_LORA_SF12
  else None.

Definition sx126x_convert_hal_to_ral_bw (bw : Z) : option ral_lora_bw_t :=
  if bw =? BW_125KHZ then Some RAL_LORA_BW_125_KHZ
  else if bw =? BW_250KHZ then Some RAL_LORA_BW_250_KHZ
  else if bw =? BW_500KHZ then Some RAL_LORA_BW_500_KHZ
  else None.

Definition sx126x_convert_hal_to_ral_cr (cr : Z) : option ral_lora_cr_t :=
  if cr =? CR_LORA_4_5 then Some RAL_LORA_CR_4_5
  else if cr =? CR_LORA_4_6 then Some RAL_LORA_CR_4_6
  else if cr =? CR_LORA_4_7 then Some RAL_LORA_CR_4_7
  else if cr =? CR_LORA_4_8 then Some RAL_LORA_CR_4_8
  else None.

(** *** The radio driver *)

(** The calls the HAL makes to the driver (RAL), which is outside the
    repository, with the arguments the HAL computes.  The packet parameters
    other than the preamble length are constants in [sx126x_radio_configure_rx]
    (explicit header, length 0, CRC on, IQ not inverted); the [ldro] field of
    the modulation parameters is what the driver derives from [sf] and [bw]. *)
Inductive ral_call :=
| ral_reset
| ral_init
| ral_set_rx_tx_fallback_mode
| ral_set_standby
| ral_set_pkt_type
| ral_set_lora_mod_params (sf : option ral_lora_sf_t) (bw : option ral_lora_bw_t)
                          (cr : option ral_lora_cr_t)
| ral_set_lora_pkt_params (preamble_len_in_symb : Z)
| ral_set_lora_sync_word (sync_word : Z)
| ral_set_rf_freq (freq_hz : Z)
| ral_cal_img (freq_mhz_low freq_mhz_high : Z)
| ral_set_lora_symb_nb_timeout (nb_of_symbs : Z)
| ral_set_dio_irq_params (irq_mask : Z)
| ral_clear_irq_status
| ral_set_rx (timeout_ms : Z)
| ral_set_tx.

(* struct lgw_pkt_tx_s *)
Record lgw_pkt_tx_s := mk_pkt_tx {
  tx_freq_hz : Z;            (* uint32_t *)
  tx_mode : Z;               (* uint8_t *)
  tx_count_us : Z;           (* uint32_t *)
  tx_rf_chain : Z;           (* uint8_t *)
  tx_rf_power : Z;           (* int8_t *)
  tx_modulation : Z;         (* uint8_t *)
  tx_freq_offset : Z;        (* int8_t *)
  tx_bandwidth : Z;          (* uint8_t *)
  tx_datarate : Z;           (* uint32_t *)
  tx_coderate : Z;           (* uint8_t *)
  tx_invert_pol : bool;
  tx_f_dev : Z;              (* uint8_t *)
  tx_preamble : Z;           (* uint16_t *)
  tx_no_crc : bool;
  tx_no_header : bool;
  tx_size : Z;               (* uint16_t *)
  tx_payload : list Z        (* uint8_t [256] *)
}.

(* ral_lora_pkt_params_t, as [sx126x_time_on_air] fills it *)
Record ral_lora_pkt_params_t := mk_pkt_params {
  preamble_len_in_symb : Z;
  header_explicit : bool;      (* RAL_LORA_PKT_EXPLICIT, else RAL_LORA_PKT_IMPLICIT *)
  pld_len_in_bytes : Z;
  crc_is_on : bool;
  invert_iq_is_on : bool
}.

Section Driver.

(** Whether the driver answers [RAL_STATUS_OK] to a call. *)
Variable ral : ral_call -> bool.

(** The interrupt masks of the RAL headers. *)
Variables RAL_IRQ_RX_DONE RAL_IRQ_RX_CRC_ERROR RAL_IRQ_RX_TIMEOUT RAL_IRQ_TX_DONE : Z.

(** [sx126x_radio_configure_tx] of lorahub_hal_tx.c, which is not among the
    sources: its return code. *)
Variable sx126x_radio_configure_tx : lgw_pkt_tx_s -> Z.

(** What [ral_sx126x_bsp_get_xosc_cfg] stores in [tcxo_startup_time_in_tick]. *)
Variable tcxo_startup_time_in_tick : Z.

(** What [ral_get_lora_time_on_air_in_ms] returns. *)
Variable ral_get_lora_time_on_air_in_ms :
  ral_lora_pkt_params_t ->
  option ral_lora_sf_t * option ral_lora_bw_t * option ral_lora_cr_t -> Z.

(** A run of [ASSERT_RAL_RC( ... )] statements: the calls are made in turn
    up to the first one that is not answered [RAL_STATUS_OK], at which the
    function returns -1.  The result says whether the run went through, and
    lists the calls made. *)
Fixpoint ral_assert_all (calls : list ral_call) : bool * list ral_call :=
  match calls with
  | [] => (true, [])
  | c :: later =>
    if ral c then
      let '(ok, made) := ral_assert_all later in (ok, c :: made)
    else (false, [c])
  end.

(** *** lorahub_hal_rx.c *)

Definition RX_TIMEOUT_MS : Z := 120000.

Definition set_detectors (rx : rx_state) (main side : Z) : rx_state :=
  mk_rx (irq_fired rx) (irq_count_us rx) (flag_rx_done rx) (flag_rx_crc_error rx)
        (flag_rx_timeout rx) main side.

(** The handler it installs is outside the model. *)
Definition sx126x_radio_init_rx : Z := LGW_HAL_SUCCESS.

(** The result is the return code, the file-scope variables and the driver
    calls made.  [freq_hz / 1E6] converted to [uint32_t] is the integer
    quotient. *)
Definition sx126x_radio_configure_rx (freq_hz : Z) (modulation_params : sx126x_conf_rxif_s)
    (rx : rx_state) : Z * rx_state * list ral_call :=
  if negb (sx126x_check_lora_mod_params freq_hz (if_bandwidth modulation_params)
             (if_coderate modulation_params) =? LGW_HAL_SUCCESS)
  then (LGW_HAL_ERROR, rx, [])
  else
    let '(ok, made) := ral_assert_all [ral_set_standby; ral_set_pkt_type] in
    if negb ok then (-1, rx, made)
    else
      let rx := set_detectors rx (fst (if_datarate modulation_params)) (side_detector_sf rx) in
      let err := sx126x_check_lora_dualsf_conf (if_bandwidth modulation_params)
                   (main_detector_sf rx) (side_detector_sf rx) in
      let rx :=
        if negb (err =? LGW_HAL_SUCCESS)
        then set_detectors rx (fst (if_datarate modulation_params)) DR_UNDEFINED
        else rx in
      let ral_sf := sx126x_convert_hal_to_ral_sf (main_detector_sf rx) in
      let ral_bw := sx126x_convert_hal_to_ral_bw (if_bandwidth modulation_params) in
      let ral_cr := sx126x_convert_hal_to_ral_cr (if_coderate modulation_params) in
      let freq_mhz_low := u32 (freq_hz / 1000000) in
      let freq_mhz_high := u32 (freq_mhz_low + 1) in
      let '(ok, made') :=
        ral_assert_all
          [ ral_set_lora_mod_params ral_sf ral_bw ral_cr;
            ral_set_lora_pkt_params
              (if main_detector_sf rx <? DR_LORA_SF7 then HDR_LORA_PREAMBLE
               else STD_LORA_PREAMBLE);
            ral_set_lora_sync_word (sx126x_get_lora_sync_word freq_hz (main_detector_sf rx));
            ral_set_rf_freq freq_hz;
            ral_cal_img (u16 freq_mhz_low) (u16 freq_mhz_high);
            ral_set_lora_symb_nb_timeout 0 ] in
      ((if ok then LGW_HAL_SUCCESS else -1), rx, made ++ made').

Definition sx126x_radio_set_rx : Z * list ral_call :=
  let rx_irq_mask := Z.lor (Z.lor RAL_IRQ_RX_DONE RAL_IRQ_RX_CRC_ERROR) RAL_IRQ_RX_TIMEOUT in
  let '(ok, made) :=
    ral_assert_all [ ral_set_dio_irq_params rx_irq_mask; ral_clear_irq_status;
                     ral_set_rx RX_TIMEOUT_MS ] in
  ((if ok then LGW_HAL_SUCCESS else -1), made).

(** *** lorahub_hal.c *)

Definition set_is_started (st : hal_state) (v : bool) : hal_state :=
  mk_hal v (rx_status st) (tx_status st) (rxrf_conf st) (rxif_conf st).

Definition set_rx_status (st : hal_state) (v : Z) : hal_state :=
  mk_hal (is_started st) v (tx_status st) (rxrf_conf st) (rxif_conf st).

Definition set_tx_status (st : hal_state) (v : Z) : hal_state :=
  mk_hal (is_started st) (rx_status st) v (rxrf_conf st) (rxif_conf st).

(** The pin set-up it does is outside the model. *)
Definition sx126x_connect : Z := LGW_HAL_SUCCESS.

Definition sx126x_radio_setup : Z * list ral_call :=
  let '(ok, made) := ral_assert_all [ral_reset; ral_init; ral_set_rx_tx_fallback_mode] in
  if ok then (LGW_HAL_SUCCESS, made) else (-1, made).

(** The result is the return code, the file-scope variables of lorahub_hal.c
    and of lorahub_hal_rx.c, and the driver calls made. *)
Definition sx126x_start (st : hal_state) (rx : rx_state)
    : Z * hal_state * rx_state * list ral_call :=
  if rf_freq_hz (rxrf_conf st) =? 0 then (LGW_HAL_ERROR, st, rx, [])
  else if if_modulation (rxif_conf st) =? MOD_UNDEFINED then (LGW_HAL_ERROR, st, rx, [])
  else if if_bandwidth (rxif_conf st) =? BW_UNDEFINED then (LGW_HAL_ERROR, st, rx, [])
  else if if_coderate (rxif_conf st) =? CR_UNDEFINED then (LGW_HAL_ERROR, st, rx, [])
  else if fst (if_datarate (rxif_conf st)) =? DR_UNDEFINED then (LGW_HAL_ERROR, st, rx, [])
  else
    let err := sx126x_connect in
    if err =? LGW_HAL_ERROR then (LGW_HAL_ERROR, st, rx, [])
    else
      let '(err, made) := sx126x_radio_setup in
      if err =? LGW_HAL_ERROR then (LGW_HAL_ERROR, st, rx, made)
      else
        let st := set_rx_status st RX_OFF in
        let '(err, rx, made') :=
          sx126x_radio_configure_rx (rf_freq_hz (rxrf_conf st)) (rxif_conf st) rx in
        if err =? LGW_HAL_ERROR then (LGW_HAL_ERROR, st, rx, made ++ made')
        else
          let '(_, made'') := sx126x_radio_set_rx in
          let st := set_rx_status st RX_ON in
          let st :=
            if Bool.eqb (tx_enable (rxrf_conf st)) false
            then set_tx_status st TX_OFF
            else set_tx_status st TX_FREE in
          let st := set_is_started st true in
          (LGW_HAL_SUCCESS, st, rx, made ++ made' ++ made'').

Definition sx126x_stop (st : hal_state) : Z * hal_state :=
  if Bool.eqb (is_started st) false then (LGW_HAL_SUCCESS, st)
  else (LGW_HAL_SUCCESS, set_is_started st false).

(** [code = None] is a NULL pointer; the result is the return code and what
    [*code] holds after the call. *)
Definition sx126x_status (rf_chain select : Z) (code : option Z) (st : hal_state)
    : Z * option Z :=
  match code with
  | None => (LGW_HAL_ERROR, None)                     (* CHECK_NULL *)
  | Some _ =>
    if rf_chain >=? SX126X_RF_CHAIN_NB then (LGW_HAL_ERROR, code)
    else if select =? TX_STATUS then
      (LGW_HAL_SUCCESS,
       Some (if Bool.eqb (is_started st) false then TX_OFF else tx_status st))
    else if select =? RX_STATUS then
      (LGW_HAL_SUCCESS,
       Some (if Bool.eqb (is_started st) false then RX_OFF else rx_status st))
    else (LGW_HAL_ERROR, code)
  end.

(** The second [do ... while] of [sx126x_send].  [irqs] holds, for each
    round, whether [ral_get_and_clear_irq_status] was answered
    [RAL_STATUS_OK] and the interrupt register it gave.  The result is [None]
    when the loop is still going on after the last round, [Some None] when it
    was left by [ASSERT_RAL_RC], and otherwise the value of
    [flag_tx_timeout]. *)
Fixpoint send_wait_tx_done (flag_tx_done flag_tx_timeout : bool) (irqs : list (bool * Z))
    : option (option bool) :=
  match irqs with
  | [] => None
  | (ok, irq_regs) :: later =>
    if negb ok then Some None
    else
      let flag_tx_done :=
        if Z.land irq_regs RAL_IRQ_TX_DONE =? RAL_IRQ_TX_DONE then true
        else flag_tx_done in
      let flag_tx_timeout :=
        if Z.land irq_regs RAL_IRQ_RX_TIMEOUT =? RAL_IRQ_RX_TIMEOUT then true
        else flag_tx_timeout in
      if Bool.eqb flag_tx_done false && Bool.eqb flag_tx_timeout false
      then send_wait_tx_done flag_tx_done flag_tx_timeout later
      else Some (Some flag_tx_timeout)
  end.

(** [clock] holds the readings of the counter in the first loop and [irqs]
    the rounds of the second.  The result is the return code, the file-scope
    variables and the calls made to [ral] (the transmit configuration and the
    reads of the interrupt register are not among them), or [None] when a
    loop is still going on after the last reading. *)
Definition sx126x_send (pkt_data : lgw_pkt_tx_s) (st : hal_state) (rx : rx_state)
    (clock : list Z) (irqs : list (bool * Z))
    : option (Z * hal_state * rx_state * list ral_call) :=
  if Bool.eqb (is_started st) false then Some (LGW_HAL_ERROR, st, rx, [])
  else
    let st := set_rx_status st RX_SUSPENDED in
    let err := sx126x_radio_configure_tx pkt_data in
    if err =? LGW_HAL_ERROR then
      let '(_, rx, made) :=
        sx126x_radio_configure_rx (rf_freq_hz (rxrf_conf st)) (rxif_conf st) rx in
      let '(_, made') := sx126x_radio_set_rx in
      Some (LGW_HAL_ERROR, st, rx, made ++ made')
    else
      let st := set_tx_status st TX_SCHEDULED in
      let rtc_freq_in_hz := SX126X_RTC_FREQ_IN_HZ in
      let tcxo_startup_time_us :=
        TCXO_STARTUP_TIME_US tcxo_startup_time_in_tick rtc_freq_in_hz in
      match sx126x_send_wait (tx_count_us pkt_data) tcxo_startup_time_us clock with
      | None => None
      | Some _ =>
        if negb (ral ral_set_tx) then Some (-1, st, rx, [ral_set_tx])
        else
          let st := set_tx_status st TX_EMITTING in
          match send_wait_tx_done false false irqs with
          | None => None
          | Some None => Some (-1, st, rx, [ral_set_tx])
          | Some (Some flag_tx_timeout) =>
            let st := set_tx_status st TX_FREE in
            let '(_, rx, made) :=
              sx126x_radio_configure_rx (rf_freq_hz (rxrf_conf st)) (rxif_conf st) rx in
            let '(_, made') := sx126x_radio_set_rx in
            let st := set_rx_status st RX_ON in
            Some ((if Bool.eqb flag_tx_timeout false then LGW_HAL_SUCCESS
                   else LGW_HAL_ERROR),
                  st, rx, ral_set_tx :: made ++ made')
          end
      end.

(** [packet = None] is a NULL pointer. *)
Definition sx126x_time_on_air (packet : option lgw_pkt_tx_s) : Z :=
  let toa_ms := 0 in
  match packet with
  | None => 0
  | Some p =>
    if tx_modulation p =? MOD_LORA then
      if negb (sx126x_check_lora_mod_params (tx_freq_hz p) (tx_bandwidth p) (tx_coderate p)
               =? LGW_HAL_SUCCESS)
      then 0
      else
        let ral_pkt_params :=
          mk_pkt_params (tx_preamble p) (Bool.eqb (tx_no_header p) false) (tx_size p)
                        (if Bool.eqb (tx_no_crc p) false then true else false)
                        (tx_invert_pol p) in
        (* [datarate] is a [uint32_t], the parameter a [uint8_t] *)
        let ral_sf := sx126x_convert_hal_to_ral_sf (u8 (tx_datarate p)) in
        let ral_bw := sx126x_convert_hal_to_ral_bw (tx_bandwidth p) in
        let ral_cr := sx126x_convert_hal_to_ral_cr (tx_coderate p) in
        ral_get_lora_time_on_air_in_ms ral_pkt_params (ral_sf, ral_bw, ral_cr)
    else toa_ms
  end.

End Driver.

(** *** The clock *)

(* struct timeval *)
Record timeval := mk_timeval { tv_sec : Z; tv_usec : Z }.

(* struct timespec *)
Record timespec := mk_timespec { ts_sec : Z; ts_nsec : Z }.

(** [tv] is what [gettimeofday] gives.  The sum is computed on [unsigned
    long] and stored in a [uint32_t]: its low 32 bits, whatever the width of
    [unsigned long]. *)
Definition sx126x_get_instcnt (tv : timeval) : Z * Z :=
  (LGW_HAL_SUCCESS, u32 (u32 (tv_sec tv) * 1000000 + tv_usec tv)).

(** basic_aux.h *)
Definition TIMER_SUB (a b : timeval) : timeval :=
  let result := mk_timeval (tv_sec a - tv_sec b) (tv_usec a - tv_usec b) in
  if tv_usec result <? 0
  then mk_timeval (tv_sec result - 1) (tv_usec result + 1000000)
  else result.

(** [tm] is what [gettimeofday] gives; the division is C's, which truncates. *)
Definition timeout_check (start : timeval) (timeout_ms : Z) (tm : timeval) : Z :=
  let diff := TIMER_SUB tm start in
  let ms := u32 (tv_sec diff * 1000 + Z.quot (tv_usec diff) 1000) in
  if ms >=? timeout_ms then -1 else 0.

(** The loop of [wait_us].  [rems] holds what each [clock_nanosleep] leaves
    in [rem]: zero, or the time left when the sleep was interrupted.  The
    result lists the sleeps asked for, or is [None] when the loop is still
    going on after the last one. *)
Fixpoint wait_us_loop (dly : timespec) (rems : list timespec) : option (list timespec) :=
  match rems with
  | [] => if (ts_sec dly >? 0) || (ts_nsec dly >? 1000) then None else Some []
  | rem :: later =>
    if (ts_sec dly >? 0) || (ts_nsec dly >? 1000)
    then match wait_us_loop rem later with
         | Some sleeps => Some (dly :: sleeps)
         | None => None
         end
    else Some []
  end.

Definition wait_us (delay_us : Z) (rems : list timespec) : option (list timespec) :=
  let dly := mk_timespec (delay_us / 1000000) ((delay_us mod 1000000) * 1000) in
  wait_us_loop dly rems.

(** [( long ) v] for an [unsigned long] [v]: [long] and [unsigned long] have
    [long_bits] bits, 32 or 64 after the platform. *)
Definition to_long (long_bits v : Z) : Z :=
  (v + 2 ^ (long_bits - 1)) mod 2 ^ long_bits - 2 ^ (long_bits - 1).

(** The sleeps [wait_ms] asks for: one at most.  [delay_ms / 1000] is an
    unsigned division; [( long ) delay_ms % 1000] is a signed remainder, which
    has the sign of [( long ) delay_ms]. *)
Definition wait_ms (long_bits : Z) (delay_ms : Z) : list timespec :=
  let dly := mk_timespec (delay_ms / 1000)
                         (Z.rem (to_long long_bits delay_ms) 1000 * 1000000) in
  if (ts_sec dly >? 0) || ((ts_sec dly =? 0) && (ts_nsec dly >? 100000))
  then [dly] else [].

End HalControl.

(** ** Vocabulary of the HAL control properties *)

Section HalControlVocabulary.
Import Hal.

(** The configuration [sx126x_start] wants: every field set, a sub-GHz
    frequency, one of the three sub-GHz bandwidths and a LoRa code rate. *)
Definition start_configured (st : hal_state) : Prop :=
  FREQ_HZ_SUBGHZ_MIN <= rf_freq_hz (rxrf_conf st) <= FREQ_HZ_SUBGHZ_MAX /\
  if_modulation (rxif_conf st) <> MOD_UNDEFINED /\
  (if_bandwidth (rxif_conf st) = BW_125KHZ \/ if_bandwidth (rxif_conf st) = BW_250KHZ \/
   if_bandwidth (rxif_conf st) = BW_500KHZ) /\
  IS_LORA_CR (if_coderate (rxif_conf st)) = true /\
  fst (if_datarate (rxif_conf st)) <> DR_UNDEFINED.

(** The driver calls of [sx126x_radio_configure_rx], for a frequency and a
    modulation. *)
Definition configure_rx_calls (freq_hz : Z) (c : sx126x_conf_rxif_s) : list ral_call :=
  [ ral_set_standby; ral_set_pkt_type;
    ral_set_lora_mod_params (sx126x_convert_hal_to_ral_sf (fst (if_datarate c)))
                            (sx126x_convert_hal_to_ral_bw (if_bandwidth c))
                            (sx126x_convert_hal_to_ral_cr (if_coderate c));
    ral_set_lora_pkt_params (if fst (if_datarate c) <? DR_LORA_SF7 then 12 else 8);
    ral_set_lora_sync_word (if fst (if_datarate c) <? DR_LORA_SF7 then 0x12 else 0x34);
    ral_set_rf_freq freq_hz;
    ral_cal_img (freq_hz / 1000000) (freq_hz / 1000000 + 1);
    ral_set_lora_symb_nb_timeout 0 ].

(** The driver calls on whose answer the outcome of [sx126x_start] depends. *)
Definition start_calls (st : hal_state) : list ral_call :=
  [ral_reset; ral_init; ral_set_rx_tx_fallback_mode]
  ++ configure_rx_calls (rf_freq_hz (rxrf_conf st)) (rxif_conf st).

(** The state [sx126x_start] leaves when it succeeds. *)
Definition started_state (st : hal_state) : hal_state :=
  mk_hal true RX_ON (if tx_enable (rxrf_conf st) then TX_FREE else TX_OFF)
         (rxrf_conf st) (rxif_conf st).

(** Microseconds since the epoch. *)
Definition timeval_us (tv : timeval) : Z := tv_sec tv * 1000000 + tv_usec tv.

Definition timeval_normal (tv : timeval) : Prop := 0 <= tv_usec tv < 1000000.

Definition timespec_ns (ts : timespec) : Z := ts_sec ts * 1000000000 + ts_nsec ts.

(** An interrupt register holds the bits of a mask. *)
Definition irq_has (irq_regs mask : Z) : bool := Z.land irq_regs mask =? mask.

(** A driver that answers [RAL_STATUS_OK] to every call, one that fails to
    arm reception, and example values of the transmit masks. *)
Definition ral_all_ok : ral_call -> bool := fun _ => true.

Definition ral_no_rx : ral_call -> bool :=
  fun c => match c with ral_set_rx _ => false | _ => true end.

Definition example_irq_tx_done : Z := 1.

Definition hal_configured : hal_state :=
  mk_hal false RX_STATUS_UNKNOWN TX_STATUS_UNKNOWN example_rxrf example_rxif.

Definition example_pkt_tx : lgw_pkt_tx_s :=
  mk_pkt_tx 868100000 1 0x00000100 0 14 MOD_LORA 0 BW_125KHZ DR_LORA_SF7 CR_LORA_4_5
            true 0 8 false false 2 ([0xDE; 0xAD] ++ repeat 0 254).

(** The same packet with a [datarate] beyond 8 bits: 263 is 256 + 7. *)
Definition example_pkt_tx_wide : lgw_pkt_tx_s :=
  mk_pkt_tx 868100000 1 0x00000100 0 14 MOD_LORA 0 BW_125KHZ 263 CR_LORA_4_5
            true 0 8 false false 2 ([0xDE; 0xAD] ++ repeat 0 254).

(** A driver's time on air, for the examples. *)
Definition example_time_on_air (pkt_params : ral_lora_pkt_params_t)
    (mod_params : option ral_lora_sf_t * option ral_lora_bw_t * option ral_lora_cr_t) : Z :=
  50 + pld_len_in_bytes pkt_params.

End HalControlVocabulary.

(** ** The radio over SPI: sx126x_hal.c *)

Section SpiHal.

Inductive sx126x_hal_status_t := SX126X_HAL_STATUS_OK | SX126X_HAL_STATUS_ERROR.

(* radio_context_t: the pins these functions drive *)
Record radio_context_t := mk_context {
  spi_nss : Z;
  gpio_rst : Z;
  gpio_busy : Z
}.

(** What the functions do to the chip select and to the bus, in order; the
    sleeps are left out. *)
Inductive bus_event :=
| gpio_set_level (pin level : Z)
| spi_exchange (data_out data_in : Z).

(** The bus: [miso k] is the byte that comes back in the exchange number [k]
    (whatever [data_in] holds after [spi_rw_byte], whose outcome the code
    does not look at), [exchanges] counts the exchanges made, [busy_levels]
    holds the levels [gpio_get_level] will read on the busy pin, and [events]
    what was done so far. *)
Record bus := mk_bus {
  miso : nat -> Z;
  exchanges : nat;
  busy_levels : list Z;
  events : list bus_event
}.

Definition bus_log (b : bus) (e : bus_event) : bus :=
  mk_bus (miso b) (exchanges b) (busy_levels b) (events b ++ [e]).

Definition spi_transfer (address : Z) (b : bus) : Z * bus :=
  let data_in := miso b (exchanges b) in
  (data_in,
   mk_bus (miso b) (S (exchanges b)) (busy_levels b)
          (events b ++ [spi_exchange address data_in])).

(** [do { gpio_get_level( ... ); sleep_ms( 1 ); } while( gpio_state == 1 )]:
    the readings left, or [None] when the pin is still high at the last one. *)
Fixpoint wait_on_busy_loop (levels : list Z) : option (list Z) :=
  match levels with
  | [] => None
  | gpio_state :: later =>
    if gpio_state =? 1 then wait_on_busy_loop later else Some later
  end.

Definition sx126x_hal_wait_on_busy (b : bus) : option bus :=
  match wait_on_busy_loop (busy_levels b) with
  | Some later => Some (mk_bus (miso b) (exchanges b) later (events b))
  | None => None
  end.

(** [for( i = 0; i < length; i++ ) spi_transfer( context, buffer[i] )], from
    [i] on, with [n] rounds to go. *)
Fixpoint write_loop (buffer : list Z) (i : Z) (n : nat) (b : bus) : bus :=
  match n with
  | O => b
  | S n' => write_loop buffer (i + 1) n' (snd (spi_transfer (byte_at buffer i) b))
  end.

(** [data[i] = v] on an array of [length data] cells. *)
Definition store (data : list Z) (i : Z) (v : Z) : list Z :=
  firstn (Z.to_nat i) data ++ v :: skipn (S (Z.to_nat i)) data.

(** [for( i = 0; i < data_length; i++ ) data[i] = spi_transfer( context, 0x00 )]. *)
Fixpoint read_loop (data : list Z) (i : Z) (n : nat) (b : bus) : list Z * bus :=
  match n with
  | O => (data, b)
  | S n' =>
    let '(v, b') := spi_transfer 0x00 b in
    read_loop (store data i v) (i + 1) n' b'
  end.

Definition sx126x_hal_write (context : radio_context_t) (command : list Z)
    (command_length : Z) (data : list Z) (data_length : Z) (b : bus)
    : option (sx126x_hal_status_t * bus) :=
  match sx126x_hal_wait_on_busy b with
  | None => None
  | Some b =>
    let b := bus_log b (gpio_set_level (spi_nss context) 0) in
    let b := write_loop command 0 (Z.to_nat command_length) b in
    let b := write_loop data 0 (Z.to_nat data_length) b in
    let b := bus_log b (gpio_set_level (spi_nss context) 1) in
    Some (SX126X_HAL_STATUS_OK, b)
  end.

(** The result holds the status, the [data] array after the call and the bus. *)
Definition sx126x_hal_read (context : radio_context_t) (command : list Z)
    (command_length : Z) (data : list Z) (data_length : Z) (b : bus)
    : option (sx126x_hal_status_t * list Z * bus) :=
  match sx126x_hal_wait_on_busy b with
  | None => None
  | Some b =>
    let b := bus_log b (gpio_set_level (spi_nss context) 0) in
    let b := write_loop command 0 (Z.to_nat command_length) b in
    let '(data, b) := read_loop data 0 (Z.to_nat data_length) b in
    let b := bus_log b (gpio_set_level (spi_nss context) 1) in
    Some (SX126X_HAL_STATUS_OK, data, b)
  end.

(** The exchanges in which the bytes [out] are sent, the first of them being
    the exchange number [k]. *)
Fixpoint exchanges_of (miso : nat -> Z) (k : nat) (out : list Z) : list bus_event :=
  match out with
  | [] => []
  | o :: later => spi_exchange o (miso k) :: exchanges_of miso (S k) later
  end.

(** A bus whose radio is ready at the second reading and answers the number
    of the exchange. *)
Definition example_bus : bus := mk_bus (fun k => Z.of_nat k) 0 [1; 0] [].

Definition example_context : radio_context_t := mk_context 8 9 10.

End SpiHal.

(** ** The log thread: zhelpers.h, logger.c *)

Section Logger.

(** The characters of a C string literal. *)
Definition c_string (s : string) : list Z :=
  map (fun a => Z.of_nat (nat_of_ascii a)) (list_ascii_of_string s).

Definition LOG_LEVEL_INFO : Z := 1.
Definition LOG_LEVEL_WARN : Z := 2.
Definition LOG_LEVEL_ERROR : Z := 4.
Definition LOG_LEVEL_DEBUG : Z := 8.

(* "\033[0m" and the like *)
Definition COLOR_RESET : list Z := 27 :: c_string "[0m".
Definition COLOR_INFO : list Z := 27 :: c_string "[32m".
Definition COLOR_WARN : list Z := 27 :: c_string "[33m".
Definition COLOR_ERROR : list Z := 27 :: c_string "[31m".
Definition COLOR_DEBUG : list Z := 27 :: c_string "[36m".

Definition g_log_level_mask : Z :=
  Z.lor (Z.lor (Z.lor LOG_LEVEL_INFO LOG_LEVEL_WARN) LOG_LEVEL_ERROR) LOG_LEVEL_DEBUG.

(** [strndup( s, n )] on the cells [s] of a buffer: the characters before
    the first NUL, [n] of them at most. *)
Fixpoint strndup (s : list Z) (n : nat) : list Z :=
  match n, s with
  | S n', c :: later => if c =? 0 then [] else c :: strndup later n'
  | _, _ => []
  end.

(** [size] is what [zmq_recv( socket, buffer, cap - 1, 0 )] returns and
    [buffer] the 256 cells of the buffer after it; [heap_ok] says whether
    [strndup] gets the memory of the copy ([strndup] returns NULL when it
    does not).  [None] is NULL. *)
Definition s_recv (heap_ok : bool) (size : Z) (buffer : list Z) : option (list Z) :=
  let cap := 256 in
  if size =? -1 then None
  else
    let buffer := store buffer (if size <? cap then size else cap - 1) 0 in
    if heap_ok then Some (strndup buffer (Z.to_nat (cap - 1))) else None.

(** [strncmp( msg, literal, n ) == 0] on two C strings, given by their
    characters. *)
Definition strncmp_equal (msg literal : list Z) (n : nat) : bool :=
  if list_eq_dec Z.eq_dec (firstn n (msg ++ [0])) (firstn n (literal ++ [0]))
  then true else false.

(** What [print_log_by_level] prints under the mask [mask]; [None] when it
    prints nothing. *)
Definition print_log_by_level (mask : Z) (msg : list Z) : option (list Z) :=
  if strncmp_equal msg (c_string "[INFO]") 6 then
    if negb (Z.land mask LOG_LEVEL_INFO =? 0)
    then Some (COLOR_INFO ++ msg ++ COLOR_RESET ++ [10]) else None
  else if strncmp_equal msg (c_string "[WARN]") 6 then
    if negb (Z.land mask LOG_LEVEL_WARN =? 0)
    then Some (COLOR_WARN ++ msg ++ COLOR_RESET ++ [10]) else None
  else if strncmp_equal msg (c_string "[ERROR]") 7 then
    if negb (Z.land mask LOG_LEVEL_ERROR =? 0)
    then Some (COLOR_ERROR ++ msg ++ COLOR_RESET ++ [10]) else None
  else if strncmp_equal msg (c_string "[DEBUG]") 7 then
    if negb (Z.land mask LOG_LEVEL_DEBUG =? 0)
    then Some (COLOR_DEBUG ++ msg ++ COLOR_RESET ++ [10]) else None
  else Some (msg ++ [10]).

(** One round of the loop of [log_pull_thread]: what it prints ([None] when
    it prints nothing). *)
Definition log_pull_round (heap_ok : bool) (size : Z) (buffer : list Z)
    : option (list Z) :=
  match s_recv heap_ok size buffer with
  | None => None                                       (* if (!msg) continue; *)
  | Some msg => print_log_by_level g_log_level_mask msg
  end.

(** A buffer that holds a message of six characters. *)
Definition example_log_buffer : list Z := c_string "[WARN]" ++ repeat 7 250.

End Logger.

(** * Properties *)

Section RelayProperties.
Import Relay.

(** ** Fixed-width arithmetic *)

Ltac unbool :=
  repeat match goal with
  | H : _ && _ = true |- _ => apply andb_prop in H; destruct H
  | H : in_range _ _ _ = true |- _ => unfold in_range in H
  | H : (_ <=? _) = true |- _ => apply Z.leb_le in H
  | H : (_ <? _) = true |- _ => apply Z.ltb_lt in H
  | H : (_ =? _) = true |- _ => apply Z.eqb_eq in H
  end.

Lemma u8_small x : 0 <= x < 256 -> u8 x = x.
Proof. intros; unfold u8; apply Z.mod_small; lia. Qed.

Lemma u16_small x : 0 <= x < 65536 -> u16 x = x.
Proof. intros; unfold u16; apply Z.mod_small; lia. Qed.

Lemma s8_u8 x : -128 <= x < 128 -> s8 (u8 x) = x.
Proof.
  intros Hx. unfold s8, u8. rewrite Z.mod_mod by lia.
  destruct (Z.ltb_spec (x mod 256) 128); Z.div_mod_to_equations; lia.
Qed.

(** ** MHDR *)

Lemma mhdr_roundtrip pt hop :
  pt = 0 \/ pt = 1 \/ pt = 3 -> 0 <= hop < 8 ->
  parse_mhdr (build_mhdr LORAWAN_TYPE pt hop) = (true, (LORAWAN_TYPE, pt, hop)).
Proof.
  intros Hpt Hhop.
  assert (Hc : hop = 0 \/ hop = 1 \/ hop = 2 \/ hop = 3 \/
               hop = 4 \/ hop = 5 \/ hop = 6 \/ hop = 7) by lia.
  destruct Hpt as [-> | [-> | ->]];
    destruct Hc as [-> | [-> | [-> | [-> | [-> | [-> | [-> | ->]]]]]]];
    reflexivity.
Qed.

(** ** The 12-bit id and the 4-bit data rate *)

Lemma id_roundtrip id dr :
  0 <= id < 4096 -> 0 <= dr < 16 ->
  u16 (Z.lor (Z.shiftl (Z.land (Z.shiftr id 4) 0xFF) 4)
             (Z.land (Z.shiftr (u8 (Z.lor (Z.shiftl (Z.land id 0x0F) 4)
                                          (Z.land dr 0x0F))) 4) 0x0F)) = id.
Proof.
  intros Hid Hdr. unfold u16, u8.
  rewrite <- (Z.mod_small id (2 ^ 12)) at 3 by lia.
  change 255 with (Z.ones 8). change 15 with (Z.ones 4).
  change 65536 with (2 ^ 16). change 256 with (2 ^ 8).
  Z.bitblast.
Qed.

Lemma nibbles_hi hi lo :
  0 <= hi < 16 ->
  Z.land (Z.shiftr (u8 (Z.lor (Z.shiftl (Z.land hi 0x0F) 4) (Z.land lo 0x0F))) 4) 0x0F = hi.
Proof.
  intros Hhi. unfold u8.
  rewrite <- (Z.mod_small hi (2 ^ 4)) at 2 by lia.
  change 15 with (Z.ones 4). change 256 with (2 ^ 8).
  Z.bitblast.
Qed.

Lemma nibbles_lo hi lo :
  0 <= lo < 16 ->
  Z.land (u8 (Z.lor (Z.shiftl (Z.land hi 0x0F) 4) (Z.land lo 0x0F))) 0x0F = lo.
Proof.
  intros Hlo. unfold u8.
  rewrite <- (Z.mod_small lo (2 ^ 4)) at 2 by lia.
  change 15 with (Z.ones 4). change 256 with (2 ^ 8).
  Z.bitblast.
Qed.

(** ** 32-bit values on the wire *)

Lemma read32_bytes32 pre v post :
  0 <= v < 4294967296 ->
  read32 (pre ++ bytes32 v ++ post) (Z.of_nat (List.length pre)) = v.
Proof.
  intros Hv. unfold read32, byte_at, bytes32.
  replace (Z.to_nat (Z.of_nat (List.length pre))) with (List.length pre + 0)%nat by lia.
  replace (Z.to_nat (Z.of_nat (List.length pre) + 1)) with (List.length pre + 1)%nat by lia.
  replace (Z.to_nat (Z.of_nat (List.length pre) + 2)) with (List.length pre + 2)%nat by lia.
  replace (Z.to_nat (Z.of_nat (List.length pre) + 3)) with (List.length pre + 3)%nat by lia.
  rewrite !app_nth2_plus. cbn [nth app].
  unfold u32.
  rewrite <- (Z.mod_small v (2 ^ 32)) at 5 by lia.
  change 255 with (Z.ones 8). change 4294967296 with (2 ^ 32).
  Z.bitblast.
Qed.

Lemma bswap32_lane0 v :
  u32 (Z.shiftl (Z.land v 0x000000FF) 24) = Z.shiftl (Z.land v 0xFF) 24.
Proof.
  unfold u32. change 255 with (Z.ones 8). change 4294967296 with (2 ^ 32). Z.bitblast.
Qed.

Lemma bswap32_lane1 v :
  u32 (Z.shiftl (Z.land v 0x0000FF00) 8) = Z.shiftl (Z.land (Z.shiftr v 8) 0xFF) 16.
Proof.
  unfold u32. change 255 with (Z.ones 8). change 65280 with (Z.shiftl (Z.ones 8) 8).
  change 4294967296 with (2 ^ 32). Z.bitblast.
Qed.

Lemma bswap32_lane2 v :
  Z.shiftr (Z.land v 0x00FF0000) 8 = Z.shiftl (Z.land (Z.shiftr v 16) 0xFF) 8.
Proof.
  change 255 with (Z.ones 8). change 16711680 with (Z.shiftl (Z.ones 8) 16). Z.bitblast.
Qed.

Lemma bswap32_lane3 v :
  Z.shiftr (Z.land v 0xFF000000) 24 = Z.land (Z.shiftr v 24) 0xFF.
Proof.
  change 255 with (Z.ones 8). change 4278190080 with (Z.shiftl (Z.ones 8) 24). Z.bitblast.
Qed.

Lemma bswap32_combine v :
  bswap32 v = combine32 (Z.land v 0xFF) (Z.land (Z.shiftr v 8) 0xFF)
                        (Z.land (Z.shiftr v 16) 0xFF) (Z.land (Z.shiftr v 24) 0xFF).
Proof.
  unfold bswap32, combine32.
  rewrite bswap32_lane0, bswap32_lane1, bswap32_lane2, bswap32_lane3. reflexivity.
Qed.

Lemma combine32_range x3 x2 x1 x0 :
  0 <= combine32 (Z.land x3 0xFF) (Z.land x2 0xFF) (Z.land x1 0xFF) (Z.land x0 0xFF)
    < 4294967296.
Proof.
  set (c := combine32 _ _ _ _).
  assert (H : c = c mod 2 ^ 32).
  { subst c. unfold combine32. change 255 with (Z.ones 8). Z.bitblast. }
  rewrite H. apply Z.mod_pos_bound. lia.
Qed.

Lemma combine32_bytes x3 x2 x1 x0 :
  let c := combine32 (Z.land x3 0xFF) (Z.land x2 0xFF) (Z.land x1 0xFF) (Z.land x0 0xFF) in
  Z.land (Z.shiftr c 24) 0xFF = Z.land x3 0xFF /\
  Z.land (Z.shiftr c 16) 0xFF = Z.land x2 0xFF /\
  Z.land (Z.shiftr c 8) 0xFF = Z.land x1 0xFF /\
  Z.land c 0xFF = Z.land x0 0xFF.
Proof.
  cbv zeta. unfold combine32. change 255 with (Z.ones 8).
  repeat split; Z.bitblast.
Qed.

Lemma combine32_split v :
  0 <= v < 4294967296 ->
  combine32 (Z.land (Z.shiftr v 24) 0xFF) (Z.land (Z.shiftr v 16) 0xFF)
            (Z.land (Z.shiftr v 8) 0xFF) (Z.land v 0xFF) = v.
Proof.
  intros Hv. unfold combine32.
  rewrite <- (Z.mod_small v (2 ^ 32)) at 5 by lia.
  change 255 with (Z.ones 8).
  Z.bitblast.
Qed.

Lemma bswap32_range v : 0 <= bswap32 v < 4294967296.
Proof. rewrite bswap32_combine. apply combine32_range. Qed.

Lemma bswap32_involutive v : 0 <= v < 4294967296 -> bswap32 (bswap32 v) = v.
Proof.
  intros Hv. rewrite (bswap32_combine (bswap32 v)).
  rewrite (bswap32_combine v).
  destruct (combine32_bytes v (Z.shiftr v 8) (Z.shiftr v 16) (Z.shiftr v 24))
    as (E3 & E2 & E1 & E0).
  cbv zeta in *. rewrite E3, E2, E1, E0.
  apply combine32_split; assumption.
Qed.

Lemma be_to_host32_range be v : 0 <= v < 4294967296 -> 0 <= be_to_host32 be v < 4294967296.
Proof. intros Hv. unfold be_to_host32. destruct be; [assumption | apply bswap32_range]. Qed.

Lemma be_host_roundtrip be v :
  0 <= v < 4294967296 -> be_to_host32 be (host_to_be32 be v) = v.
Proof.
  intros Hv. unfold host_to_be32, be_to_host32.
  destruct be; [reflexivity | apply bswap32_involutive; assumption].
Qed.

Lemma memcpy_prefix dst src n :
  (Z.to_nat n <= List.length src)%nat ->
  firstn (Z.to_nat n) (memcpy dst src n) = firstn (Z.to_nat n) src.
Proof.
  intros H. unfold memcpy.
  rewrite firstn_app, firstn_firstn, Nat.min_id.
  rewrite length_firstn, Nat.min_l by assumption.
  rewrite Nat.sub_diag. cbn. apply app_nil_r.
Qed.

Lemma memcpy_firstn_tail dst src n :
  skipn (Z.to_nat n) dst = skipn (Z.to_nat n) src ->
  memcpy dst (firstn (Z.to_nat n) src) n = src.
Proof.
  intros H. unfold memcpy.
  rewrite firstn_firstn, Nat.min_id, H. apply firstn_skipn.
Qed.

(** Projections of the packet records applied to constructors. *)
Ltac ul_fields :=
  cbn [ul_meta_type ul_payload_type ul_hop_count uplink_id ul_data_rate ul_rssi
       ul_snr ul_channel ul_phy_payload ul_payload_len].
Ltac ul_fields_in_all :=
  cbn [ul_meta_type ul_payload_type ul_hop_count uplink_id ul_data_rate ul_rssi
       ul_snr ul_channel ul_phy_payload ul_payload_len] in *.

(** Closed index expressions such as [0 + 1 + 2] are evaluated. *)
Ltac eval_indices :=
  repeat match goal with
  | |- context [Z.to_nat ?z] =>
      let v := eval vm_compute in (Z.to_nat z) in
      progress change (Z.to_nat z) with v
  | |- context [byte_at ?d ?z] =>
      lazymatch z with
      | _ + _ => let v := eval vm_compute in z in progress change z with v
      end
  | |- context [read32 ?d ?z] =>
      lazymatch z with
      | _ + _ => let v := eval vm_compute in z in progress change z with v
      end
  | |- context [?x - ?z] =>
      lazymatch z with
      | _ + _ => let v := eval vm_compute in z in progress change z with v
      end
  end.

Lemma unpack_uplink_accept b0 b1 b2 b3 b4 b5 rest len dst :
  6 <= len ->
  Z.land (Z.shiftr b0 5) 0x07 = LORAWAN_TYPE ->
  Z.land (Z.shiftr b0 3) 0x03 = UPLINK_TYPE ->
  -32 <= s8 b4 <= 31 ->
  u16 (len - 6) <= MAX_PHY_PAYLOAD_LEN ->
  unpack_uplink_packet (Some (b0 :: b1 :: b2 :: b3 :: b4 :: b5 :: rest)) len (Some dst)
  = (true,
     Some (mk_uplink LORAWAN_TYPE UPLINK_TYPE (Z.land b0 0x07)
             (u16 (Z.lor (Z.shiftl b1 4) (Z.land (Z.shiftr b2 4) 0x0F)))
             (Z.land b2 0x0F) (s8 b3) (s8 b4) b5
             (memcpy (ul_phy_payload dst) rest (u16 (len - 6)))
             (u16 (len - 6)))).
Proof.
  intros Hlen Hmt Hpt Hsnr Hpl.
  unfold unpack_uplink_packet, parse_mhdr, byte_at.
  destruct (Z.ltb_spec len 6) as [|_]; [lia|].
  cbv zeta. eval_indices.
  cbn [nth skipn ul_set_mhdr ul_set_uplink_id ul_set_data_rate ul_set_rssi ul_set_snr
       ul_set_channel ul_set_payload_len ul_set_phy_payload
       ul_meta_type ul_payload_type ul_hop_count uplink_id ul_data_rate ul_rssi
       ul_snr ul_channel ul_phy_payload ul_payload_len negb].
  rewrite Hmt, Hpt.
  change (negb (UPLINK_TYPE =? UPLINK_TYPE)) with false.
  change (negb (LORAWAN_TYPE =? LORAWAN_TYPE)) with false. cbv iota.
  destruct (Z.ltb_spec (s8 b4) (-32)) as [|_]; [lia|].
  destruct (Z.gtb_spec (s8 b4) 31) as [|_]; [lia|].
  cbn [orb].
  destruct (Z.gtb_spec (u16 (len - 6)) MAX_PHY_PAYLOAD_LEN) as [|_]; [lia|].
  reflexivity.
Qed.

Lemma uplink_roundtrip_ok (P dst : uplink_packet) :
  uplink_typed P = true -> uplink_valid P = true ->
  exists P', uplink_roundtrip P dst = (true, Some P') /\ uplink_same P' P /\
    (skipn (Z.to_nat (ul_payload_len P)) (ul_phy_payload dst)
     = skipn (Z.to_nat (ul_payload_len P)) (ul_phy_payload P) -> P' = P).
Proof.
  intros Ht Hv. destruct P as [mt pt hc id dr rssi snr ch phy n].
  unfold uplink_typed, uplink_valid in *. ul_fields_in_all.
  unbool. subst mt pt.
  unfold MAX_PHY_PAYLOAD_LEN in *.
  unfold uplink_roundtrip, pack_uplink_packet.
  ul_fields. cbn [negb orb].
  unfold MAX_PHY_PAYLOAD_LEN.
  destruct (Z.gtb_spec n 245) as [|_]; [lia|].
  change (negb (UPLINK_TYPE =? UPLINK_TYPE)) with false.
  change (negb (LORAWAN_TYPE =? LORAWAN_TYPE)) with false. cbv iota.
  rewrite (u16_small (1 + 5 + n)) by lia.
  pose proof (mhdr_roundtrip UPLINK_TYPE hc (or_introl eq_refl) ltac:(lia)) as Hm.
  unfold parse_mhdr in Hm. injection Hm as Hm1 Hm2 Hm3.
  cbn [app].
  rewrite unpack_uplink_accept;
    rewrite ?s8_u8 by lia; replace (1 + 5 + n - 6) with n by lia;
    rewrite ?(u16_small n) by lia; unfold MAX_PHY_PAYLOAD_LEN; try lia; try assumption.
  rewrite Hm3, id_roundtrip, nibbles_lo by lia.
  eexists. split; [reflexivity|]. split.
  - unfold uplink_same; ul_fields.
    repeat split.
    rewrite memcpy_prefix by (rewrite length_firstn; lia).
    rewrite firstn_firstn, Nat.min_id. reflexivity.
  - intros Htail. f_equal. apply memcpy_firstn_tail. exact Htail.
Qed.

Lemma read32_bytes32_0 v :
  0 <= v < 4294967296 -> read32 (bytes32 v) 0 = v.
Proof.
  intros Hv. pose proof (read32_bytes32 [] v [] Hv) as H.
  cbn [app List.length Z.of_nat] in H. rewrite app_nil_r in H. exact H.
Qed.

Lemma event_id_roundtrip id :
  0 <= id < 65536 ->
  Z.lor (u16 (Z.shiftl (Z.land (Z.shiftr id 8) 0xFF) 8)) (Z.land id 0xFF) = id.
Proof.
  intros Hid. unfold u16.
  rewrite <- (Z.mod_small id (2 ^ 16)) at 3 by lia.
  change 255 with (Z.ones 8). change 65536 with (2 ^ 16).
  Z.bitblast.
Qed.

Lemma unpack_downlink_accept be b0 b1 b2 f3 f2 f1 f0 tb c3 c2 c1 c0 rest len dst :
  12 <= len ->
  Z.land (Z.shiftr b0 5) 0x07 = LORAWAN_TYPE ->
  Z.land (Z.shiftr b0 3) 0x03 = DOWNLINK_TYPE ->
  u16 (len - 12) <= MAX_PHY_PAYLOAD_LEN ->
  unpack_downlink_packet be
    (Some (b0 :: b1 :: b2 :: f3 :: f2 :: f1 :: f0 :: tb :: c3 :: c2 :: c1 :: c0 :: rest))
    len (Some dst)
  = (true,
     Some (mk_downlink LORAWAN_TYPE DOWNLINK_TYPE (Z.land b0 0x07)
             (u16 (Z.lor (Z.shiftl b1 4) (Z.land (Z.shiftr b2 4) 0x0F)))
             (Z.land b2 0x0F)
             (be_to_host32 be (read32 [f3; f2; f1; f0] 0))
             (Z.land (Z.shiftr tb 4) 0x0F) (Z.land tb 0x0F)
             (be_to_host32 be (read32 [c3; c2; c1; c0] 0))
             (memcpy (dl_phy_payload dst) rest (u16 (len - 12)))
             (u16 (len - 12)))).
Proof.
  intros Hlen Hmt Hpt Hpl.
  unfold unpack_downlink_packet, parse_mhdr.
  destruct (Z.ltb_spec len 12) as [|_]; [lia|].
  cbv zeta. eval_indices.
  change (read32 (b0 :: b1 :: b2 :: f3 :: f2 :: f1 :: f0 :: tb :: c3 :: c2 :: c1 :: c0 :: rest) 3)
    with (read32 [f3; f2; f1; f0] 0).
  change (read32 (b0 :: b1 :: b2 :: f3 :: f2 :: f1 :: f0 :: tb :: c3 :: c2 :: c1 :: c0 :: rest) 8)
    with (read32 [c3; c2; c1; c0] 0).
  unfold byte_at. eval_indices.
  cbn [nth skipn dl_set_mhdr dl_set_dwlink_id dl_set_data_rate dl_set_frequency
       dl_set_tx_power dl_set_delay dl_set_count_us dl_set_payload_len
       dl_set_phy_payload dl_meta_type dl_payload_type dl_hop_count dwlink_id
       dl_data_rate dl_frequency dl_tx_power dl_delay dl_count_us dl_phy_payload
       dl_payload_len negb].
  rewrite Hmt, Hpt.
  change (negb (DOWNLINK_TYPE =? DOWNLINK_TYPE)) with false.
  change (negb (LORAWAN_TYPE =? LORAWAN_TYPE)) with false. cbv iota.
  destruct (Z.gtb_spec (u16 (len - 12)) MAX_PHY_PAYLOAD_LEN) as [|_]; [lia|].
  reflexivity.
Qed.

Lemma unpack_event_accept b0 b1 b2 b3 rest len dst :
  4 <= len ->
  Z.land (Z.shiftr b0 5) 0x07 = LORAWAN_TYPE ->
  Z.land (Z.shiftr b0 3) 0x03 = EVENT_TYPE ->
  u16 (len - 4) <= MAX_EVENT_PAYLOAD_LEN ->
  unpack_event_packet (Some (b0 :: b1 :: b2 :: b3 :: rest)) len (Some dst)
  = (true,
     Some (mk_event LORAWAN_TYPE EVENT_TYPE (Z.land b0 0x07)
             (Z.lor (u16 (Z.shiftl b1 8)) b2) b3
             (memcpy (event_payload dst) rest (u16 (len - 4)))
             (u16 (len - 4)))).
Proof.
  intros Hlen Hmt Hpt Hpl.
  unfold unpack_event_packet, parse_mhdr, byte_at.
  destruct (Z.ltb_spec len 4) as [|_]; [lia|].
  cbv zeta. eval_indices.
  cbn [nth skipn ev_set_mhdr ev_set_event_id ev_set_event_type ev_set_payload_len
       ev_set_event_payload ev_meta_type ev_payload_type ev_hop_count event_id
       event_type event_payload ev_payload_len negb].
  rewrite Hmt, Hpt.
  change (negb (EVENT_TYPE =? EVENT_TYPE)) with false.
  change (negb (LORAWAN_TYPE =? LORAWAN_TYPE)) with false. cbv iota.
  destruct (Z.gtb_spec (u16 (len - 4)) MAX_EVENT_PAYLOAD_LEN) as [|_]; [lia|].
  reflexivity.
Qed.

Lemma downlink_roundtrip_ok be (P dst : downlink_packet) :
  downlink_typed P = true -> downlink_valid P = true -> downlink_fits_wire P = true ->
  exists P', downlink_roundtrip be P dst = (true, Some P') /\ downlink_same P' P /\
    (skipn (Z.to_nat (dl_payload_len P)) (dl_phy_payload dst)
     = skipn (Z.to_nat (dl_payload_len P)) (dl_phy_payload P) -> P' = P).
Proof.
  intros Ht Hv Hw. destruct P as [mt pt hc id dr fr tx dly cnt phy n].
  unfold downlink_typed, downlink_valid, downlink_fits_wire in *.
  cbn [dl_meta_type dl_payload_type dl_hop_count dwlink_id dl_data_rate
       dl_frequency dl_tx_power dl_delay dl_count_us dl_phy_payload
       dl_payload_len] in *.
  unbool. subst mt pt.
  unfold MAX_PHY_PAYLOAD_LEN in *.
  unfold downlink_roundtrip, pack_downlink_packet.
  cbn [dl_meta_type dl_payload_type dl_hop_count dwlink_id dl_data_rate
       dl_frequency dl_tx_power dl_delay dl_count_us dl_phy_payload
       dl_payload_len negb orb].
  unfold MAX_PHY_PAYLOAD_LEN.
  destruct (Z.gtb_spec n 245) as [|_]; [lia|].
  change (negb (DOWNLINK_TYPE =? DOWNLINK_TYPE)) with false.
  change (negb (LORAWAN_TYPE =? LORAWAN_TYPE)) with false. cbv iota.
  rewrite (u16_small (1 + 7 + 4 + n)) by lia.
  pose proof (mhdr_roundtrip DOWNLINK_TYPE hc (or_intror (or_introl eq_refl)) ltac:(lia)) as Hm.
  unfold parse_mhdr in Hm. injection Hm as Hm1 Hm2 Hm3.
  unfold bytes32 at 1 2. cbn [app].
  rewrite unpack_downlink_accept;
    replace (1 + 7 + 4 + n - 12) with n by lia;
    rewrite ?(u16_small n) by lia; unfold MAX_PHY_PAYLOAD_LEN; try lia; try assumption.
  fold (bytes32 (host_to_be32 be fr)). fold (bytes32 (host_to_be32 be cnt)).
  rewrite !read32_bytes32_0 by (apply be_to_host32_range; lia).
  rewrite !be_host_roundtrip by lia.
  rewrite Hm3, id_roundtrip, !nibbles_lo, nibbles_hi by lia.
  eexists. split; [reflexivity|]. split.
  - unfold downlink_same;
      cbn [dl_meta_type dl_payload_type dl_hop_count dwlink_id dl_data_rate
           dl_frequency dl_tx_power dl_delay dl_count_us dl_phy_payload
           dl_payload_len].
    repeat split.
    rewrite memcpy_prefix by (rewrite length_firstn; lia).
    rewrite firstn_firstn, Nat.min_id. reflexivity.
  - intros Htail. f_equal. apply memcpy_firstn_tail. exact Htail.
Qed.

Lemma event_roundtrip_ok (P dst : event_packet) :
  event_typed P = true -> event_valid P = true -> event_fits_wire P = true ->
  exists P', event_roundtrip P dst = (true, Some P') /\ event_same P' P /\
    (skipn (Z.to_nat (ev_payload_len P)) (event_payload dst)
     = skipn (Z.to_nat (ev_payload_len P)) (event_payload P) -> P' = P).
Proof.
  intros Ht Hv Hw. destruct P as [mt pt hc id ty pl n].
  unfold event_typed, event_valid, event_fits_wire in *.
  cbn [ev_meta_type ev_payload_type ev_hop_count event_id event_type
       event_payload ev_payload_len] in *.
  unbool. subst mt pt.
  unfold MAX_EVENT_PAYLOAD_LEN in *.
  unfold event_roundtrip, pack_event_packet.
  cbn [ev_meta_type ev_payload_type ev_hop_count event_id event_type
       event_payload ev_payload_len negb orb].
  unfold MAX_EVENT_PAYLOAD_LEN.
  destruct (Z.gtb_spec n 240) as [|_]; [lia|].
  change (negb (EVENT_TYPE =? EVENT_TYPE)) with false.
  change (negb (LORAWAN_TYPE =? LORAWAN_TYPE)) with false. cbv iota.
  rewrite (u16_small (1 + 3 + n)) by lia.
  pose proof (mhdr_roundtrip EVENT_TYPE hc (or_intror (or_intror eq_refl)) ltac:(lia)) as Hm.
  unfold parse_mhdr in Hm. injection Hm as Hm1 Hm2 Hm3.
  cbn [app].
  rewrite unpack_event_accept;
    replace (1 + 3 + n - 4) with n by lia;
    rewrite ?(u16_small n) by lia; unfold MAX_EVENT_PAYLOAD_LEN; try lia; try assumption.
  rewrite Hm3, event_id_roundtrip, (u8_small ty) by lia.
  eexists. split; [reflexivity|]. split.
  - unfold event_same;
      cbn [ev_meta_type ev_payload_type ev_hop_count event_id event_type
           event_payload ev_payload_len].
    repeat split.
    rewrite memcpy_prefix by (rewrite length_firstn; lia).
    rewrite firstn_firstn, Nat.min_id. reflexivity.
  - intros Htail. f_equal. apply memcpy_firstn_tail. exact Htail.
Qed.

(** *** Round trip *)

(** C1 (as amended).  For every packet of one of the three kinds that is
    valid (discriminators, hop count below 8, 12-bit id, 4-bit data rate,
    uplink SNR in -32..31, payload length within the cap) and, for a
    downlink, has [tx_power] and [delay] below 16 and, for an event,
    [event_type] below 256: the encoder returns a buffer, the decoder accepts
    it, and the decoded packet has the fields and the payload bytes of the
    packet encoded; it is that very struct when the cells of the destination's
    payload array past [payload_len] hold what the source's hold. *)
Theorem relay_roundtrip :
  (forall P dst : uplink_packet,
     uplink_typed P = true -> uplink_valid P = true ->
     exists P', uplink_roundtrip P dst = (true, Some P') /\ uplink_same P' P /\
       (skipn (Z.to_nat (ul_payload_len P)) (ul_phy_payload dst)
        = skipn (Z.to_nat (ul_payload_len P)) (ul_phy_payload P) -> P' = P)) /\
  (forall (big_endian : bool) (P dst : downlink_packet),
     downlink_typed P = true -> downlink_valid P = true ->
     downlink_fits_wire P = true ->
     exists P', downlink_roundtrip big_endian P dst = (true, Some P') /\
       downlink_same P' P /\
       (skipn (Z.to_nat (dl_payload_len P)) (dl_phy_payload dst)
        = skipn (Z.to_nat (dl_payload_len P)) (dl_phy_payload P) -> P' = P)) /\
  (forall P dst : event_packet,
     event_typed P = true -> event_valid P = true -> event_fits_wire P = true ->
     exists P', event_roundtrip P dst = (true, Some P') /\ event_same P' P /\
       (skipn (Z.to_nat (ev_payload_len P)) (event_payload dst)
        = skipn (Z.to_nat (ev_payload_len P)) (event_payload P) -> P' = P)).
Proof.
  split; [| split].
  - exact uplink_roundtrip_ok.
  - exact downlink_roundtrip_ok.
  - exact event_roundtrip_ok.
Qed.

Lemma relay_roundtrip_witness :
  (exists P', uplink_roundtrip example_uplink example_uplink = (true, Some P') /\
     uplink_same P' example_uplink /\
     (skipn (Z.to_nat (ul_payload_len example_uplink)) (ul_phy_payload example_uplink)
      = skipn (Z.to_nat (ul_payload_len example_uplink)) (ul_phy_payload example_uplink)
      -> P' = example_uplink)) /\
  (exists P', downlink_roundtrip false (example_downlink 14) (example_downlink 0)
              = (true, Some P') /\
     downlink_same P' (example_downlink 14) /\
     (skipn (Z.to_nat (dl_payload_len (example_downlink 14)))
            (dl_phy_payload (example_downlink 0))
      = skipn (Z.to_nat (dl_payload_len (example_downlink 14)))
              (dl_phy_payload (example_downlink 14))
      -> P' = example_downlink 14)) /\
  (exists P', event_roundtrip example_event example_event = (true, Some P') /\
     event_same P' example_event /\
     (skipn (Z.to_nat (ev_payload_len example_event)) (event_payload example_event)
      = skipn (Z.to_nat (ev_payload_len example_event)) (event_payload example_event)
      -> P' = example_event)).
Proof.
  split; [| split].
  - apply (proj1 relay_roundtrip example_uplink example_uplink); reflexivity.
  - apply (proj1 (proj2 relay_roundtrip) false (example_downlink 14) (example_downlink 0));
      reflexivity.
  - apply (proj2 (proj2 relay_roundtrip) example_event example_event); reflexivity.
Defined.

(** C1 as stated fails: a downlink packet that meets every listed condition
    but has [tx_power = 16] comes back with [tx_power = 0], on hosts of either
    byte order. *)
Lemma relay_roundtrip_counterexample :
  downlink_typed (example_downlink 16) = true /\
  downlink_valid (example_downlink 16) = true /\
  exists P' Q',
    downlink_roundtrip false (example_downlink 16) (example_downlink 16) = (true, Some P') /\
    downlink_roundtrip true (example_downlink 16) (example_downlink 16) = (true, Some Q') /\
    dl_tx_power (example_downlink 16) = 16 /\
    dl_tx_power P' = 0 /\ dl_tx_power Q' = 0 /\
    ~ downlink_same P' (example_downlink 16) /\
    ~ downlink_same Q' (example_downlink 16) /\
    P' <> example_downlink 16 /\ Q' <> example_downlink 16.
Proof.
  split; [reflexivity | split; [reflexivity |]].
  eexists. eexists.
  split; [vm_compute; reflexivity |].
  split; [vm_compute; reflexivity |].
  split; [reflexivity |]. split; [reflexivity |]. split; [reflexivity |].
  repeat split.
  - intros (_ & _ & _ & _ & _ & _ & H & _). discriminate H.
  - intros (_ & _ & _ & _ & _ & _ & H & _). discriminate H.
  - intros H. apply (f_equal dl_tx_power) in H. discriminate H.
  - intros H. apply (f_equal dl_tx_power) in H. discriminate H.
Qed.

(** *** The encoding example *)

(** C2.  The uplink packet with meta 0b111, type 0b00, hop 2, id 0xABC,
    data rate 5, RSSI -80, SNR 7, channel 3 and payload DE AD is encoded as
    E2 AB C5 B0 07 03 DE AD, with [out_len = 8], whatever the unused cells of
    its payload array hold. *)
Theorem pack_uplink_example (unused : list Z) :
  pack_uplink_packet true
    (Some (mk_uplink 0x07 0x00 2 0xABC 5 (-80) 7 3 ([0xDE; 0xAD] ++ unused) 2)) true
  = Some ([0xE2; 0xAB; 0xC5; 0xB0; 0x07; 0x03; 0xDE; 0xAD], 8).
Proof. reflexivity. Qed.

(** *** Rejections *)

(** C3.  On a buffer of at least 6 bytes whose MHDR carries the uplink
    discriminators, the decoder returns false when the SNR byte, read as a
    signed 8-bit integer, is below -32 or above 31. *)
Theorem unpack_uplink_rejects_snr (d : list Z) (len : Z) (dst : uplink_packet) :
  6 <= len ->
  mhdr_meta_type (byte_at d 0) = LORAWAN_TYPE ->
  mhdr_payload_type (byte_at d 0) = UPLINK_TYPE ->
  s8 (byte_at d 4) < -32 \/ s8 (byte_at d 4) > 31 ->
  fst (unpack_uplink_packet (Some d) len (Some dst)) = false.
Proof.
  unfold mhdr_meta_type, mhdr_payload_type. intros Hlen Hmt Hpt Hsnr.
  unfold unpack_uplink_packet, parse_mhdr.
  destruct (Z.ltb_spec len 6) as [|_]; [lia|].
  cbv zeta. eval_indices.
  cbn [ul_set_mhdr ul_set_uplink_id ul_set_data_rate ul_set_rssi ul_set_snr
       ul_meta_type ul_payload_type ul_snr negb].
  rewrite Hmt, Hpt.
  change (negb (UPLINK_TYPE =? UPLINK_TYPE)) with false.
  change (negb (LORAWAN_TYPE =? LORAWAN_TYPE)) with false. cbv iota.
  destruct (Z.ltb_spec (s8 (byte_at d 4)) (-32)); [reflexivity |].
  destruct (Z.gtb_spec (s8 (byte_at d 4)) 31); [reflexivity | lia].
Qed.

(** SNR = -33 (byte DF) and SNR = +32 (byte 20). *)
Lemma unpack_uplink_rejects_snr_witness :
  (s8 0xDF = -33 /\
   fst (unpack_uplink_packet (Some [0xE2; 0xAB; 0xC5; 0xB0; 0xDF; 0x03; 0xDE; 0xAD]) 8
          (Some example_uplink)) = false) /\
  (s8 0x20 = 32 /\
   fst (unpack_uplink_packet (Some [0xE2; 0xAB; 0xC5; 0xB0; 0x20; 0x03; 0xDE; 0xAD]) 8
          (Some example_uplink)) = false).
Proof.
  split; (split; [reflexivity |]).
  - apply (unpack_uplink_rejects_snr [0xE2; 0xAB; 0xC5; 0xB0; 0xDF; 0x03; 0xDE; 0xAD] 8
             example_uplink); [lia | reflexivity | reflexivity | left; vm_compute; reflexivity].
  - apply (unpack_uplink_rejects_snr [0xE2; 0xAB; 0xC5; 0xB0; 0x20; 0x03; 0xDE; 0xAD] 8
             example_uplink); [lia | reflexivity | reflexivity | right; vm_compute; reflexivity].
Defined.

(** What decides whether [pack_*] returns a buffer. *)

Ltac pack_guards :=
  repeat match goal with
  | |- context [?a >? ?b] => destruct (Z.gtb_spec a b)
  | |- context [?a =? ?b] => destruct (Z.eqb_spec a b)
  end;
  cbn [negb orb];
  (split;
   [ let Hp := fresh "Hp" in
     intros Hp; try (exfalso; apply Hp; reflexivity); repeat split; (assumption || lia)
   | intros (? & ? & ? & ? & ?); (discriminate || lia || congruence) ]).

Lemma pack_uplink_some heap_ok p out_len :
  pack_uplink_packet heap_ok (Some p) out_len <> None <->
  out_len = true /\ ul_payload_len p <= MAX_PHY_PAYLOAD_LEN /\
  ul_payload_type p = UPLINK_TYPE /\ ul_meta_type p = LORAWAN_TYPE /\ heap_ok = true.
Proof. unfold pack_uplink_packet. destruct out_len, heap_ok; pack_guards. Qed.

Lemma pack_downlink_some be heap_ok p out_len :
  pack_downlink_packet be heap_ok (Some p) out_len <> None <->
  out_len = true /\ dl_payload_len p <= MAX_PHY_PAYLOAD_LEN /\
  dl_payload_type p = DOWNLINK_TYPE /\ dl_meta_type p = LORAWAN_TYPE /\ heap_ok = true.
Proof. unfold pack_downlink_packet. destruct out_len, heap_ok; pack_guards. Qed.

Lemma pack_event_some heap_ok p out_len :
  pack_event_packet heap_ok (Some p) out_len <> None <->
  out_len = true /\ ev_payload_len p <= MAX_EVENT_PAYLOAD_LEN /\
  ev_payload_type p = EVENT_TYPE /\ ev_meta_type p = LORAWAN_TYPE /\ heap_ok = true.
Proof. unfold pack_event_packet. destruct out_len, heap_ok; pack_guards. Qed.

(** C4.  With the discriminators of its kind, a packet is encoded (the
    function returns a buffer, the allocation having succeeded) when
    [payload_len] is 0 and when it is the cap of the kind, 245 for uplink and
    downlink and 240 for event; with [payload_len] one above the cap, the
    function returns NULL. *)
Theorem pack_payload_len_bounds :
  (forall p : uplink_packet,
     ul_meta_type p = LORAWAN_TYPE -> ul_payload_type p = UPLINK_TYPE ->
     (ul_payload_len p = 0 \/ ul_payload_len p = 245 ->
      pack_uplink_packet true (Some p) true <> None) /\
     (ul_payload_len p = 245 + 1 ->
      forall heap_ok, pack_uplink_packet heap_ok (Some p) true = None)) /\
  (forall (big_endian : bool) (p : downlink_packet),
     dl_meta_type p = LORAWAN_TYPE -> dl_payload_type p = DOWNLINK_TYPE ->
     (dl_payload_len p = 0 \/ dl_payload_len p = 245 ->
      pack_downlink_packet big_endian true (Some p) true <> None) /\
     (dl_payload_len p = 245 + 1 ->
      forall heap_ok, pack_downlink_packet big_endian heap_ok (Some p) true = None)) /\
  (forall p : event_packet,
     ev_meta_type p = LORAWAN_TYPE -> ev_payload_type p = EVENT_TYPE ->
     (ev_payload_len p = 0 \/ ev_payload_len p = 240 ->
      pack_event_packet true (Some p) true <> None) /\
     (ev_payload_len p = 240 + 1 ->
      forall heap_ok, pack_event_packet heap_ok (Some p) true = None)).
Proof.
  split; [| split].
  - intros p Hm Ht. split.
    + intros Hl. apply pack_uplink_some. unfold MAX_PHY_PAYLOAD_LEN. intuition lia.
    + intros Hl heap_ok.
      destruct (pack_uplink_packet heap_ok (Some p) true) eqn:E; [| reflexivity].
      assert (H : pack_uplink_packet heap_ok (Some p) true <> None) by congruence.
      apply pack_uplink_some in H. unfold MAX_PHY_PAYLOAD_LEN in H. lia.
  - intros be p Hm Ht. split.
    + intros Hl. apply pack_downlink_some. unfold MAX_PHY_PAYLOAD_LEN. intuition lia.
    + intros Hl heap_ok.
      destruct (pack_downlink_packet be heap_ok (Some p) true) eqn:E; [| reflexivity].
      assert (H : pack_downlink_packet be heap_ok (Some p) true <> None) by congruence.
      apply pack_downlink_some in H. unfold MAX_PHY_PAYLOAD_LEN in H. lia.
  - intros p Hm Ht. split.
    + intros Hl. apply pack_event_some. unfold MAX_EVENT_PAYLOAD_LEN. intuition lia.
    + intros Hl heap_ok.
      destruct (pack_event_packet heap_ok (Some p) true) eqn:E; [| reflexivity].
      assert (H : pack_event_packet heap_ok (Some p) true <> None) by congruence.
      apply pack_event_some in H. unfold MAX_EVENT_PAYLOAD_LEN in H. lia.
Qed.

Lemma pack_payload_len_bounds_witness :
  (pack_uplink_packet true (Some (ul_set_payload_len example_uplink 0)) true <> None /\
   pack_uplink_packet true (Some (ul_set_payload_len example_uplink 245)) true <> None /\
   pack_uplink_packet true (Some (ul_set_payload_len example_uplink 246)) true = None) /\
  (pack_downlink_packet false true (Some (dl_set_payload_len (example_downlink 14) 0)) true
     <> None /\
   pack_downlink_packet false true (Some (dl_set_payload_len (example_downlink 14) 245)) true
     <> None /\
   pack_downlink_packet false true (Some (dl_set_payload_len (example_downlink 14) 246)) true
     = None) /\
  (pack_event_packet true (Some (ev_set_payload_len example_event 0)) true <> None /\
   pack_event_packet true (Some (ev_set_payload_len example_event 240)) true <> None /\
   pack_event_packet true (Some (ev_set_payload_len example_event 241)) true = None).
Proof.
  split; [| split].
  - split; [| split].
    + apply (proj1 pack_payload_len_bounds (ul_set_payload_len example_uplink 0));
        [reflexivity | reflexivity | left; reflexivity].
    + apply (proj1 pack_payload_len_bounds (ul_set_payload_len example_uplink 245));
        [reflexivity | reflexivity | right; reflexivity].
    + apply (proj1 pack_payload_len_bounds (ul_set_payload_len example_uplink 246));
        reflexivity.
  - split; [| split].
    + apply (proj1 (proj2 pack_payload_len_bounds) false
               (dl_set_payload_len (example_downlink 14) 0));
        [reflexivity | reflexivity | left; reflexivity].
    + apply (proj1 (proj2 pack_payload_len_bounds) false
               (dl_set_payload_len (example_downlink 14) 245));
        [reflexivity | reflexivity | right; reflexivity].
    + apply (proj1 (proj2 pack_payload_len_bounds) false
               (dl_set_payload_len (example_downlink 14) 246));
        reflexivity.
  - split; [| split].
    + apply (proj2 (proj2 pack_payload_len_bounds) (ev_set_payload_len example_event 0));
        [reflexivity | reflexivity | left; reflexivity].
    + apply (proj2 (proj2 pack_payload_len_bounds) (ev_set_payload_len example_event 240));
        [reflexivity | reflexivity | right; reflexivity].
    + apply (proj2 (proj2 pack_payload_len_bounds) (ev_set_payload_len example_event 241));
        reflexivity.
Defined.

Lemma unpack_uplink_discriminators d len dst :
  mhdr_meta_type (byte_at d 0) <> LORAWAN_TYPE \/
  mhdr_payload_type (byte_at d 0) <> UPLINK_TYPE ->
  fst (unpack_uplink_packet (Some d) len (Some dst)) = false.
Proof.
  intros H. unfold unpack_uplink_packet, parse_mhdr.
  destruct (len <? 6); [reflexivity |].
  cbv zeta. cbn [ul_set_mhdr ul_meta_type ul_payload_type negb].
  fold (mhdr_payload_type (byte_at d 0)). fold (mhdr_meta_type (byte_at d 0)).
  destruct (Z.eqb_spec (mhdr_payload_type (byte_at d 0)) UPLINK_TYPE); [| reflexivity].
  destruct (Z.eqb_spec (mhdr_meta_type (byte_at d 0)) LORAWAN_TYPE); [| reflexivity].
  tauto.
Qed.

Lemma unpack_downlink_discriminators be d len dst :
  mhdr_meta_type (byte_at d 0) <> LORAWAN_TYPE \/
  mhdr_payload_type (byte_at d 0) <> DOWNLINK_TYPE ->
  fst (unpack_downlink_packet be (Some d) len (Some dst)) = false.
Proof.
  intros H. unfold unpack_downlink_packet, parse_mhdr.
  destruct (len <? 12); [reflexivity |].
  cbv zeta. cbn [dl_set_mhdr dl_meta_type dl_payload_type negb].
  fold (mhdr_payload_type (byte_at d 0)). fold (mhdr_meta_type (byte_at d 0)).
  destruct (Z.eqb_spec (mhdr_payload_type (byte_at d 0)) DOWNLINK_TYPE); [| reflexivity].
  destruct (Z.eqb_spec (mhdr_meta_type (byte_at d 0)) LORAWAN_TYPE); [| reflexivity].
  tauto.
Qed.

Lemma unpack_event_discriminators d len dst :
  mhdr_meta_type (byte_at d 0) <> LORAWAN_TYPE \/
  mhdr_payload_type (byte_at d 0) <> EVENT_TYPE ->
  fst (unpack_event_packet (Some d) len (Some dst)) = false.
Proof.
  intros H. unfold unpack_event_packet, parse_mhdr.
  destruct (len <? 4); [reflexivity |].
  cbv zeta. cbn [ev_set_mhdr ev_meta_type ev_payload_type negb].
  fold (mhdr_payload_type (byte_at d 0)). fold (mhdr_meta_type (byte_at d 0)).
  destruct (Z.eqb_spec (mhdr_payload_type (byte_at d 0)) EVENT_TYPE); [| reflexivity].
  destruct (Z.eqb_spec (mhdr_meta_type (byte_at d 0)) LORAWAN_TYPE); [| reflexivity].
  tauto.
Qed.

Lemma not_some_none {A} (o : option A) : ~ o <> None -> o = None.
Proof. destruct o; [intros H; exfalso; apply H; discriminate | reflexivity]. Qed.

(** C5.  Each encoder returns NULL for a packet whose [meta_type] is not
    0b111 or whose [payload_type] is not the one of its kind, and each decoder
    returns false for a buffer whose MHDR carries another meta-type or
    another payload-type than the one of its kind (00 uplink, 01 downlink,
    11 event). *)
Theorem discriminators_enforced :
  (forall heap_ok (p : uplink_packet) out_len,
     ul_meta_type p <> LORAWAN_TYPE \/ ul_payload_type p <> UPLINK_TYPE ->
     pack_uplink_packet heap_ok (Some p) out_len = None) /\
  (forall big_endian heap_ok (p : downlink_packet) out_len,
     dl_meta_type p <> LORAWAN_TYPE \/ dl_payload_type p <> DOWNLINK_TYPE ->
     pack_downlink_packet big_endian heap_ok (Some p) out_len = None) /\
  (forall heap_ok (p : event_packet) out_len,
     ev_meta_type p <> LORAWAN_TYPE \/ ev_payload_type p <> EVENT_TYPE ->
     pack_event_packet heap_ok (Some p) out_len = None) /\
  (forall d len (dst : uplink_packet),
     mhdr_meta_type (byte_at d 0) <> LORAWAN_TYPE \/
     mhdr_payload_type (byte_at d 0) <> UPLINK_TYPE ->
     fst (unpack_uplink_packet (Some d) len (Some dst)) = false) /\
  (forall big_endian d len (dst : downlink_packet),
     mhdr_meta_type (byte_at d 0) <> LORAWAN_TYPE \/
     mhdr_payload_type (byte_at d 0) <> DOWNLINK_TYPE ->
     fst (unpack_downlink_packet big_endian (Some d) len (Some dst)) = false) /\
  (forall d len (dst : event_packet),
     mhdr_meta_type (byte_at d 0) <> LORAWAN_TYPE \/
     mhdr_payload_type (byte_at d 0) <> EVENT_TYPE ->
     fst (unpack_event_packet (Some d) len (Some dst)) = false).
Proof.
  repeat split.
  - intros heap_ok p out_len H. apply not_some_none.
    rewrite pack_uplink_some. tauto.
  - intros be heap_ok p out_len H. apply not_some_none.
    rewrite pack_downlink_some. tauto.
  - intros heap_ok p out_len H. apply not_some_none.
    rewrite pack_event_some. tauto.
  - exact unpack_uplink_discriminators.
  - exact unpack_downlink_discriminators.
  - exact unpack_event_discriminators.
Qed.

(** An uplink packet and an uplink buffer offered to the three codecs, and a
    buffer with meta-type 0b110. *)
Lemma discriminators_enforced_witness :
  pack_uplink_packet true (Some (ul_set_mhdr example_uplink (6, 0, 2))) true = None /\
  pack_downlink_packet false true (Some (dl_set_mhdr (example_downlink 14) (7, 0, 2))) true
    = None /\
  pack_event_packet true (Some (ev_set_mhdr example_event (7, 1, 1))) true = None /\
  fst (unpack_uplink_packet (Some [0xC2; 0xAB; 0xC5; 0xB0; 0x07; 0x03; 0xDE; 0xAD]) 8
         (Some example_uplink)) = false /\
  fst (unpack_downlink_packet false
         (Some [0xE2; 0xAB; 0xC5; 0xB0; 0x07; 0x03; 0xDE; 0xAD; 0; 0; 0; 0]) 12
         (Some (example_downlink 14))) = false /\
  fst (unpack_event_packet (Some [0xE2; 0xAB; 0xC5; 0xB0; 0x07; 0x03; 0xDE; 0xAD]) 8
         (Some example_event)) = false.
Proof.
  destruct discriminators_enforced as (PU & PD & PE & UU & UD & UE).
  split; [| split; [| split; [| split; [| split]]]].
  - apply PU. left. discriminate.
  - apply PD. right. discriminate.
  - apply PE. right. discriminate.
  - apply UU. left. discriminate.
  - apply UD. right. discriminate.
  - apply UE. right. discriminate.
Defined.

End RelayProperties.

Section HalProperties.
Import Hal.

Lemma s32_small x : 0 <= x < 2147483648 -> s32 x = x.
Proof.
  intros Hx. unfold s32. rewrite Z.mod_small by lia.
  destruct (Z.ltb_spec x 2147483648); lia.
Qed.

Lemma tcxo_startup_range tick :
  0 <= TCXO_STARTUP_TIME_US tick SX126X_RTC_FREQ_IN_HZ < 67109.
Proof.
  unfold TCXO_STARTUP_TIME_US, SX126X_RTC_FREQ_IN_HZ, u32.
  pose proof (Z.mod_pos_bound (tick * 1000000) 4294967296 ltac:(lia)).
  split.
  - apply Z.div_pos; lia.
  - apply Z.div_lt_upper_bound; lia.
Qed.

Lemma count_us_ahead_spec target now :
  -2147483648 <= count_us_ahead target now < 2147483648 /\
  (target - now - count_us_ahead target now) mod 4294967296 = 0.
Proof.
  unfold count_us_ahead, s32, u32. rewrite Z.mod_mod by lia.
  pose proof (Z.mod_pos_bound (target - now) 4294967296 ltac:(lia)) as Hb.
  destruct (Z.ltb_spec ((target - now) mod 4294967296) 2147483648); split; try lia.
  - rewrite Zminus_mod_idemp_r. rewrite Z.sub_diag. reflexivity.
  - replace (target - now - ((target - now) mod 4294967296 - 4294967296))
      with (target - now - (target - now) mod 4294967296 + 1 * 4294967296) by lia.
    rewrite Z.mod_add by lia.
    rewrite Zminus_mod_idemp_r. rewrite Z.sub_diag. reflexivity.
Qed.

Lemma send_wait_cond_spec target now tick :
  send_wait_cond target now (TCXO_STARTUP_TIME_US tick SX126X_RTC_FREQ_IN_HZ) = true <->
  count_us_ahead target now > TCXO_STARTUP_TIME_US tick SX126X_RTC_FREQ_IN_HZ.
Proof.
  unfold send_wait_cond. fold (count_us_ahead target now).
  pose proof (tcxo_startup_range tick) as Hr.
  rewrite (s32_small (TCXO_STARTUP_TIME_US tick SX126X_RTC_FREQ_IN_HZ)) by lia.
  destruct (Z.gtb_spec (count_us_ahead target now)
              (TCXO_STARTUP_TIME_US tick SX126X_RTC_FREQ_IN_HZ)); split; intros; try lia;
    try reflexivity; try discriminate.
Qed.

Lemma send_wait_exit target tcxo pre now later :
  Forall (fun c => send_wait_cond target c tcxo = true) pre ->
  send_wait_cond target now tcxo = false ->
  sx126x_send_wait target tcxo (pre ++ now :: later) = Some (now, later).
Proof.
  intros Hpre Hnow. induction Hpre as [| c pre Hc _ IH]; cbn [app sx126x_send_wait].
  - rewrite Hnow. reflexivity.
  - rewrite Hc. exact IH.
Qed.

Lemma send_wait_pending target tcxo clock :
  Forall (fun c => send_wait_cond target c tcxo = true) clock ->
  sx126x_send_wait target tcxo clock = None.
Proof.
  intros H. induction H as [| c clock Hc _ IH]; cbn [sx126x_send_wait].
  - reflexivity.
  - rewrite Hc. exact IH.
Qed.

(** C6 (as amended).  The wait loop of [sx126x_send] compares the job's
    [count_us] with the counter in unsigned 32-bit modular arithmetic: it
    goes on exactly while the signed 32-bit difference
    [(int32_t)(target - now)] exceeds the TCXO start-up time, and leaves at
    the first reading for which it does not.  That difference is the
    representative in [-2^31, 2^31) of [target - now] modulo 2^32, so a job
    with target 0x00000100 at now 0xFFFFFF00 is 512 microseconds in the
    future. *)
Theorem send_wait_modular :
  (forall target now tick,
     send_wait_cond target now (TCXO_STARTUP_TIME_US tick SX126X_RTC_FREQ_IN_HZ) = true <->
     count_us_ahead target now > TCXO_STARTUP_TIME_US tick SX126X_RTC_FREQ_IN_HZ) /\
  (forall target now,
     -2147483648 <= count_us_ahead target now < 2147483648 /\
     (target - now - count_us_ahead target now) mod 4294967296 = 0) /\
  (forall target tcxo pre now later,
     Forall (fun c => send_wait_cond target c tcxo = true) pre ->
     send_wait_cond target now tcxo = false ->
     sx126x_send_wait target tcxo (pre ++ now :: later) = Some (now, later)) /\
  (forall target tcxo clock,
     Forall (fun c => send_wait_cond target c tcxo = true) clock ->
     sx126x_send_wait target tcxo clock = None) /\
  count_us_ahead 0x00000100 0xFFFFFF00 = 512.
Proof.
  split; [exact send_wait_cond_spec |].
  split; [exact count_us_ahead_spec |].
  split; [exact send_wait_exit |].
  split; [exact send_wait_pending | reflexivity].
Qed.

(** A job due at 0x100 with a start-up time of 100 us: the loop waits at
    0xFFFFFF00 (512 us ahead) and at 0x00000000 (256 us ahead), and leaves at
    0x000000A0 (96 us ahead); with the first two readings only it is still
    waiting. *)
Lemma send_wait_modular_witness :
  sx126x_send_wait 0x100 100 ([0xFFFFFF00; 0x00000000] ++ 0xA0 :: [0x1A0])
  = Some (0xA0, [0x1A0]) /\
  sx126x_send_wait 0x100 100 [0xFFFFFF00; 0x00000000] = None.
Proof.
  destruct send_wait_modular as (_ & _ & Hexit & Hpending & _).
  split.
  - apply (Hexit 0x100 100 [0xFFFFFF00; 0x00000000] 0xA0 [0x1A0]).
    + repeat constructor.
    + reflexivity.
  - apply (Hpending 0x100 100 [0xFFFFFF00; 0x00000000]). repeat constructor.
Defined.

(** C6 as stated fails on its figure: at target 0x00000100 and now
    0xFFFFFF00 the signed difference is 512, not 256; with a start-up time of
    300 us the loop therefore still waits, which it would not do for a job
    256 us ahead. *)
Lemma send_wait_counterexample :
  count_us_ahead 0x00000100 0xFFFFFF00 = 512 /\
  count_us_ahead 0x00000100 0xFFFFFF00 <> 256 /\
  send_wait_cond 0x00000100 0xFFFFFF00 300 = true /\
  send_wait_cond 0x00000100 0x00000000 300 = false /\
  count_us_ahead 0x00000100 0x00000000 = 256.
Proof. repeat split; try reflexivity. discriminate. Qed.

Lemma rxrf_setconf_error conf st :
  is_started st = true \/ conf = None ->
  sx126x_rxrf_setconf conf st = (LGW_HAL_ERROR, st).
Proof.
  intros H. unfold sx126x_rxrf_setconf.
  destruct conf as [c |]; [| reflexivity].
  destruct H as [H | H]; [rewrite H; reflexivity | discriminate H].
Qed.

Lemma rxrf_setconf_success conf st :
  fst (sx126x_rxrf_setconf conf st) = LGW_HAL_SUCCESS ->
  exists c, conf = Some c /\ is_started st = false /\
    sx126x_rxrf_setconf conf st = (LGW_HAL_SUCCESS, set_rxrf_conf st c).
Proof.
  unfold sx126x_rxrf_setconf. destruct conf as [c |]; [| discriminate].
  destruct (is_started st); cbn [Bool.eqb fst]; [discriminate |].
  intros _. exists c. repeat split.
Qed.

Lemma rxif_setconf_error conf st :
  is_started st = true \/ conf = None \/ (exists c, conf = Some c /\ rxif_invalid c) ->
  sx126x_rxif_setconf conf st = (LGW_HAL_ERROR, st).
Proof.
  intros H. unfold sx126x_rxif_setconf.
  destruct conf as [c |]; [| reflexivity].
  destruct (is_started st); cbn [Bool.eqb]; [reflexivity |].
  destruct H as [H | [H | (c' & Hc & Hinv)]]; try discriminate.
  injection Hc as <-. unfold rxif_invalid in Hinv.
  destruct (IS_LORA_DR (fst (if_datarate c))); cbn [Bool.eqb]; [| reflexivity].
  destruct (Z.eqb_spec (snd (if_datarate c)) DR_UNDEFINED) as [E | E];
    destruct (IS_LORA_DR (snd (if_datarate c))); cbn [Bool.eqb negb andb];
    try reflexivity;
    (destruct (IS_LORA_BW (if_bandwidth c)); cbn [Bool.eqb]; [| reflexivity];
     destruct (IS_LORA_CR (if_coderate c)); cbn [Bool.eqb]; [| reflexivity];
     exfalso; intuition congruence).
Qed.

Lemma rxif_setconf_success conf st :
  fst (sx126x_rxif_setconf conf st) = LGW_HAL_SUCCESS ->
  exists c, conf = Some c /\ is_started st = false /\ ~ rxif_invalid c /\
    sx126x_rxif_setconf conf st = (LGW_HAL_SUCCESS, set_rxif_conf st c).
Proof.
  unfold sx126x_rxif_setconf, rxif_invalid. destruct conf as [c |]; [| discriminate].
  destruct (is_started st); cbn [Bool.eqb fst]; [discriminate |].
  destruct (IS_LORA_DR (fst (if_datarate c))) eqn:E0; cbn [Bool.eqb fst]; [| discriminate].
  destruct (Z.eqb_spec (snd (if_datarate c)) DR_UNDEFINED) as [E | E];
    destruct (IS_LORA_DR (snd (if_datarate c))) eqn:E1; cbn [Bool.eqb negb andb fst];
    try discriminate;
    (destruct (IS_LORA_BW (if_bandwidth c)) eqn:E2; cbn [Bool.eqb fst]; [| discriminate];
     destruct (IS_LORA_CR (if_coderate c)) eqn:E3; cbn [Bool.eqb fst]; [| discriminate];
     intros _; exists c; repeat split; intuition congruence).
Qed.

(** C9.  [sx126x_rxrf_setconf] and [sx126x_rxif_setconf] return
    [LGW_HAL_ERROR] and leave the file-scope state as it was when the
    concentrator is started, when the argument is NULL and, for
    [sx126x_rxif_setconf], when a data rate, the bandwidth or the code rate is
    invalid ([DR_UNDEFINED] being accepted for the second data rate); when
    they return [LGW_HAL_SUCCESS] the stored configuration is the argument,
    field for field, and the rest of the state is as it was. *)
Theorem setconf_guarded :
  (forall conf st,
     is_started st = true \/ conf = None ->
     sx126x_rxrf_setconf conf st = (LGW_HAL_ERROR, st)) /\
  (forall conf st,
     is_started st = true \/ conf = None \/ (exists c, conf = Some c /\ rxif_invalid c) ->
     sx126x_rxif_setconf conf st = (LGW_HAL_ERROR, st)) /\
  (forall conf st,
     fst (sx126x_rxrf_setconf conf st) = LGW_HAL_SUCCESS ->
     exists c, conf = Some c /\
       let st' := snd (sx126x_rxrf_setconf conf st) in
       rxrf_conf st' = c /\ rxif_conf st' = rxif_conf st /\
       is_started st' = is_started st /\ rx_status st' = rx_status st /\
       tx_status st' = tx_status st) /\
  (forall conf st,
     fst (sx126x_rxif_setconf conf st) = LGW_HAL_SUCCESS ->
     exists c, conf = Some c /\
       let st' := snd (sx126x_rxif_setconf conf st) in
       rxif_conf st' = c /\ rxrf_conf st' = rxrf_conf st /\
       is_started st' = is_started st /\ rx_status st' = rx_status st /\
       tx_status st' = tx_status st) /\
  (forall c st,
     is_started st = false ->
     fst (sx126x_rxrf_setconf (Some c) st) = LGW_HAL_SUCCESS) /\
  (forall c st,
     is_started st = false -> ~ rxif_invalid c ->
     fst (sx126x_rxif_setconf (Some c) st) = LGW_HAL_SUCCESS).
Proof.
  split; [exact rxrf_setconf_error |].
  split; [exact rxif_setconf_error |].
  split; [| split; [| split]].
  - intros conf st H. destruct (rxrf_setconf_success conf st H) as (c & Hc & _ & E).
    exists c. split; [exact Hc |]. rewrite E. cbn. repeat split.
  - intros conf st H. destruct (rxif_setconf_success conf st H) as (c & Hc & _ & _ & E).
    exists c. split; [exact Hc |]. rewrite E. cbn. repeat split.
  - intros c st H. unfold sx126x_rxrf_setconf. rewrite H. reflexivity.
  - intros c st H Hv. unfold sx126x_rxif_setconf, rxif_invalid in *. rewrite H.
    cbn [Bool.eqb].
    destruct (IS_LORA_DR (fst (if_datarate c))); cbn [Bool.eqb]; [| tauto].
    destruct (Z.eqb_spec (snd (if_datarate c)) DR_UNDEFINED) as [E | E];
      destruct (IS_LORA_DR (snd (if_datarate c))); cbn [Bool.eqb negb andb];
      try tauto;
      (destruct (IS_LORA_BW (if_bandwidth c)); cbn [Bool.eqb]; [| tauto];
       destruct (IS_LORA_CR (if_coderate c)); cbn [Bool.eqb]; [reflexivity | tauto]).
Qed.

Lemma setconf_guarded_witness :
  sx126x_rxrf_setconf (Some example_rxrf) hal_started = (LGW_HAL_ERROR, hal_started) /\
  sx126x_rxif_setconf None hal_init = (LGW_HAL_ERROR, hal_init) /\
  sx126x_rxif_setconf (Some (mk_rxif MOD_LORA BW_200KHZ (DR_LORA_SF7, DR_UNDEFINED) CR_LORA_4_5))
    hal_init = (LGW_HAL_ERROR, hal_init) /\
  (exists c, Some example_rxrf = Some c /\
     let st' := snd (sx126x_rxrf_setconf (Some example_rxrf) hal_init) in
     rxrf_conf st' = c /\ rxif_conf st' = rxif_conf hal_init /\
     is_started st' = is_started hal_init /\ rx_status st' = rx_status hal_init /\
     tx_status st' = tx_status hal_init) /\
  (exists c, Some example_rxif = Some c /\
     let st' := snd (sx126x_rxif_setconf (Some example_rxif) hal_init) in
     rxif_conf st' = c /\ rxrf_conf st' = rxrf_conf hal_init /\
     is_started st' = is_started hal_init /\ rx_status st' = rx_status hal_init /\
     tx_status st' = tx_status hal_init) /\
  fst (sx126x_rxrf_setconf (Some example_rxrf) hal_init) = LGW_HAL_SUCCESS /\
  fst (sx126x_rxif_setconf (Some example_rxif) hal_init) = LGW_HAL_SUCCESS.
Proof.
  destruct setconf_guarded as (A & B & C & D & E & F).
  split; [| split; [| split; [| split; [| split; [| split]]]]].
  - apply A. left. reflexivity.
  - apply B. right. left. reflexivity.
  - apply B. right. right. eexists. split; [reflexivity |].
    right. right. left. reflexivity.
  - apply C. reflexivity.
  - apply D. reflexivity.
  - apply E. reflexivity.
  - apply F; [reflexivity |].
    unfold rxif_invalid. cbn. intros [H | [[H _] | [H | H]]];
      first [discriminate H | apply H; reflexivity].
Defined.

Section Receive.

Variables RAL_IRQ_RX_DONE RAL_IRQ_RX_CRC_ERROR RAL_IRQ_RX_TIMEOUT : Z.
Variable sx126x_get_lora_bw_in_hz : Z -> Z.

Lemma get_pkt_ret rx env payload :
  let ret :=
    fst (fst (sx126x_radio_get_pkt RAL_IRQ_RX_DONE RAL_IRQ_RX_CRC_ERROR
                RAL_IRQ_RX_TIMEOUT rx env payload)) in
  ret = -1 \/ ret = 0 \/ ret = 1.
Proof.
  unfold sx126x_radio_get_pkt. cbv zeta.
  destruct (Bool.eqb (flag_rx_done (radio_irq_process _ _ _ rx env)) true
            || Bool.eqb (flag_rx_crc_error (radio_irq_process _ _ _ rx env)) true).
  - destruct (pkt_status_ok env); cbn [negb fst]; [| tauto].
    destruct (Bool.eqb (flag_rx_crc_error (radio_irq_process _ _ _ rx env)) true);
      cbn [fst]; [tauto |].
    destruct (pkt_payload_ok env); cbn [negb fst]; tauto.
  - destruct (Bool.eqb (flag_rx_timeout (radio_irq_process _ _ _ rx env)) true);
      cbn [fst]; tauto.
Qed.

Lemma receive_not_started max_pkt pkt_data st rx env :
  is_started st = false ->
  sx126x_receive RAL_IRQ_RX_DONE RAL_IRQ_RX_CRC_ERROR RAL_IRQ_RX_TIMEOUT
        sx126x_get_lora_bw_in_hz
    max_pkt pkt_data st rx env
  = Some (mk_recv LGW_HAL_ERROR pkt_data rx false).
Proof. intros H. unfold sx126x_receive. rewrite H. reflexivity. Qed.

Lemma receive_result max_pkt pkt_data st rx env r :
  sx126x_receive RAL_IRQ_RX_DONE RAL_IRQ_RX_CRC_ERROR RAL_IRQ_RX_TIMEOUT
        sx126x_get_lora_bw_in_hz
    max_pkt pkt_data st rx env = Some r ->
  (r_ret r = -1 \/ r_ret r = 0 \/ r_ret r = 1) /\
  List.length (r_pkt_data r) = List.length pkt_data /\
  tl (r_pkt_data r) = tl pkt_data.
Proof.
  unfold sx126x_receive.
  destruct (Bool.eqb (is_started st) false).
  - intros [= <-]. cbn. unfold LGW_HAL_ERROR. tauto.
  - destruct pkt_data as [| p0 others]; [discriminate |].
    pose proof (get_pkt_ret rx env (payload pkt_rx_zero)) as Hret.
    cbv zeta in Hret.
    destruct (sx126x_radio_get_pkt _ _ _ rx env (payload pkt_rx_zero)) as [[nb rx'] out].
    cbn [fst] in Hret. intros [= <-]. cbn [r_ret r_pkt_data List.length tl].
    repeat split. exact Hret.
Qed.

Lemma receive_total max_pkt pkt_data st rx env :
  pkt_data <> [] ->
  exists r, sx126x_receive RAL_IRQ_RX_DONE RAL_IRQ_RX_CRC_ERROR RAL_IRQ_RX_TIMEOUT
        sx126x_get_lora_bw_in_hz
              max_pkt pkt_data st rx env = Some r.
Proof.
  intros Hne. unfold sx126x_receive.
  destruct (Bool.eqb (is_started st) false); [eexists; reflexivity |].
  destruct pkt_data as [| p0 others]; [contradiction |].
  destruct (sx126x_radio_get_pkt _ _ _ rx env (payload pkt_rx_zero)) as [[nb rx'] out].
  eexists; reflexivity.
Qed.

End Receive.

(** C10.  Whatever [max_pkt] is (0 included), one call of [sx126x_receive]
    gives the result it gives with any other [max_pkt]; it returns -1, 0 or
    1, so it reports at most one packet, and it writes at most the first cell
    of the caller's array; when the concentrator is not started it returns
    [LGW_HAL_ERROR] and leaves the array as it was.  On an array of at least
    one cell the call always returns. *)
Theorem receive_at_most_one :
  forall (RAL_IRQ_RX_DONE RAL_IRQ_RX_CRC_ERROR RAL_IRQ_RX_TIMEOUT : Z)
         (sx126x_get_lora_bw_in_hz : Z -> Z)
         (max_pkt : Z) (pkt_data : list lgw_pkt_rx_s) (st : hal_state)
         (rx : rx_state) (env : radio_env),
  let receive :=
    sx126x_receive RAL_IRQ_RX_DONE RAL_IRQ_RX_CRC_ERROR RAL_IRQ_RX_TIMEOUT
        sx126x_get_lora_bw_in_hz in
  (forall max_pkt',
     receive max_pkt' pkt_data st rx env = receive max_pkt pkt_data st rx env) /\
  (forall r, receive max_pkt pkt_data st rx env = Some r ->
     (r_ret r = -1 \/ r_ret r = 0 \/ r_ret r = 1) /\ r_ret r <= 1 /\
     List.length (r_pkt_data r) = List.length pkt_data /\
     tl (r_pkt_data r) = tl pkt_data) /\
  (is_started st = false ->
     receive max_pkt pkt_data st rx env
     = Some (mk_recv LGW_HAL_ERROR pkt_data rx false)) /\
  (pkt_data <> [] -> exists r, receive max_pkt pkt_data st rx env = Some r).
Proof.
  intros D C T F max_pkt pkt_data st rx env receive. subst receive.
  split; [intros max_pkt'; reflexivity |].
  split.
  - intros r Hr. destruct (receive_result D C T F max_pkt pkt_data st rx env r Hr)
      as (Hret & Hlen & Htl).
    repeat split; try assumption. lia.
  - split; [apply receive_not_started | apply receive_total].
Qed.

(** With [max_pkt = 0] and an array of two cells: one packet is reported when
    the radio has one, and an error when the concentrator is not started. *)
Lemma receive_at_most_one_witness :
  (exists r,
     sx126x_receive example_irq_rx_done example_irq_rx_crc_error example_irq_rx_timeout
        example_bw_in_hz
       0 [pkt_rx_zero; pkt_rx_zero] hal_started example_rx example_env = Some r /\
     r_ret r = 1 /\ r_ret r <= 1 /\ tl (r_pkt_data r) = [pkt_rx_zero]) /\
  sx126x_receive example_irq_rx_done example_irq_rx_crc_error example_irq_rx_timeout
        example_bw_in_hz
    0 [pkt_rx_zero; pkt_rx_zero] hal_init example_rx example_env
  = Some (mk_recv LGW_HAL_ERROR [pkt_rx_zero; pkt_rx_zero] example_rx false).
Proof.
  pose proof (receive_at_most_one example_irq_rx_done example_irq_rx_crc_error
                example_irq_rx_timeout example_bw_in_hz 0
                [pkt_rx_zero; pkt_rx_zero]) as W.
  split.
  - destruct (W hal_started example_rx example_env) as (_ & Hres & _ & Htot).
    destruct (Htot ltac:(discriminate)) as (r & Hr).
    exists r. split; [exact Hr |].
    destruct (Hres r Hr) as (_ & Hle & _ & Htl).
    split; [| split; [exact Hle | exact Htl]].
    vm_compute in Hr. injection Hr as <-. reflexivity.
  - destruct (W hal_init example_rx example_env) as (_ & _ & Hns & _).
    apply Hns. reflexivity.
Defined.

End HalProperties.

Section GwProperties.
Import Gw.

(** *** Reception batches *)




End GwProperties.

Section RelayCodecProperties.
Import Relay.

(** *** MHDR, in general *)

Lemma build_mhdr_flat m p h :
  build_mhdr m p h
  = Z.lor (Z.lor (Z.shiftl (Z.land m 0x07) 5) (Z.shiftl (Z.land p 0x03) 3)) (Z.land h 0x07).
Proof.
  unfold build_mhdr, u8. cbv zeta. rewrite Z.lor_0_l.
  change (Z.land m 7) with (Z.land m (Z.ones 3)).
  change (Z.land p 3) with (Z.land p (Z.ones 2)).
  change (Z.land h 7) with (Z.land h (Z.ones 3)).
  change 256 with (2 ^ 8).
  Z.bitblast.
Qed.

Lemma build_mhdr_range m p h : 0 <= build_mhdr m p h < 256.
Proof. unfold build_mhdr, u8. cbv zeta. apply Z.mod_pos_bound. lia. Qed.

Lemma parse_build_fields m p h :
  mhdr_meta_type (build_mhdr m p h) = Z.land m 0x07 /\
  mhdr_payload_type (build_mhdr m p h) = Z.land p 0x03 /\
  Z.land (build_mhdr m p h) 0x07 = Z.land h 0x07.
Proof.
  rewrite build_mhdr_flat. unfold mhdr_meta_type, mhdr_payload_type.
  set (v := Z.lor _ _).
  change (Z.land (Z.shiftr v 5) 7) with (Z.land (Z.shiftr v 5) (Z.ones 3)).
  change (Z.land (Z.shiftr v 3) 3) with (Z.land (Z.shiftr v 3) (Z.ones 2)).
  change (Z.land v 7) with (Z.land v (Z.ones 3)).
  subst v.
  change (Z.land m 7) with (Z.land m (Z.ones 3)).
  change (Z.land p 3) with (Z.land p (Z.ones 2)).
  change (Z.land h 7) with (Z.land h (Z.ones 3)).
  repeat split; Z.bitblast.
Qed.

Lemma build_parse_byte b :
  0 <= b < 256 ->
  build_mhdr (mhdr_meta_type b) (mhdr_payload_type b) (Z.land b 0x07) = b.
Proof.
  intros Hb. rewrite build_mhdr_flat. unfold mhdr_meta_type, mhdr_payload_type.
  replace (Z.land (Z.land (Z.shiftr b 5) 7) 7) with (Z.land (Z.shiftr b 5) (Z.ones 3))
    by (rewrite <- Z.land_assoc; reflexivity).
  replace (Z.land (Z.land (Z.shiftr b 3) 3) 3) with (Z.land (Z.shiftr b 3) (Z.ones 2))
    by (rewrite <- Z.land_assoc; reflexivity).
  replace (Z.land (Z.land b 7) 7) with (Z.land b (Z.ones 3))
    by (rewrite <- Z.land_assoc; reflexivity).
  rewrite <- (Z.mod_small b (2 ^ 8)) at 4 by (change (2 ^ 8) with 256; lia).
  Z.bitblast.
Qed.

(** X1.  [build_mhdr] and [parse_mhdr] are inverse of each other on what
    a byte holds: parsing the byte built from any three values succeeds and
    gives their low 3, 2 and 3 bits, and building from the three fields parsed
    out of a byte gives the byte back. *)
Theorem mhdr_build_parse :
  (forall meta_type payload_type hop_count,
     parse_mhdr (build_mhdr meta_type payload_type hop_count)
     = (true, (Z.land meta_type 0x07, Z.land payload_type 0x03, Z.land hop_count 0x07))) /\
  (forall mhdr_byte meta_type payload_type hop_count,
     0 <= mhdr_byte < 256 ->
     parse_mhdr mhdr_byte = (true, (meta_type, payload_type, hop_count)) ->
     build_mhdr meta_type payload_type hop_count = mhdr_byte).
Proof.
  split.
  - intros m p h. destruct (parse_build_fields m p h) as (E1 & E2 & E3).
    unfold parse_mhdr. unfold mhdr_meta_type, mhdr_payload_type in *.
    rewrite E1, E2, E3. reflexivity.
  - intros b m p h Hb H. unfold parse_mhdr in H. injection H as <- <- <-.
    apply build_parse_byte. exact Hb.
Qed.

Lemma mhdr_build_parse_witness : build_mhdr 7 0 2 = 0xE2.
Proof. apply (proj2 mhdr_build_parse 0xE2 7 0 2); [lia | reflexivity]. Defined.

(** *** When the decoders accept *)

Ltac unbool_hyps :=
  repeat match goal with
  | H : _ && _ = true |- _ => apply andb_prop in H; destruct H
  | H : in_range _ _ _ = true |- _ => unfold in_range in H
  | H : (_ <=? _) = true |- _ => apply Z.leb_le in H
  | H : (_ <? _) = true |- _ => apply Z.ltb_lt in H
  | H : (_ =? _) = true |- _ => apply Z.eqb_eq in H
  end.

Ltac eval_idx :=
  repeat match goal with
  | |- context [Z.to_nat ?z] =>
      let v := eval vm_compute in (Z.to_nat z) in
      progress change (Z.to_nat z) with v
  | |- context [byte_at ?d ?z] =>
      lazymatch z with
      | _ + _ => let v := eval vm_compute in z in progress change z with v
      end
  | |- context [read32 ?d ?z] =>
      lazymatch z with
      | _ + _ => let v := eval vm_compute in z in progress change z with v
      end
  | |- context [?x - ?z] =>
      lazymatch z with
      | _ + _ => let v := eval vm_compute in z in progress change z with v
      end
  end.

Ltac ul_proj :=
  cbn [ul_set_mhdr ul_set_uplink_id ul_set_data_rate ul_set_rssi ul_set_snr
       ul_set_channel ul_set_payload_len ul_set_phy_payload
       ul_meta_type ul_payload_type ul_hop_count uplink_id ul_data_rate ul_rssi
       ul_snr ul_channel ul_phy_payload ul_payload_len negb].
Ltac dl_proj :=
  cbn [dl_set_mhdr dl_set_dwlink_id dl_set_data_rate dl_set_frequency
       dl_set_tx_power dl_set_delay dl_set_count_us dl_set_payload_len
       dl_set_phy_payload dl_meta_type dl_payload_type dl_hop_count dwlink_id
       dl_data_rate dl_frequency dl_tx_power dl_delay dl_count_us dl_phy_payload
       dl_payload_len negb].
Ltac ev_proj :=
  cbn [ev_set_mhdr ev_set_event_id ev_set_event_type ev_set_payload_len
       ev_set_event_payload ev_meta_type ev_payload_type ev_hop_count event_id
       event_type event_payload ev_payload_len negb].

Lemma unpack_uplink_true_iff d len dst :
  0 <= len < 65536 ->
  fst (unpack_uplink_packet (Some d) len (Some dst)) = true <-> uplink_accepts d len.
Proof.
  intros Hlen. unfold uplink_accepts, MAX_PHY_PAYLOAD_LEN.
  unfold unpack_uplink_packet, parse_mhdr.
  destruct (Z.ltb_spec len 6); [cbn [fst]; split; [discriminate | lia] |].
  cbv zeta. eval_idx. ul_proj.
  fold (mhdr_payload_type (byte_at d 0)). fold (mhdr_meta_type (byte_at d 0)).
  destruct (Z.eqb_spec (mhdr_payload_type (byte_at d 0)) UPLINK_TYPE);
    cbn [negb fst]; [| split; [discriminate | tauto]].
  destruct (Z.eqb_spec (mhdr_meta_type (byte_at d 0)) LORAWAN_TYPE);
    cbn [negb fst]; [| split; [discriminate | tauto]].
  destruct (Z.ltb_spec (s8 (byte_at d 4)) (-32)); cbn [orb fst];
    [split; [discriminate | lia] |].
  destruct (Z.gtb_spec (s8 (byte_at d 4)) 31); cbn [fst];
    [split; [discriminate | lia] |].
  rewrite (u16_small (len - 6)) by lia. unfold MAX_PHY_PAYLOAD_LEN.
  destruct (Z.gtb_spec (len - 6) 245); cbn [fst];
    [split; [discriminate | lia] | split; [intros _; repeat split; (assumption || lia) | reflexivity]].
Qed.

Lemma unpack_downlink_true_iff be d len dst :
  0 <= len < 65536 ->
  fst (unpack_downlink_packet be (Some d) len (Some dst)) = true <-> downlink_accepts d len.
Proof.
  intros Hlen. unfold downlink_accepts, MAX_PHY_PAYLOAD_LEN.
  unfold unpack_downlink_packet, parse_mhdr.
  destruct (Z.ltb_spec len 12); [cbn [fst]; split; [discriminate | lia] |].
  cbv zeta. eval_idx. dl_proj.
  fold (mhdr_payload_type (byte_at d 0)). fold (mhdr_meta_type (byte_at d 0)).
  destruct (Z.eqb_spec (mhdr_payload_type (byte_at d 0)) DOWNLINK_TYPE);
    cbn [negb fst]; [| split; [discriminate | tauto]].
  destruct (Z.eqb_spec (mhdr_meta_type (byte_at d 0)) LORAWAN_TYPE);
    cbn [negb fst]; [| split; [discriminate | tauto]].
  rewrite (u16_small (len - 12)) by lia. unfold MAX_PHY_PAYLOAD_LEN.
  destruct (Z.gtb_spec (len - 12) 245); cbn [fst];
    [split; [discriminate | lia] | split; [intros _; repeat split; (assumption || lia) | reflexivity]].
Qed.

Lemma unpack_event_true_iff d len dst :
  0 <= len < 65536 ->
  fst (unpack_event_packet (Some d) len (Some dst)) = true <-> event_accepts d len.
Proof.
  intros Hlen. unfold event_accepts, MAX_EVENT_PAYLOAD_LEN.
  unfold unpack_event_packet, parse_mhdr.
  destruct (Z.ltb_spec len 4); [cbn [fst]; split; [discriminate | lia] |].
  cbv zeta. eval_idx. ev_proj.
  fold (mhdr_payload_type (byte_at d 0)). fold (mhdr_meta_type (byte_at d 0)).
  destruct (Z.eqb_spec (mhdr_payload_type (byte_at d 0)) EVENT_TYPE);
    cbn [negb fst]; [| split; [discriminate | tauto]].
  destruct (Z.eqb_spec (mhdr_meta_type (byte_at d 0)) LORAWAN_TYPE);
    cbn [negb fst]; [| split; [discriminate | tauto]].
  rewrite (u16_small (len - 4)) by lia. unfold MAX_EVENT_PAYLOAD_LEN.
  destruct (Z.gtb_spec (len - 4) 240); cbn [fst];
    [split; [discriminate | lia] | split; [intros _; repeat split; (assumption || lia) | reflexivity]].
Qed.

(** X2.  For a length that fits [uint16_t], each decoder returns true
    exactly when the length is between the header size of its kind (6, 12, 4)
    and that size plus the payload cap, the first byte holds the meta-type
    0b111 and the payload-type of the kind, and, for an uplink, the SNR byte
    read as [int8_t] is in -32..31; nothing else in the buffer matters. *)
Theorem unpack_accepts_iff :
  forall (big_endian : bool) (d : list Z) (len : Z),
    0 <= len < 65536 ->
    (forall dst, fst (unpack_uplink_packet (Some d) len (Some dst)) = true
                 <-> uplink_accepts d len) /\
    (forall dst, fst (unpack_downlink_packet big_endian (Some d) len (Some dst)) = true
                 <-> downlink_accepts d len) /\
    (forall dst, fst (unpack_event_packet (Some d) len (Some dst)) = true
                 <-> event_accepts d len).
Proof.
  intros be d len Hlen. split; [| split]; intros dst.
  - apply unpack_uplink_true_iff. exact Hlen.
  - apply unpack_downlink_true_iff. exact Hlen.
  - apply unpack_event_true_iff. exact Hlen.
Qed.

Lemma unpack_accepts_iff_witness :
  fst (unpack_uplink_packet (Some example_frame) 8 (Some example_uplink)) = true
  <-> uplink_accepts example_frame 8.
Proof.
  apply (proj1 (unpack_accepts_iff false example_frame 8 ltac:(lia)) example_uplink).
Defined.

Lemma accepts_one_kind d len :
  (uplink_accepts d len -> ~ downlink_accepts d len /\ ~ event_accepts d len) /\
  (downlink_accepts d len -> ~ event_accepts d len).
Proof.
  unfold uplink_accepts, downlink_accepts, event_accepts,
    UPLINK_TYPE, DOWNLINK_TYPE, EVENT_TYPE.
  repeat split; intros; intuition congruence.
Qed.

Lemma not_true_false (b : bool) : ~ b = true -> b = false.
Proof. destruct b; [intros H; exfalso; apply H; reflexivity | reflexivity]. Qed.

(** X3.  On one buffer at most one of the three decoders returns
    true: the kinds are told apart by the payload-type bits of the first
    byte. *)
Theorem decoders_exclusive :
  forall (big_endian : bool) (d : list Z) (len : Z) ul dl ev,
    0 <= len < 65536 ->
    let u := fst (unpack_uplink_packet (Some d) len (Some ul)) in
    let w := fst (unpack_downlink_packet big_endian (Some d) len (Some dl)) in
    let e := fst (unpack_event_packet (Some d) len (Some ev)) in
    (u = true -> w = false /\ e = false) /\
    (w = true -> u = false /\ e = false) /\
    (e = true -> u = false /\ w = false).
Proof.
  intros be d len ul dl ev Hlen u w e.
  pose proof (unpack_uplink_true_iff d len ul Hlen) as Hu.
  pose proof (unpack_downlink_true_iff be d len dl Hlen) as Hw.
  pose proof (unpack_event_true_iff d len ev Hlen) as He.
  fold u in Hu. fold w in Hw. fold e in He.
  destruct (accepts_one_kind d len) as (Hud & Hde).
  split; [| split]; intros H; split; apply not_true_false; intros H';
    rewrite ?Hu, ?Hw, ?He in *; tauto.
Qed.

Lemma decoders_exclusive_witness :
  fst (unpack_downlink_packet false (Some example_frame) 8 (Some (example_downlink 0)))
  = false /\
  fst (unpack_event_packet (Some example_frame) 8 (Some example_event)) = false.
Proof.
  apply (proj1 (decoders_exclusive false example_frame 8 example_uplink
                  (example_downlink 0) example_event ltac:(lia))).
  reflexivity.
Defined.

(** *** What a round trip keeps *)

Lemma id_on_wire id lo :
  u16 (Z.lor (Z.shiftl (Z.land (Z.shiftr id 4) 0xFF) 4)
             (Z.land (Z.shiftr (u8 (Z.lor (Z.shiftl (Z.land id 0x0F) 4)
                                          (Z.land lo 0x0F))) 4) 0x0F))
  = Z.land id 0x0FFF.
Proof.
  unfold u16, u8.
  change 4095 with (Z.ones 12). change 255 with (Z.ones 8). change 15 with (Z.ones 4).
  change 65536 with (2 ^ 16). change 256 with (2 ^ 8).
  Z.bitblast.
Qed.

Lemma nibble_hi_on_wire hi lo :
  Z.land (Z.shiftr (u8 (Z.lor (Z.shiftl (Z.land hi 0x0F) 4) (Z.land lo 0x0F))) 4) 0x0F
  = Z.land hi 0x0F.
Proof.
  unfold u8. change 15 with (Z.ones 4). change 256 with (2 ^ 8). Z.bitblast.
Qed.

Lemma nibble_lo_on_wire hi lo :
  Z.land (u8 (Z.lor (Z.shiftl (Z.land hi 0x0F) 4) (Z.land lo 0x0F))) 0x0F
  = Z.land lo 0x0F.
Proof.
  unfold u8. change 15 with (Z.ones 4). change 256 with (2 ^ 8). Z.bitblast.
Qed.

Lemma firstn_memcpy_firstn dst src n :
  (Z.to_nat n <= List.length src)%nat ->
  firstn (Z.to_nat n) (memcpy dst (firstn (Z.to_nat n) src) n) = firstn (Z.to_nat n) src.
Proof.
  intros H. rewrite memcpy_prefix by (rewrite length_firstn; lia).
  rewrite firstn_firstn, Nat.min_id. reflexivity.
Qed.

Lemma uplink_wire_roundtrip (P dst : uplink_packet) :
  uplink_typed P = true ->
  ul_meta_type P = LORAWAN_TYPE -> ul_payload_type P = UPLINK_TYPE ->
  ul_payload_len P <= MAX_PHY_PAYLOAD_LEN ->
  (-32 <= ul_snr P <= 31 ->
   exists P', uplink_roundtrip P dst = (true, Some P') /\
              uplink_same P' (uplink_on_wire P)) /\
  (ul_snr P < -32 \/ 31 < ul_snr P -> fst (uplink_roundtrip P dst) = false).
Proof.
  intros Ht Hmt Hpt Hlen. destruct P as [mt pt hc id dr rssi snr ch phy n].
  unfold uplink_typed in Ht. ul_proj. cbn [ul_meta_type ul_payload_type ul_hop_count
    uplink_id ul_data_rate ul_rssi ul_snr ul_channel ul_phy_payload ul_payload_len] in *.
  unbool_hyps. subst mt pt. unfold MAX_PHY_PAYLOAD_LEN in *.
  unfold uplink_roundtrip, pack_uplink_packet. ul_proj. cbn [negb orb].
  unfold MAX_PHY_PAYLOAD_LEN.
  destruct (Z.gtb_spec n 245) as [|_]; [lia|].
  change (negb (UPLINK_TYPE =? UPLINK_TYPE)) with false.
  change (negb (LORAWAN_TYPE =? LORAWAN_TYPE)) with false. cbv iota.
  rewrite (u16_small (1 + 5 + n)) by lia. cbn [app].
  destruct (parse_build_fields LORAWAN_TYPE UPLINK_TYPE hc) as (E1 & E2 & E3).
  split.
  - intros Hsnr.
    rewrite unpack_uplink_accept;
      rewrite ?s8_u8 by lia; replace (1 + 5 + n - 6) with n by lia;
      rewrite ?(u16_small n) by lia; unfold MAX_PHY_PAYLOAD_LEN; try lia;
      try exact E1; try exact E2.
    rewrite E3, id_on_wire, nibble_lo_on_wire.
    eexists. split; [reflexivity |].
    unfold uplink_same, uplink_on_wire. ul_proj. repeat split.
    apply firstn_memcpy_firstn. lia.
  - intros Hsnr.
    apply unpack_uplink_rejects_snr; unfold byte_at; eval_idx; cbn [nth];
      try exact E1; try exact E2; try lia.
    rewrite s8_u8 by lia. lia.
Qed.

Lemma downlink_wire_roundtrip be (P dst : downlink_packet) :
  downlink_typed P = true ->
  dl_meta_type P = LORAWAN_TYPE -> dl_payload_type P = DOWNLINK_TYPE ->
  dl_payload_len P <= MAX_PHY_PAYLOAD_LEN ->
  exists P', downlink_roundtrip be P dst = (true, Some P') /\
             downlink_same P' (downlink_on_wire P).
Proof.
  intros Ht Hmt Hpt Hlen. destruct P as [mt pt hc id dr fr tx dly cnt phy n].
  unfold downlink_typed in Ht.
  cbn [dl_meta_type dl_payload_type dl_hop_count dwlink_id dl_data_rate
       dl_frequency dl_tx_power dl_delay dl_count_us dl_phy_payload
       dl_payload_len] in *.
  unbool_hyps. subst mt pt. unfold MAX_PHY_PAYLOAD_LEN in *.
  unfold downlink_roundtrip, pack_downlink_packet. dl_proj. cbn [negb orb].
  unfold MAX_PHY_PAYLOAD_LEN.
  destruct (Z.gtb_spec n 245) as [|_]; [lia|].
  change (negb (DOWNLINK_TYPE =? DOWNLINK_TYPE)) with false.
  change (negb (LORAWAN_TYPE =? LORAWAN_TYPE)) with false. cbv iota.
  rewrite (u16_small (1 + 7 + 4 + n)) by lia.
  destruct (parse_build_fields LORAWAN_TYPE DOWNLINK_TYPE hc) as (E1 & E2 & E3).
  unfold bytes32 at 1 2. cbn [app].
  rewrite unpack_downlink_accept;
    replace (1 + 7 + 4 + n - 12) with n by lia;
    rewrite ?(u16_small n) by lia; unfold MAX_PHY_PAYLOAD_LEN; try lia;
    try exact E1; try exact E2.
  fold (bytes32 (host_to_be32 be fr)). fold (bytes32 (host_to_be32 be cnt)).
  rewrite !read32_bytes32_0 by (apply be_to_host32_range; lia).
  rewrite !be_host_roundtrip by lia.
  rewrite E3, id_on_wire, !nibble_lo_on_wire, nibble_hi_on_wire.
  eexists. split; [reflexivity |].
  unfold downlink_same, downlink_on_wire. dl_proj. repeat split.
  apply firstn_memcpy_firstn. lia.
Qed.

Lemma u8_land x : u8 x = Z.land x 0xFF.
Proof. unfold u8. change 255 with (Z.ones 8). rewrite Z.land_ones by lia. reflexivity. Qed.

Lemma event_wire_roundtrip (P dst : event_packet) :
  event_typed P = true ->
  ev_meta_type P = LORAWAN_TYPE -> ev_payload_type P = EVENT_TYPE ->
  ev_payload_len P <= MAX_EVENT_PAYLOAD_LEN ->
  exists P', event_roundtrip P dst = (true, Some P') /\
             event_same P' (event_on_wire P).
Proof.
  intros Ht Hmt Hpt Hlen. destruct P as [mt pt hc id ty pl n].
  unfold event_typed in Ht.
  cbn [ev_meta_type ev_payload_type ev_hop_count event_id event_type
       event_payload ev_payload_len] in *.
  unbool_hyps. subst mt pt. unfold MAX_EVENT_PAYLOAD_LEN in *.
  unfold event_roundtrip, pack_event_packet. ev_proj. cbn [negb orb].
  unfold MAX_EVENT_PAYLOAD_LEN.
  destruct (Z.gtb_spec n 240) as [|_]; [lia|].
  change (negb (EVENT_TYPE =? EVENT_TYPE)) with false.
  change (negb (LORAWAN_TYPE =? LORAWAN_TYPE)) with false. cbv iota.
  rewrite (u16_small (1 + 3 + n)) by lia.
  destruct (parse_build_fields LORAWAN_TYPE EVENT_TYPE hc) as (E1 & E2 & E3).
  cbn [app].
  rewrite unpack_event_accept;
    replace (1 + 3 + n - 4) with n by lia;
    rewrite ?(u16_small n) by lia; unfold MAX_EVENT_PAYLOAD_LEN; try lia;
    try exact E1; try exact E2.
  rewrite E3, event_id_roundtrip, u8_land by lia.
  eexists. split; [reflexivity |].
  unfold event_same, event_on_wire. ev_proj. repeat split.
  apply firstn_memcpy_firstn. lia.
Qed.

(** X4.  Without the validity conditions on the fields: a packet of
    the C type with the discriminators of its kind and a payload length within
    the cap is encoded, and decoding the bytes gives the packet with each field
    cut to its width on the wire (hop count 3 bits, id 12 bits, data rate, TX
    power and delay 4 bits, event type 8 bits), the other fields and the
    payload bytes as they were.  For an uplink this holds when the SNR is in
    -32..31; otherwise the encoder still returns the bytes and the decoder
    refuses them. *)
Theorem roundtrip_keeps_wire_fields :
  (forall P dst : uplink_packet,
     uplink_typed P = true ->
     ul_meta_type P = LORAWAN_TYPE -> ul_payload_type P = UPLINK_TYPE ->
     ul_payload_len P <= MAX_PHY_PAYLOAD_LEN ->
     (-32 <= ul_snr P <= 31 ->
      exists P', uplink_roundtrip P dst = (true, Some P') /\
                 uplink_same P' (uplink_on_wire P)) /\
     (ul_snr P < -32 \/ 31 < ul_snr P -> fst (uplink_roundtrip P dst) = false)) /\
  (forall (big_endian : bool) (P dst : downlink_packet),
     downlink_typed P = true ->
     dl_meta_type P = LORAWAN_TYPE -> dl_payload_type P = DOWNLINK_TYPE ->
     dl_payload_len P <= MAX_PHY_PAYLOAD_LEN ->
     exists P', downlink_roundtrip big_endian P dst = (true, Some P') /\
                downlink_same P' (downlink_on_wire P)) /\
  (forall P dst : event_packet,
     event_typed P = true ->
     ev_meta_type P = LORAWAN_TYPE -> ev_payload_type P = EVENT_TYPE ->
     ev_payload_len P <= MAX_EVENT_PAYLOAD_LEN ->
     exists P', event_roundtrip P dst = (true, Some P') /\
                event_same P' (event_on_wire P)).
Proof.
  split; [exact uplink_wire_roundtrip |].
  split; [exact downlink_wire_roundtrip | exact event_wire_roundtrip].
Qed.

Lemma roundtrip_keeps_wire_fields_witness :
  exists P', uplink_roundtrip example_uplink example_uplink = (true, Some P') /\
             uplink_same P' (uplink_on_wire example_uplink).
Proof.
  refine (proj1 (proj1 roundtrip_keeps_wire_fields example_uplink example_uplink
                       eq_refl eq_refl eq_refl _) _);
    unfold example_uplink, MAX_PHY_PAYLOAD_LEN; cbn; lia.
Defined.

(** *** Encoding what was decoded *)

Lemma id_byte1_back b1 b2 :
  0 <= b1 < 256 ->
  Z.land (Z.shiftr (u16 (Z.lor (Z.shiftl b1 4) (Z.land (Z.shiftr b2 4) 0x0F))) 4) 0xFF = b1.
Proof.
  intros H1. unfold u16.
  rewrite <- (Z.mod_small b1 (2 ^ 8)) by (change (2 ^ 8) with 256; lia).
  change 255 with (Z.ones 8). change 15 with (Z.ones 4). change 65536 with (2 ^ 16).
  Z.bitblast.
Qed.

Lemma id_byte2_back b1 b2 :
  0 <= b2 < 256 ->
  u8 (Z.lor (Z.shiftl (Z.land (u16 (Z.lor (Z.shiftl b1 4)
                                          (Z.land (Z.shiftr b2 4) 0x0F))) 0x0F) 4)
            (Z.land (Z.land b2 0x0F) 0x0F)) = b2.
Proof.
  intros H2. unfold u16, u8.
  rewrite <- (Z.mod_small b2 (2 ^ 8)) by (change (2 ^ 8) with 256; lia).
  change 15 with (Z.ones 4). change 65536 with (2 ^ 16). change 256 with (2 ^ 8).
  Z.bitblast.
  rewrite (Z.testbit_neg_r b1 l) by lia.
  rewrite (Z.mod_small b2 (2 ^ 8)) by (change (2 ^ 8) with 256; lia).
  destruct (Z.testbit b2 l0); reflexivity.
Qed.

Lemma nibbles_back b :
  0 <= b < 256 ->
  u8 (Z.lor (Z.shiftl (Z.land (Z.land (Z.shiftr b 4) 0x0F) 0x0F) 4)
            (Z.land (Z.land b 0x0F) 0x0F)) = b.
Proof.
  intros Hb. unfold u8.
  rewrite <- (Z.mod_small b (2 ^ 8)) by (change (2 ^ 8) with 256; lia).
  change 15 with (Z.ones 4). change 256 with (2 ^ 8).
  Z.bitblast.
  rewrite (Z.mod_small b (2 ^ 8)) by (change (2 ^ 8) with 256; lia).
  destruct (Z.testbit b l); reflexivity.
Qed.

Lemma u8_s8 b : 0 <= b < 256 -> u8 (s8 b) = b.
Proof.
  intros Hb. unfold u8, s8. rewrite (Z.mod_small b 256) by lia.
  destruct (Z.ltb_spec b 128).
  - apply Z.mod_small. lia.
  - replace (b - 256) with (b + (-1) * 256) by lia.
    rewrite Z.mod_add by lia. apply Z.mod_small. lia.
Qed.

Lemma memcpy_whole dst src :
  firstn (List.length src) (memcpy dst src (Z.of_nat (List.length src))) = src.
Proof.
  unfold memcpy. rewrite Nat2Z.id, firstn_all, firstn_app, firstn_all.
  rewrite Nat.sub_diag. cbn. apply app_nil_r.
Qed.

Lemma decoded_inj {A : Type} (a b : A) : (true, Some a) = (true, Some b) -> a = b.
Proof. intros H. injection H as H. exact H. Qed.

Lemma uplink_decode_encode d dst P :
  bytes d -> Z.of_nat (List.length d) < 65536 ->
  unpack_uplink_packet (Some d) (Z.of_nat (List.length d)) (Some dst) = (true, Some P) ->
  pack_uplink_packet true (Some P) true = Some (d, Z.of_nat (List.length d)).
Proof.
  intros Hd Hlen Hun.
  assert (Hacc : uplink_accepts d (Z.of_nat (List.length d))).
  { apply (unpack_uplink_true_iff d _ dst); [lia |]. rewrite Hun. reflexivity. }
  destruct Hacc as ((Hmin & Hmax) & Hmt & Hpt & Hsnr).
  destruct d as [| b0 [| b1 [| b2 [| b3 [| b4 [| b5 rest]]]]]];
    cbn [List.length] in Hmin; try lia.
  unfold byte_at in Hmt, Hpt, Hsnr. cbn [nth Z.to_nat] in Hmt, Hpt.
  change (Z.to_nat 4) with 4%nat in Hsnr. cbn [nth] in Hsnr.
  unfold mhdr_meta_type in Hmt. unfold mhdr_payload_type in Hpt.
  unfold MAX_PHY_PAYLOAD_LEN in Hmax.
  set (len := Z.of_nat (List.length (b0 :: b1 :: b2 :: b3 :: b4 :: b5 :: rest))) in *.
  assert (Hrest : len - 6 = Z.of_nat (List.length rest)) by (subst len; cbn [List.length]; lia).
  clearbody len. clear Hmin.
  assert (Hu : u16 (len - 6) = len - 6) by (apply u16_small; lia).
  rewrite unpack_uplink_accept in Hun;
    [| lia | assumption | assumption | assumption
     | rewrite Hu; unfold MAX_PHY_PAYLOAD_LEN; lia].
  rewrite Hu in Hun. apply decoded_inj in Hun. subst P.
  apply Forall_cons_iff in Hd as [H0 Hd]. apply Forall_cons_iff in Hd as [H1 Hd].
  apply Forall_cons_iff in Hd as [H2 Hd]. apply Forall_cons_iff in Hd as [H3 Hd].
  apply Forall_cons_iff in Hd as [H4 Hd]. apply Forall_cons_iff in Hd as [H5 Hd].
  unfold pack_uplink_packet. ul_proj. cbn [negb orb]. unfold MAX_PHY_PAYLOAD_LEN.
  destruct (Z.gtb_spec (len - 6) 245) as [|_]; [lia |].
  change (negb (UPLINK_TYPE =? UPLINK_TYPE)) with false.
  change (negb (LORAWAN_TYPE =? LORAWAN_TYPE)) with false. cbv iota.
  rewrite (u16_small (1 + 5 + (len - 6))) by lia.
  rewrite id_byte1_back, id_byte2_back, !u8_s8 by assumption.
  pose proof (build_parse_byte b0 H0) as Hb0.
  unfold mhdr_meta_type, mhdr_payload_type in Hb0. rewrite Hmt, Hpt in Hb0.
  rewrite Hb0, Hrest, Nat2Z.id, memcpy_whole.
  f_equal. f_equal. lia.
Qed.

Lemma byte_land b : 0 <= b < 256 -> Z.land b 0xFF = b.
Proof. intros Hb. change 255 with (Z.ones 8). rewrite Z.land_ones by lia. apply Z.mod_small. exact Hb. Qed.

Lemma read32_combine f3 f2 f1 f0 :
  0 <= f3 < 256 -> 0 <= f2 < 256 -> 0 <= f1 < 256 -> 0 <= f0 < 256 ->
  read32 [f3; f2; f1; f0] 0
  = combine32 (Z.land f3 0xFF) (Z.land f2 0xFF) (Z.land f1 0xFF) (Z.land f0 0xFF).
Proof.
  intros H3 H2 H1 H0. rewrite !byte_land by assumption.
  unfold read32, byte_at, combine32. cbv zeta. eval_idx. cbn [nth].
  unfold u32. rewrite !Z.shiftl_mul_pow2 by lia.
  rewrite !Z.mod_small by lia. reflexivity.
Qed.

Lemma bytes32_read32 f3 f2 f1 f0 :
  0 <= f3 < 256 -> 0 <= f2 < 256 -> 0 <= f1 < 256 -> 0 <= f0 < 256 ->
  bytes32 (read32 [f3; f2; f1; f0] 0) = [f3; f2; f1; f0] /\
  0 <= read32 [f3; f2; f1; f0] 0 < 4294967296.
Proof.
  intros H3 H2 H1 H0. rewrite read32_combine by assumption. split.
  - destruct (combine32_bytes f3 f2 f1 f0) as (E3 & E2 & E1 & E0).
    cbv zeta in *. unfold bytes32. rewrite E3, E2, E1, E0.
    rewrite !byte_land by assumption. reflexivity.
  - apply combine32_range.
Qed.

Lemma host_be_roundtrip be v :
  0 <= v < 4294967296 -> host_to_be32 be (be_to_host32 be v) = v.
Proof. apply be_host_roundtrip. Qed.

Lemma downlink_decode_encode be d dst P :
  bytes d -> Z.of_nat (List.length d) < 65536 ->
  unpack_downlink_packet be (Some d) (Z.of_nat (List.length d)) (Some dst) = (true, Some P) ->
  pack_downlink_packet be true (Some P) true = Some (d, Z.of_nat (List.length d)).
Proof.
  intros Hd Hlen Hun.
  assert (Hacc : downlink_accepts d (Z.of_nat (List.length d))).
  { apply (unpack_downlink_true_iff be d _ dst); [lia |]. rewrite Hun. reflexivity. }
  destruct Hacc as ((Hmin & Hmax) & Hmt & Hpt).
  destruct d as [| b0 [| b1 [| b2 [| f3 [| f2 [| f1 [| f0 [| tb [| c3 [| c2 [| c1 [| c0 rest]]]]]]]]]]]];
    cbn [List.length] in Hmin; try lia.
  unfold byte_at in Hmt, Hpt. cbn [nth Z.to_nat] in Hmt, Hpt.
  unfold mhdr_meta_type in Hmt. unfold mhdr_payload_type in Hpt.
  unfold MAX_PHY_PAYLOAD_LEN in Hmax.
  set (len := Z.of_nat (List.length _)) in *.
  assert (Hrest : len - 12 = Z.of_nat (List.length rest)) by (subst len; cbn [List.length]; lia).
  clearbody len. clear Hmin.
  assert (Hu : u16 (len - 12) = len - 12) by (apply u16_small; lia).
  rewrite unpack_downlink_accept in Hun;
    [| lia | assumption | assumption | rewrite Hu; unfold MAX_PHY_PAYLOAD_LEN; lia].
  rewrite Hu in Hun. apply decoded_inj in Hun. subst P.
  apply Forall_cons_iff in Hd as [H0 Hd]. apply Forall_cons_iff in Hd as [H1 Hd].
  apply Forall_cons_iff in Hd as [H2 Hd]. apply Forall_cons_iff in Hd as [Hf3 Hd].
  apply Forall_cons_iff in Hd as [Hf2 Hd]. apply Forall_cons_iff in Hd as [Hf1 Hd].
  apply Forall_cons_iff in Hd as [Hf0 Hd]. apply Forall_cons_iff in Hd as [Htb Hd].
  apply Forall_cons_iff in Hd as [Hc3 Hd]. apply Forall_cons_iff in Hd as [Hc2 Hd].
  apply Forall_cons_iff in Hd as [Hc1 Hd]. apply Forall_cons_iff in Hd as [Hc0 Hd].
  destruct (bytes32_read32 f3 f2 f1 f0 Hf3 Hf2 Hf1 Hf0) as (Ef & Rf).
  destruct (bytes32_read32 c3 c2 c1 c0 Hc3 Hc2 Hc1 Hc0) as (Ec & Rc).
  unfold pack_downlink_packet. dl_proj. cbn [negb orb]. unfold MAX_PHY_PAYLOAD_LEN.
  destruct (Z.gtb_spec (len - 12) 245) as [|_]; [lia |].
  change (negb (DOWNLINK_TYPE =? DOWNLINK_TYPE)) with false.
  change (negb (LORAWAN_TYPE =? LORAWAN_TYPE)) with false. cbv iota zeta.
  rewrite (u16_small (1 + 7 + 4 + (len - 12))) by lia.
  rewrite id_byte1_back, id_byte2_back, nibbles_back by assumption.
  rewrite !host_be_roundtrip by assumption. rewrite Ef, Ec.
  pose proof (build_parse_byte b0 H0) as Hb0.
  unfold mhdr_meta_type, mhdr_payload_type in Hb0. rewrite Hmt, Hpt in Hb0.
  rewrite Hb0, Hrest, Nat2Z.id, memcpy_whole.
  cbn [app]. f_equal. f_equal. lia.
Qed.

Lemma event_id_hi_back b1 b2 :
  0 <= b1 < 256 -> 0 <= b2 < 256 ->
  Z.land (Z.shiftr (Z.lor (u16 (Z.shiftl b1 8)) b2) 8) 0xFF = b1.
Proof.
  intros H1 H2. unfold u16. rewrite Z.shiftl_mul_pow2 by lia.
  rewrite (Z.mod_small (b1 * 2 ^ 8)) by lia.
  rewrite <- Z.shiftl_mul_pow2 by lia.
  rewrite Z.shiftr_lor, Z.shiftr_shiftl_l by lia. cbn [Z.sub Z.opp Z.add Z.shiftl].
  rewrite Z.shiftl_0_r.
  rewrite (Z.shiftr_div_pow2 b2) by lia. rewrite (Z.div_small b2) by lia.
  rewrite Z.lor_0_r. apply byte_land. exact H1.
Qed.

Lemma event_id_lo_back b1 b2 :
  0 <= b1 < 256 -> 0 <= b2 < 256 ->
  Z.land (Z.lor (u16 (Z.shiftl b1 8)) b2) 0xFF = b2.
Proof.
  intros H1 H2. unfold u16.
  rewrite <- (Z.mod_small b2 (2 ^ 8)) by (change (2 ^ 8) with 256; lia).
  change 255 with (Z.ones 8). change 65536 with (2 ^ 16).
  Z.bitblast.
  all: rewrite ?(Z.mod_small b2 (2 ^ 8)) by (change (2 ^ 8) with 256; lia).
  all: rewrite ?(Z.testbit_neg_r b1) by lia.
  all: destruct (Z.testbit b2 _); reflexivity.
Qed.

Lemma event_decode_encode d dst P :
  bytes d -> Z.of_nat (List.length d) < 65536 ->
  unpack_event_packet (Some d) (Z.of_nat (List.length d)) (Some dst) = (true, Some P) ->
  pack_event_packet true (Some P) true = Some (d, Z.of_nat (List.length d)).
Proof.
  intros Hd Hlen Hun.
  assert (Hacc : event_accepts d (Z.of_nat (List.length d))).
  { apply (unpack_event_true_iff d _ dst); [lia |]. rewrite Hun. reflexivity. }
  destruct Hacc as ((Hmin & Hmax) & Hmt & Hpt).
  destruct d as [| b0 [| b1 [| b2 [| b3 rest]]]];
    cbn [List.length] in Hmin; try lia.
  unfold byte_at in Hmt, Hpt. cbn [nth Z.to_nat] in Hmt, Hpt.
  unfold mhdr_meta_type in Hmt. unfold mhdr_payload_type in Hpt.
  unfold MAX_EVENT_PAYLOAD_LEN in Hmax.
  set (len := Z.of_nat (List.length _)) in *.
  assert (Hrest : len - 4 = Z.of_nat (List.length rest)) by (subst len; cbn [List.length]; lia).
  clearbody len. clear Hmin.
  assert (Hu : u16 (len - 4) = len - 4) by (apply u16_small; lia).
  rewrite unpack_event_accept in Hun;
    [| lia | assumption | assumption | rewrite Hu; unfold MAX_EVENT_PAYLOAD_LEN; lia].
  rewrite Hu in Hun. apply decoded_inj in Hun. subst P.
  apply Forall_cons_iff in Hd as [H0 Hd]. apply Forall_cons_iff in Hd as [H1 Hd].
  apply Forall_cons_iff in Hd as [H2 Hd]. apply Forall_cons_iff in Hd as [H3 Hd].
  unfold pack_event_packet. ev_proj. cbn [negb orb]. unfold MAX_EVENT_PAYLOAD_LEN.
  destruct (Z.gtb_spec (len - 4) 240) as [|_]; [lia |].
  change (negb (EVENT_TYPE =? EVENT_TYPE)) with false.
  change (negb (LORAWAN_TYPE =? LORAWAN_TYPE)) with false. cbv iota zeta.
  rewrite (u16_small (1 + 3 + (len - 4))) by lia.
  rewrite event_id_hi_back, event_id_lo_back by assumption.
  rewrite (u8_small b3) by lia.
  pose proof (build_parse_byte b0 H0) as Hb0.
  unfold mhdr_meta_type, mhdr_payload_type in Hb0. rewrite Hmt, Hpt in Hb0.
  rewrite Hb0, Hrest, Nat2Z.id, memcpy_whole.
  cbn [app]. f_equal. f_equal. lia.
Qed.

(** X5.  Encoding what was decoded gives the buffer back: when a decoder
    accepts a buffer of bytes over its whole length, the encoder of the kind,
    applied to the decoded packet, returns that buffer and that length,
    whatever the destination held before and on hosts of either byte order. *)
Theorem decode_then_encode :
  (forall (d : list Z) (dst P : uplink_packet),
     bytes d -> Z.of_nat (List.length d) < 65536 ->
     unpack_uplink_packet (Some d) (Z.of_nat (List.length d)) (Some dst) = (true, Some P) ->
     pack_uplink_packet true (Some P) true = Some (d, Z.of_nat (List.length d))) /\
  (forall (big_endian : bool) (d : list Z) (dst P : downlink_packet),
     bytes d -> Z.of_nat (List.length d) < 65536 ->
     unpack_downlink_packet big_endian (Some d) (Z.of_nat (List.length d)) (Some dst)
     = (true, Some P) ->
     pack_downlink_packet big_endian true (Some P) true
     = Some (d, Z.of_nat (List.length d))) /\
  (forall (d : list Z) (dst P : event_packet),
     bytes d -> Z.of_nat (List.length d) < 65536 ->
     unpack_event_packet (Some d) (Z.of_nat (List.length d)) (Some dst) = (true, Some P) ->
     pack_event_packet true (Some P) true = Some (d, Z.of_nat (List.length d))).
Proof.
  split; [| split].
  - exact uplink_decode_encode.
  - exact downlink_decode_encode.
  - exact event_decode_encode.
Qed.

Lemma bytes_checked d :
  forallb (fun b => (0 <=? b) && (b <? 256)) d = true -> bytes d.
Proof.
  intros H. apply Forall_forall. intros b Hb.
  rewrite forallb_forall in H. specialize (H b Hb).
  apply andb_prop in H. destruct H as [H1 H2].
  apply Z.leb_le in H1. apply Z.ltb_lt in H2. lia.
Qed.

Lemma decode_then_encode_witness :
  pack_uplink_packet true (Some example_uplink) true
  = Some (example_frame, Z.of_nat (List.length example_frame)).
Proof.
  apply (proj1 decode_then_encode example_frame example_uplink example_uplink).
  - apply bytes_checked. reflexivity.
  - cbn. lia.
  - vm_compute. reflexivity.
Defined.

(** *** The buffer an encoder returns *)

Lemma bytes_firstn n d : bytes d -> bytes (firstn n d).
Proof.
  unfold bytes. intros H. rewrite <- (firstn_skipn n d) in H.
  apply Forall_app in H. apply H.
Qed.

Lemma land_byte_range x : 0 <= Z.land x 0xFF < 256.
Proof. change 255 with (Z.ones 8). rewrite Z.land_ones by lia. apply Z.mod_pos_bound. lia. Qed.

Lemma u8_range x : 0 <= u8 x < 256.
Proof. unfold u8. apply Z.mod_pos_bound. lia. Qed.

Lemma bytes32_bytes v : bytes (bytes32 v).
Proof. unfold bytes, bytes32. repeat constructor; apply land_byte_range. Qed.

Lemma packed_inj (b b' : list Z) (n n' : Z) : Some (b, n) = Some (b', n') -> b = b' /\ n = n'.
Proof. intros H. injection H as H1 H2. split; assumption. Qed.

Lemma pack_uplink_shape p buf n :
  uplink_typed p = true -> uplink_payload_bytes p ->
  pack_uplink_packet true (Some p) true = Some (buf, n) ->
  n = 6 + ul_payload_len p /\ Z.of_nat (List.length buf) = n /\ bytes buf /\ n <= 251.
Proof.
  intros Ht Hb. destruct p as [mt pt hc id dr rssi snr ch phy len].
  unfold uplink_typed, uplink_payload_bytes in *.
  cbn [ul_meta_type ul_payload_type ul_hop_count uplink_id ul_data_rate ul_rssi
       ul_snr ul_channel ul_phy_payload ul_payload_len] in *.
  unbool_hyps. unfold MAX_PHY_PAYLOAD_LEN in *.
  unfold pack_uplink_packet. ul_proj. cbn [negb orb]. unfold MAX_PHY_PAYLOAD_LEN.
  destruct (Z.gtb_spec len 245) as [|Hle]; [discriminate |].
  destruct (negb (pt =? UPLINK_TYPE)); [discriminate |].
  destruct (negb (mt =? LORAWAN_TYPE)); [discriminate |].
  rewrite (u16_small (1 + 5 + len)) by lia.
  intros Hp. apply packed_inj in Hp. destruct Hp as [<- <-].
  split; [lia | split; [| split; [| lia]]].
  - rewrite length_app, length_firstn. cbn [List.length]. lia.
  - apply Forall_app. split.
    + repeat constructor; try apply build_mhdr_range; try apply land_byte_range;
        try apply u8_range; lia.
    + apply bytes_firstn. exact Hb.
Qed.

Lemma pack_downlink_shape be p buf n :
  downlink_typed p = true -> downlink_payload_bytes p ->
  pack_downlink_packet be true (Some p) true = Some (buf, n) ->
  n = 12 + dl_payload_len p /\ Z.of_nat (List.length buf) = n /\ bytes buf /\ n <= 257.
Proof.
  intros Ht Hb. destruct p as [mt pt hc id dr fr tx dly cnt phy len].
  unfold downlink_typed, downlink_payload_bytes in *.
  cbn [dl_meta_type dl_payload_type dl_hop_count dwlink_id dl_data_rate
       dl_frequency dl_tx_power dl_delay dl_count_us dl_phy_payload
       dl_payload_len] in *.
  unbool_hyps. unfold MAX_PHY_PAYLOAD_LEN in *.
  unfold pack_downlink_packet. dl_proj. cbn [negb orb]. unfold MAX_PHY_PAYLOAD_LEN.
  destruct (Z.gtb_spec len 245) as [|Hle]; [discriminate |].
  destruct (negb (pt =? DOWNLINK_TYPE)); [discriminate |].
  destruct (negb (mt =? LORAWAN_TYPE)); [discriminate |].
  rewrite (u16_small (1 + 7 + 4 + len)) by lia. cbv zeta.
  intros Hp. apply packed_inj in Hp. destruct Hp as [<- <-].
  split; [lia | split; [| split; [| lia]]].
  - rewrite !length_app, length_firstn. cbn [List.length bytes32]. lia.
  - repeat (apply Forall_app; split); try apply bytes32_bytes.
    + repeat constructor; try apply build_mhdr_range; try apply land_byte_range;
        apply u8_range.
    + repeat constructor; apply u8_range.
    + apply bytes_firstn. exact Hb.
Qed.

Lemma pack_event_shape p buf n :
  event_typed p = true -> event_payload_bytes p ->
  pack_event_packet true (Some p) true = Some (buf, n) ->
  n = 4 + ev_payload_len p /\ Z.of_nat (List.length buf) = n /\ bytes buf /\ n <= 244.
Proof.
  intros Ht Hb. destruct p as [mt pt hc id ty pl len].
  unfold event_typed, event_payload_bytes in *.
  cbn [ev_meta_type ev_payload_type ev_hop_count event_id event_type
       event_payload ev_payload_len] in *.
  unbool_hyps. unfold MAX_EVENT_PAYLOAD_LEN in *.
  unfold pack_event_packet. ev_proj. cbn [negb orb]. unfold MAX_EVENT_PAYLOAD_LEN.
  destruct (Z.gtb_spec len 240) as [|Hle]; [discriminate |].
  destruct (negb (pt =? EVENT_TYPE)); [discriminate |].
  destruct (negb (mt =? LORAWAN_TYPE)); [discriminate |].
  rewrite (u16_small (1 + 3 + len)) by lia.
  intros Hp. apply packed_inj in Hp. destruct Hp as [<- <-].
  split; [lia | split; [| split; [| lia]]].
  - rewrite length_app, length_firstn. cbn [List.length]. lia.
  - apply Forall_app. split.
    + repeat constructor; try apply build_mhdr_range; try apply land_byte_range;
        apply u8_range.
    + apply bytes_firstn. exact Hb.
Qed.

(** X6.  The buffer an encoder returns has the length it stores in
    [out_len], which is the header size of the kind plus [payload_len] and at
    most 251, 257 or 244, and its cells are bytes when the payload cells
    are. *)
Theorem pack_output_shape :
  (forall (p : uplink_packet) (buf : list Z) (n : Z),
     uplink_typed p = true -> uplink_payload_bytes p ->
     pack_uplink_packet true (Some p) true = Some (buf, n) ->
     n = 6 + ul_payload_len p /\ Z.of_nat (List.length buf) = n /\ bytes buf /\ n <= 251) /\
  (forall (big_endian : bool) (p : downlink_packet) (buf : list Z) (n : Z),
     downlink_typed p = true -> downlink_payload_bytes p ->
     pack_downlink_packet big_endian true (Some p) true = Some (buf, n) ->
     n = 12 + dl_payload_len p /\ Z.of_nat (List.length buf) = n /\ bytes buf /\ n <= 257) /\
  (forall (p : event_packet) (buf : list Z) (n : Z),
     event_typed p = true -> event_payload_bytes p ->
     pack_event_packet true (Some p) true = Some (buf, n) ->
     n = 4 + ev_payload_len p /\ Z.of_nat (List.length buf) = n /\ bytes buf /\ n <= 244).
Proof.
  split; [| split].
  - exact pack_uplink_shape.
  - exact pack_downlink_shape.
  - exact pack_event_shape.
Qed.

Lemma pack_output_shape_witness :
  8 = 6 + ul_payload_len example_uplink /\
  Z.of_nat (List.length example_frame) = 8 /\ bytes example_frame /\ 8 <= 251.
Proof.
  apply (proj1 pack_output_shape example_uplink example_frame 8).
  - reflexivity.
  - apply bytes_checked. reflexivity.
  - vm_compute. reflexivity.
Defined.

(** *** What a refused frame leaves in the destination *)

Ltac split_ifs :=
  repeat match goal with
  | |- context [if ?c then _ else _] => destruct c eqn:?
  end.

Ltac kept_by_failure dst :=
  cbn [fst snd]; intros Hf; try discriminate Hf;
  (eexists; split;
   [reflexivity
   | split; [reflexivity | intros [Hn | Hl]; [discriminate Hn | lia]]]).

Lemma unpack_uplink_failure d len dst :
  fst (unpack_uplink_packet d len (Some dst)) = false ->
  exists p', snd (unpack_uplink_packet d len (Some dst)) = Some p' /\
             ul_phy_payload p' = ul_phy_payload dst /\
             (d = None \/ len < 6 -> p' = dst).
Proof.
  unfold unpack_uplink_packet, parse_mhdr. destruct d as [d |].
  2: { intros _. exists dst. cbn [snd]. auto. }
  destruct (Z.ltb_spec len 6).
  { intros _. exists dst. cbn [snd]. auto. }
  cbv zeta. ul_proj. split_ifs; kept_by_failure dst.
Qed.

Lemma unpack_downlink_failure be d len dst :
  fst (unpack_downlink_packet be d len (Some dst)) = false ->
  exists p', snd (unpack_downlink_packet be d len (Some dst)) = Some p' /\
             dl_phy_payload p' = dl_phy_payload dst /\
             (d = None \/ len < 12 -> p' = dst).
Proof.
  unfold unpack_downlink_packet, parse_mhdr. destruct d as [d |].
  2: { intros _. exists dst. cbn [snd]. auto. }
  destruct (Z.ltb_spec len 12).
  { intros _. exists dst. cbn [snd]. auto. }
  cbv zeta. dl_proj. split_ifs; kept_by_failure dst.
Qed.

Lemma unpack_event_failure d len dst :
  fst (unpack_event_packet d len (Some dst)) = false ->
  exists p', snd (unpack_event_packet d len (Some dst)) = Some p' /\
             event_payload p' = event_payload dst /\
             (d = None \/ len < 4 -> p' = dst).
Proof.
  unfold unpack_event_packet, parse_mhdr. destruct d as [d |].
  2: { intros _. exists dst. cbn [snd]. auto. }
  destruct (Z.ltb_spec len 4).
  { intros _. exists dst. cbn [snd]. auto. }
  cbv zeta. ev_proj. split_ifs; kept_by_failure dst.
Qed.

(** X7.  A decoder that returns false has not written the payload
    array of the destination; with a NULL or too short buffer it has written
    nothing at all. *)
Theorem unpack_failure_keeps_payload :
  (forall (d : option (list Z)) (len : Z) (dst : uplink_packet),
     fst (unpack_uplink_packet d len (Some dst)) = false ->
     exists p', snd (unpack_uplink_packet d len (Some dst)) = Some p' /\
                ul_phy_payload p' = ul_phy_payload dst /\
                (d = None \/ len < 6 -> p' = dst)) /\
  (forall (big_endian : bool) (d : option (list Z)) (len : Z) (dst : downlink_packet),
     fst (unpack_downlink_packet big_endian d len (Some dst)) = false ->
     exists p', snd (unpack_downlink_packet big_endian d len (Some dst)) = Some p' /\
                dl_phy_payload p' = dl_phy_payload dst /\
                (d = None \/ len < 12 -> p' = dst)) /\
  (forall (d : option (list Z)) (len : Z) (dst : event_packet),
     fst (unpack_event_packet d len (Some dst)) = false ->
     exists p', snd (unpack_event_packet d len (Some dst)) = Some p' /\
                event_payload p' = event_payload dst /\
                (d = None \/ len < 4 -> p' = dst)).
Proof.
  split; [| split].
  - exact unpack_uplink_failure.
  - exact unpack_downlink_failure.
  - exact unpack_event_failure.
Qed.

Lemma unpack_failure_keeps_payload_witness :
  exists p', snd (unpack_uplink_packet (Some example_frame) 5 (Some example_uplink))
             = Some p' /\
             ul_phy_payload p' = ul_phy_payload example_uplink /\
             (Some example_frame = None \/ 5 < 6 -> p' = example_uplink).
Proof.
  apply (proj1 unpack_failure_keeps_payload (Some example_frame) 5 example_uplink).
  reflexivity.
Defined.

(** X8.  [unpack_uplink_packet] does not restore the destination when
    it fails late: on an SNR outside -32..31 it returns false with the header
    fields, the id, the data rate, the RSSI and the out-of-range SNR stored,
    and on a buffer longer than 6 + 245 bytes it returns false with the
    channel stored and [payload_len] set to a value above the cap. *)
Theorem unpack_uplink_partial_write :
  forall (d : list Z) (len : Z) (dst : uplink_packet),
    6 <= len < 65536 ->
    mhdr_meta_type (byte_at d 0) = LORAWAN_TYPE ->
    mhdr_payload_type (byte_at d 0) = UPLINK_TYPE ->
    (s8 (byte_at d 4) < -32 \/ 31 < s8 (byte_at d 4) ->
     unpack_uplink_packet (Some d) len (Some dst)
     = (false,
        Some (mk_uplink LORAWAN_TYPE UPLINK_TYPE (Z.land (byte_at d 0) 0x07)
                (u16 (Z.lor (Z.shiftl (byte_at d 1) 4)
                            (Z.land (Z.shiftr (byte_at d 2) 4) 0x0F)))
                (Z.land (byte_at d 2) 0x0F) (s8 (byte_at d 3)) (s8 (byte_at d 4))
                (ul_channel dst) (ul_phy_payload dst) (ul_payload_len dst)))) /\
    (-32 <= s8 (byte_at d 4) <= 31 -> 6 + MAX_PHY_PAYLOAD_LEN < len ->
     exists p', unpack_uplink_packet (Some d) len (Some dst) = (false, Some p') /\
                ul_payload_len p' = len - 6 /\
                MAX_PHY_PAYLOAD_LEN < ul_payload_len p' /\
                ul_channel p' = byte_at d 5 /\
                ul_phy_payload p' = ul_phy_payload dst).
Proof.
  intros d len dst Hlen Hmt Hpt.
  unfold mhdr_meta_type in Hmt. unfold mhdr_payload_type in Hpt.
  unfold unpack_uplink_packet, parse_mhdr.
  destruct (Z.ltb_spec len 6) as [|_]; [lia |].
  cbv zeta. eval_idx. ul_proj. rewrite Hmt, Hpt.
  change (negb (UPLINK_TYPE =? UPLINK_TYPE)) with false.
  change (negb (LORAWAN_TYPE =? LORAWAN_TYPE)) with false. cbv iota.
  split.
  - intros Hsnr.
    destruct (Z.ltb_spec (s8 (byte_at d 4)) (-32));
      destruct (Z.gtb_spec (s8 (byte_at d 4)) 31); cbn [orb]; try reflexivity; lia.
  - intros Hsnr Hlong. unfold MAX_PHY_PAYLOAD_LEN in *.
    destruct (Z.ltb_spec (s8 (byte_at d 4)) (-32)) as [|_]; [lia |].
    destruct (Z.gtb_spec (s8 (byte_at d 4)) 31) as [|_]; [lia |]. cbn [orb].
    rewrite (u16_small (len - 6)) by lia.
    destruct (Z.gtb_spec (len - 6) 245) as [_|]; [| lia].
    eexists. split; [reflexivity |]. ul_proj. repeat split. lia.
Qed.

Lemma unpack_uplink_partial_write_witness :
  unpack_uplink_packet (Some [0xE2; 0x12; 0x34; 0xB0; 0x20; 0x09; 0xDE; 0xAD]) 8
                       (Some example_uplink)
  = (false, Some (mk_uplink 7 0 2 0x123 4 (-80) 32 3 (ul_phy_payload example_uplink) 2)).
Proof.
  apply (proj1 (unpack_uplink_partial_write
                  [0xE2; 0x12; 0x34; 0xB0; 0x20; 0x09; 0xDE; 0xAD] 8 example_uplink
                  ltac:(lia) eq_refl eq_refl)).
  right. vm_compute. reflexivity.
Defined.

(** *** Byte order of the 32-bit fields *)

Lemma bytes32_bswap32 v : bytes32 (bswap32 v) = rev (bytes32 v).
Proof.
  rewrite bswap32_combine.
  destruct (combine32_bytes v (Z.shiftr v 8) (Z.shiftr v 16) (Z.shiftr v 24))
    as (E3 & E2 & E1 & E0).
  cbv zeta in *. unfold bytes32. rewrite E3, E2, E1, E0. reflexivity.
Qed.

Lemma bytes32_host_to_be32 be v :
  bytes32 (host_to_be32 be v) = if be then bytes32 v else rev (bytes32 v).
Proof.
  unfold host_to_be32, be_to_host32. destruct be; [reflexivity | apply bytes32_bswap32].
Qed.

Lemma crossed_value be v :
  be_to_host32 (negb be) (host_to_be32 be v) = bswap32 v.
Proof. unfold host_to_be32, be_to_host32. destruct be; reflexivity. Qed.

(** X9.  The byte order of [frequency] and [count_us] in an encoded
    downlink follows the host: most significant byte first when the host is
    big-endian, least significant byte first when it is little-endian (the
    value is swapped, then written from its top byte down).  So what a host
    of the other byte order decodes is the byte-swapped frequency and
    counter. *)
Theorem downlink_byte_order :
  forall (big_endian : bool) (P dst : downlink_packet),
    downlink_typed P = true ->
    dl_meta_type P = LORAWAN_TYPE -> dl_payload_type P = DOWNLINK_TYPE ->
    dl_payload_len P <= MAX_PHY_PAYLOAD_LEN ->
    (exists buf n,
       pack_downlink_packet big_endian true (Some P) true = Some (buf, n) /\
       four_bytes_at buf 3
       = (if big_endian then bytes32 (dl_frequency P) else rev (bytes32 (dl_frequency P))) /\
       four_bytes_at buf 8
       = (if big_endian then bytes32 (dl_count_us P) else rev (bytes32 (dl_count_us P)))) /\
    (exists P',
       downlink_crossed big_endian P dst = (true, Some P') /\
       dl_frequency P' = bswap32 (dl_frequency P) /\
       dl_count_us P' = bswap32 (dl_count_us P)).
Proof.
  intros be P dst Ht Hmt Hpt Hlen. destruct P as [mt pt hc id dr fr tx dly cnt phy n].
  unfold downlink_typed in Ht.
  cbn [dl_meta_type dl_payload_type dl_hop_count dwlink_id dl_data_rate
       dl_frequency dl_tx_power dl_delay dl_count_us dl_phy_payload
       dl_payload_len] in *.
  unbool_hyps. subst mt pt. unfold MAX_PHY_PAYLOAD_LEN in *.
  unfold downlink_crossed, pack_downlink_packet. dl_proj. cbn [negb orb].
  unfold MAX_PHY_PAYLOAD_LEN.
  destruct (Z.gtb_spec n 245) as [|_]; [lia|].
  change (negb (DOWNLINK_TYPE =? DOWNLINK_TYPE)) with false.
  change (negb (LORAWAN_TYPE =? LORAWAN_TYPE)) with false. cbv iota zeta.
  rewrite (u16_small (1 + 7 + 4 + n)) by lia.
  split.
  - eexists. eexists. split; [reflexivity |].
    rewrite <- !bytes32_host_to_be32. unfold four_bytes_at, bytes32.
    cbn [app skipn firstn]. split; reflexivity.
  - destruct (parse_build_fields LORAWAN_TYPE DOWNLINK_TYPE hc) as (E1 & E2 & E3).
    unfold bytes32 at 1 2. cbn [app].
    rewrite unpack_downlink_accept;
      replace (1 + 7 + 4 + n - 12) with n by lia;
      rewrite ?(u16_small n) by lia; unfold MAX_PHY_PAYLOAD_LEN; try lia;
      try exact E1; try exact E2.
    fold (bytes32 (host_to_be32 be fr)). fold (bytes32 (host_to_be32 be cnt)).
    rewrite !read32_bytes32_0 by (apply be_to_host32_range; lia).
    rewrite !crossed_value.
    eexists. split; [reflexivity |]. dl_proj. split; reflexivity.
Qed.

Lemma downlink_byte_order_witness :
  (exists buf n,
     pack_downlink_packet false true (Some (example_downlink 3)) true = Some (buf, n) /\
     four_bytes_at buf 3 = rev (bytes32 (dl_frequency (example_downlink 3))) /\
     four_bytes_at buf 8 = rev (bytes32 (dl_count_us (example_downlink 3)))) /\
  (exists P',
     downlink_crossed false (example_downlink 3) (example_downlink 0) = (true, Some P') /\
     dl_frequency P' = bswap32 (dl_frequency (example_downlink 3)) /\
     dl_count_us P' = bswap32 (dl_count_us (example_downlink 3))).
Proof.
  apply (downlink_byte_order false (example_downlink 3) (example_downlink 0));
    try reflexivity; unfold example_downlink, MAX_PHY_PAYLOAD_LEN; cbn; lia.
Defined.

(** *** Identifiers and created packets *)

Lemma generate_uplink_id_range initialized r :
  let '(id, flag, _) := generate_uplink_id initialized r in
  0 <= id < 4096 /\ flag = true.
Proof.
  unfold generate_uplink_id. cbv zeta. split; [| reflexivity].
  assert (H : 0 <= Z.land r 0x0FFF < 4096).
  { change 4095 with (Z.ones 12). rewrite Z.land_ones by lia. apply Z.mod_pos_bound. lia. }
  rewrite u16_small by lia. exact H.
Qed.

Lemma generate_ids_seeded rs :
  forall ids final seedings,
    generate_ids true rs = (ids, final, seedings) ->
    final = true /\ seedings = 0%nat /\ Forall (fun id => 0 <= id < 4096) ids /\
    List.length ids = List.length rs.
Proof.
  induction rs as [| r rs IH]; intros ids final seedings.
  - cbn [generate_ids]. intros H. injection H as <- <- <-. repeat split. constructor.
  - cbn [generate_ids]. unfold generate_uplink_id at 1. cbv zeta. cbn [negb].
    destruct (generate_ids true rs) as [[ids' final'] seedings'] eqn:E.
    intros H. injection H as <- <- <-.
    destruct (IH ids' final' seedings' eq_refl) as (Hf & Hs & Hr & Hl).
    split; [exact Hf | split; [rewrite Hs; reflexivity | split]].
    + constructor; [| exact Hr].
      pose proof (generate_uplink_id_range true r) as Hg.
      unfold generate_uplink_id in Hg. cbv zeta in Hg. apply Hg.
    + cbn [List.length]. rewrite Hl. reflexivity.
Qed.

(** X10.  Every identifier [generate_uplink_id] returns is below 4096;
    over a run of calls the generator is seeded once, by the first call made
    with the flag clear, and the flag is set from then on. *)
Theorem generated_ids :
  forall (initialized : bool) (rand_values ids : list Z) (final : bool) (seedings : nat),
    generate_ids initialized rand_values = (ids, final, seedings) ->
    Forall (fun id => 0 <= id < 4096) ids /\
    List.length ids = List.length rand_values /\
    (rand_values <> [] -> final = true) /\
    seedings = (if initialized then 0 else match rand_values with [] => 0 | _ :: _ => 1 end)%nat.
Proof.
  intros initialized rs ids final seedings. destruct rs as [| r rs].
  - cbn [generate_ids]. intros H. injection H as <- <- <-.
    split; [constructor | split; [reflexivity | split]].
    + intros Hn. exfalso. apply Hn. reflexivity.
    + destruct initialized; reflexivity.
  - cbn [generate_ids]. unfold generate_uplink_id at 1. cbv zeta.
    destruct (generate_ids true rs) as [[ids' final'] seedings'] eqn:E.
    intros H. injection H as <- <- <-.
    destruct (generate_ids_seeded rs ids' final' seedings' E) as (Hf & Hs & Hr & Hl).
    split; [| split; [| split]].
    + constructor; [| exact Hr].
      pose proof (generate_uplink_id_range true r) as Hg.
      unfold generate_uplink_id in Hg. cbv zeta in Hg. apply Hg.
    + cbn [List.length]. rewrite Hl. reflexivity.
    + intros _. exact Hf.
    + rewrite Hs. destruct initialized; reflexivity.
Qed.

Lemma generated_ids_witness :
  Forall (fun id => 0 <= id < 4096) [0x345; 7] /\
  List.length [0x345; 7] = List.length [0x12345; 7] /\
  ([0x12345; 7] <> [] -> true = true) /\ 1%nat = 1%nat.
Proof.
  apply (generated_ids false [0x12345; 7] [0x345; 7] true 1). reflexivity.
Defined.

Lemma create_uplink_with_params_ok fresh initialized r data_rate rssi snr channel :
  0 <= data_rate < 256 -> -128 <= rssi < 128 -> -128 <= snr < 128 ->
  0 <= channel < 256 ->
  exists p,
    create_uplink_packet_with_params true fresh initialized r data_rate rssi snr channel
    = (Some p, true) /\
    uplink_typed p = true /\ 0 <= uplink_id p < 4096 /\
    ul_hop_count p = 0 /\ ul_payload_len p = 0 /\
    exists buf, pack_uplink_packet true (Some p) true = Some (buf, 6).
Proof.
  intros Hdr Hrssi Hsnr Hch.
  pose proof (generate_uplink_id_range initialized r) as Hg.
  unfold create_uplink_packet_with_params, create_uplink_packet, init_uplink_packet.
  unfold generate_uplink_id in *. cbv zeta in *. destruct Hg as (Hid & _).
  set (id := u16 (Z.land r 4095)) in *. clearbody id. ul_proj.
  eexists. split; [reflexivity |].
  unfold uplink_typed, in_range. ul_proj.
  split; [| split; [exact Hid | split; [reflexivity | split; [reflexivity |]]]].
  - rewrite repeat_length.
    repeat (apply andb_true_intro; split);
      try (apply Z.leb_le); try (apply Z.ltb_lt); try (apply Z.eqb_eq);
      try reflexivity; unfold LORAWAN_TYPE, UPLINK_TYPE, DOWNLINK_TYPE; lia.
  - unfold pack_uplink_packet. ul_proj. eexists. reflexivity.
Qed.

Lemma create_downlink_with_params_ok fresh initialized r data_rate frequency tx_power delay :
  0 <= data_rate < 256 -> 0 <= frequency < 4294967296 -> 0 <= tx_power < 256 ->
  0 <= delay < 256 ->
  forall big_endian,
  exists p,
    create_downlink_packet_with_params true fresh initialized r data_rate frequency
                                       tx_power delay
    = (Some p, true) /\
    downlink_typed p = true /\ 0 <= dwlink_id p < 4096 /\
    dl_hop_count p = 0 /\ dl_count_us p = 0 /\ dl_payload_len p = 0 /\
    exists buf, pack_downlink_packet big_endian true (Some p) true = Some (buf, 12).
Proof.
  intros Hdr Hfr Htx Hdly be.
  pose proof (generate_uplink_id_range initialized r) as Hg.
  unfold create_downlink_packet_with_params, create_downlink_packet, init_downlink_packet.
  unfold generate_dwlink_id, generate_uplink_id in *. cbv zeta in *.
  destruct Hg as (Hid & _).
  set (id := u16 (Z.land r 4095)) in *. clearbody id. dl_proj.
  eexists. split; [reflexivity |].
  unfold downlink_typed, in_range. dl_proj.
  split; [| split; [exact Hid | split; [reflexivity | split; [reflexivity | split; [reflexivity |]]]]].
  - rewrite repeat_length.
    repeat (apply andb_true_intro; split);
      try (apply Z.leb_le); try (apply Z.ltb_lt); try (apply Z.eqb_eq);
      try reflexivity; unfold LORAWAN_TYPE, UPLINK_TYPE, DOWNLINK_TYPE; lia.
  - unfold pack_downlink_packet. dl_proj. eexists. reflexivity.
Qed.

(** X11.  [create_uplink_packet_with_params] and
    [create_downlink_packet_with_params]: when the allocation succeeds the
    packet is a value of the C type whatever the block held, with a 12-bit id,
    hop count 0 and an empty payload, and the encoder accepts it and returns
    the bare header (6 or 12 bytes); when the allocation fails the result is
    NULL and the identifier generator is not called. *)
Theorem created_packets :
  (forall (fresh : uplink_packet) (initialized : bool) (rand_value : Z)
          (data_rate rssi snr channel : Z),
     0 <= data_rate < 256 -> -128 <= rssi < 128 -> -128 <= snr < 128 ->
     0 <= channel < 256 ->
     (exists p,
        create_uplink_packet_with_params true fresh initialized rand_value
                                         data_rate rssi snr channel
        = (Some p, true) /\
        uplink_typed p = true /\ 0 <= uplink_id p < 4096 /\
        ul_hop_count p = 0 /\ ul_payload_len p = 0 /\
        exists buf, pack_uplink_packet true (Some p) true = Some (buf, 6)) /\
     create_uplink_packet_with_params false fresh initialized rand_value
                                      data_rate rssi snr channel
     = (None, initialized)) /\
  (forall (fresh : downlink_packet) (initialized : bool) (rand_value : Z)
          (data_rate frequency tx_power delay : Z),
     0 <= data_rate < 256 -> 0 <= frequency < 4294967296 -> 0 <= tx_power < 256 ->
     0 <= delay < 256 ->
     (forall big_endian,
      exists p,
        create_downlink_packet_with_params true fresh initialized rand_value
                                           data_rate frequency tx_power delay
        = (Some p, true) /\
        downlink_typed p = true /\ 0 <= dwlink_id p < 4096 /\
        dl_hop_count p = 0 /\ dl_count_us p = 0 /\ dl_payload_len p = 0 /\
        exists buf, pack_downlink_packet big_endian true (Some p) true = Some (buf, 12)) /\
     create_downlink_packet_with_params false fresh initialized rand_value
                                        data_rate frequency tx_power delay
     = (None, initialized)).
Proof.
  split.
  - intros fresh initialized r dr rssi snr ch Hdr Hrssi Hsnr Hch. split.
    + apply create_uplink_with_params_ok; assumption.
    + reflexivity.
  - intros fresh initialized r dr fr tx dly Hdr Hfr Htx Hdly. split.
    + apply create_downlink_with_params_ok; assumption.
    + reflexivity.
Qed.

Lemma created_packets_witness :
  (exists p,
     create_uplink_packet_with_params true example_uplink false 0x12345 5 (-80) 7 3
     = (Some p, true) /\
     uplink_typed p = true /\ 0 <= uplink_id p < 4096 /\
     ul_hop_count p = 0 /\ ul_payload_len p = 0 /\
     exists buf, pack_uplink_packet true (Some p) true = Some (buf, 6)) /\
  create_uplink_packet_with_params false example_uplink false 0x12345 5 (-80) 7 3
  = (None, false).
Proof.
  apply (proj1 created_packets example_uplink false 0x12345 5 (-80) 7 3); lia.
Defined.

End RelayCodecProperties.

(** ** The HAL: configuration, start, stop, status *)

Section HalControlProperties.
Import Hal.

Variable ral : ral_call -> bool.
Variables RAL_IRQ_RX_DONE RAL_IRQ_RX_CRC_ERROR RAL_IRQ_RX_TIMEOUT RAL_IRQ_TX_DONE : Z.

Lemma is_lora_cr_cases cr :
  IS_LORA_CR cr = true <->
  cr = CR_LORA_4_5 \/ cr = CR_LORA_4_6 \/ cr = CR_LORA_4_7 \/ cr = CR_LORA_4_8.
Proof.
  unfold IS_LORA_CR. rewrite !orb_true_iff, !Z.eqb_eq. tauto.
Qed.

Lemma check_lora_mod_params_success freq_hz bw cr :
  sx126x_check_lora_mod_params freq_hz bw cr = LGW_HAL_SUCCESS <->
  FREQ_HZ_SUBGHZ_MIN <= freq_hz <= FREQ_HZ_SUBGHZ_MAX /\
  (bw = BW_125KHZ \/ bw = BW_250KHZ \/ bw = BW_500KHZ) /\
  IS_LORA_CR cr = true.
Proof.
  rewrite is_lora_cr_cases. unfold sx126x_check_lora_mod_params.
  destruct (Z.ltb_spec freq_hz FREQ_HZ_SUBGHZ_MIN);
    destruct (Z.gtb_spec freq_hz FREQ_HZ_SUBGHZ_MAX); cbn [orb];
    try (split; [discriminate | lia]).
  destruct (Z.eqb_spec bw BW_125KHZ); destruct (Z.eqb_spec bw BW_250KHZ);
    destruct (Z.eqb_spec bw BW_500KHZ); cbn [negb andb];
    try (split; [discriminate | tauto]);
    (destruct (Z.eqb_spec cr CR_LORA_4_5); destruct (Z.eqb_spec cr CR_LORA_4_6);
     destruct (Z.eqb_spec cr CR_LORA_4_7); destruct (Z.eqb_spec cr CR_LORA_4_8);
     cbn [negb andb]; try (split; [discriminate | tauto]);
     (split; [intros _; split; [lia | tauto] | reflexivity])).
Qed.

Lemma check_lora_mod_params_codes freq_hz bw cr :
  sx126x_check_lora_mod_params freq_hz bw cr = LGW_HAL_SUCCESS \/
  sx126x_check_lora_mod_params freq_hz bw cr = LGW_HAL_ERROR.
Proof.
  unfold sx126x_check_lora_mod_params.
  repeat match goal with
  | |- context [if ?c then _ else _] => destruct c
  end; tauto.
Qed.

Lemma ral_assert_all_through calls :
  (fst (ral_assert_all ral calls) = true <-> forallb ral calls = true) /\
  (fst (ral_assert_all ral calls) = true -> snd (ral_assert_all ral calls) = calls).
Proof.
  induction calls as [| c calls [IH1 IH2]]; cbn [ral_assert_all forallb fst snd].
  - split; [tauto | reflexivity].
  - destruct (ral c); cbn [andb].
    + destruct (ral_assert_all ral calls) as [ok made]. cbn [fst snd] in *.
      split; [exact IH1 |]. intros H. rewrite (IH2 H). reflexivity.
    + cbn [fst snd]. split; [tauto | discriminate].
Qed.

Lemma ral_assert_all_made calls :
  exists n, snd (ral_assert_all ral calls) = firstn n calls.
Proof.
  induction calls as [| c calls [n IH]]; cbn [ral_assert_all].
  - exists 0%nat. reflexivity.
  - destruct (ral c).
    + destruct (ral_assert_all ral calls) as [ok made]. cbn [snd] in *.
      exists (S n). cbn [firstn]. rewrite IH. reflexivity.
    + exists 1%nat. reflexivity.
Qed.

Lemma sync_word_subghz freq_hz sf :
  freq_hz <= FREQ_HZ_SUBGHZ_MAX ->
  sx126x_get_lora_sync_word freq_hz sf = if sf <? DR_LORA_SF7 then 0x12 else 0x34.
Proof.
  unfold FREQ_HZ_SUBGHZ_MAX, sx126x_get_lora_sync_word. intros Hf.
  change (LPWAN_NETWORK_TYPE =? LPWAN_NETWORK_TYPE_PUBLIC) with true. cbv iota zeta.
  destruct (Z.geb_spec freq_hz 2400000000); [lia |].
  destruct (Z.geb_spec sf DR_LORA_SF7); destruct (Z.ltb_spec sf DR_LORA_SF7);
    try lia; reflexivity.
Qed.

Lemma cal_img_subghz freq_hz :
  FREQ_HZ_SUBGHZ_MIN <= freq_hz <= FREQ_HZ_SUBGHZ_MAX ->
  u16 (u32 (freq_hz / 1000000)) = freq_hz / 1000000 /\
  u16 (u32 (u32 (freq_hz / 1000000) + 1)) = freq_hz / 1000000 + 1.
Proof.
  unfold FREQ_HZ_SUBGHZ_MIN, FREQ_HZ_SUBGHZ_MAX. intros Hf.
  assert (H : 150 <= freq_hz / 1000000 <= 960).
  { split; [apply Z.div_le_lower_bound | apply Z.div_le_upper_bound]; lia. }
  unfold u16, u32. rewrite (Z.mod_small (freq_hz / 1000000) 4294967296) by lia.
  rewrite (Z.mod_small (freq_hz / 1000000 + 1) 4294967296) by lia.
  rewrite !Z.mod_small by lia. split; reflexivity.
Qed.

(** What [sx126x_radio_configure_rx] does once the parameters passed the
    check. *)
Lemma configure_rx_checked freq_hz c rx :
  sx126x_check_lora_mod_params freq_hz (if_bandwidth c) (if_coderate c) = LGW_HAL_SUCCESS ->
  let r := sx126x_radio_configure_rx ral freq_hz c rx in
  let run := ral_assert_all ral (configure_rx_calls freq_hz c) in
  fst (fst r) = (if fst run then LGW_HAL_SUCCESS else -1) /\
  snd r = snd run /\
  (fst run = true -> snd (fst r) = set_detectors rx (fst (if_datarate c)) (side_detector_sf rx)) /\
  (snd (fst r) = rx \/
   snd (fst r) = set_detectors rx (fst (if_datarate c)) (side_detector_sf rx)).
Proof.
  intros Hc. pose proof Hc as Hc'. apply check_lora_mod_params_success in Hc'.
  destruct Hc' as (Hf & _ & _).
  unfold sx126x_radio_configure_rx. rewrite Hc.
  change (negb (LGW_HAL_SUCCESS =? LGW_HAL_SUCCESS)) with false. cbv iota.
  unfold sx126x_check_lora_dualsf_conf.
  change (negb (LGW_HAL_SUCCESS =? LGW_HAL_SUCCESS)) with false. cbv iota.
  cbn [set_detectors main_detector_sf side_detector_sf].
  rewrite sync_word_subghz by lia.
  destruct (cal_img_subghz freq_hz Hf) as (E1 & E2). rewrite E1, E2.
  unfold HDR_LORA_PREAMBLE, STD_LORA_PREAMBLE.
  unfold configure_rx_calls. cbn [ral_assert_all].
  repeat match goal with
  | |- context [ral ?call] => destruct (ral call)
  end; cbn [negb fst snd app]; repeat split; try discriminate; auto.
Qed.

Lemma configure_rx_unchecked freq_hz c rx :
  sx126x_check_lora_mod_params freq_hz (if_bandwidth c) (if_coderate c) <> LGW_HAL_SUCCESS ->
  sx126x_radio_configure_rx ral freq_hz c rx = (LGW_HAL_ERROR, rx, []).
Proof.
  intros Hc. unfold sx126x_radio_configure_rx.
  destruct (Z.eqb_spec (sx126x_check_lora_mod_params freq_hz (if_bandwidth c) (if_coderate c))
              LGW_HAL_SUCCESS); [contradiction | reflexivity].
Qed.

Lemma configure_rx_result :
  forall (freq_hz : Z) (c : sx126x_conf_rxif_s) (rx : rx_state),
    let r := sx126x_radio_configure_rx ral freq_hz c rx in
    (fst (fst r) = LGW_HAL_SUCCESS <->
     sx126x_check_lora_mod_params freq_hz (if_bandwidth c) (if_coderate c) = LGW_HAL_SUCCESS /\
     forallb ral (configure_rx_calls freq_hz c) = true) /\
    (fst (fst r) = LGW_HAL_SUCCESS ->
     snd r = configure_rx_calls freq_hz c /\
     main_detector_sf (snd (fst r)) = fst (if_datarate c) /\
     side_detector_sf (snd (fst r)) = side_detector_sf rx) /\
    (fst (fst r) <> LGW_HAL_SUCCESS ->
     fst (fst r) = LGW_HAL_ERROR /\ exists n, snd r = firstn n (configure_rx_calls freq_hz c)).
Proof.
  intros freq_hz c rx r.
  destruct (Z.eq_dec (sx126x_check_lora_mod_params freq_hz (if_bandwidth c) (if_coderate c))
              LGW_HAL_SUCCESS) as [Hc | Hc].
  - destruct (configure_rx_checked freq_hz c rx Hc) as (Hret & Hmade & Hrx & _).
    fold r in Hret, Hmade, Hrx.
    destruct (ral_assert_all_through (configure_rx_calls freq_hz c)) as (Hall & Hcalls).
    destruct (ral_assert_all_made (configure_rx_calls freq_hz c)) as (n & Hn).
    destruct (fst (ral_assert_all ral (configure_rx_calls freq_hz c))) eqn:Hrun.
    + rewrite Hret. split; [| split].
      * split; [intros _; split; [exact Hc | apply Hall; reflexivity] | reflexivity].
      * intros _. rewrite Hmade, (Hcalls eq_refl), (Hrx eq_refl). repeat split.
      * intros Hne. exfalso. apply Hne. reflexivity.
    + rewrite Hret. split; [| split].
      * split; [discriminate |]. intros (_ & Hok). apply Hall in Hok. discriminate Hok.
      * discriminate.
      * intros _. split; [reflexivity |]. exists n. rewrite Hmade. exact Hn.
  - unfold r. rewrite (configure_rx_unchecked freq_hz c rx Hc). cbn [fst snd].
    split; [| split].
    + split; [discriminate | intros (Hc' & _); contradiction].
    + discriminate.
    + intros _. split; [reflexivity |]. exists 0%nat. reflexivity.
Qed.

(** ** Starting the concentrator *)

Lemma radio_setup_codes :
  (fst (sx126x_radio_setup ral) = LGW_HAL_SUCCESS <->
   forallb ral [ral_reset; ral_init; ral_set_rx_tx_fallback_mode] = true) /\
  (fst (sx126x_radio_setup ral) = LGW_HAL_SUCCESS \/
   fst (sx126x_radio_setup ral) = LGW_HAL_ERROR).
Proof.
  unfold sx126x_radio_setup. cbn [ral_assert_all forallb].
  destruct (ral ral_reset); destruct (ral ral_init);
    destruct (ral ral_set_rx_tx_fallback_mode); cbn [fst andb];
    (split; [split; (discriminate || reflexivity) | auto]).
Qed.

Lemma start_unconfigured st rx :
  rf_freq_hz (rxrf_conf st) = 0 \/ if_modulation (rxif_conf st) = MOD_UNDEFINED \/
  if_bandwidth (rxif_conf st) = BW_UNDEFINED \/ if_coderate (rxif_conf st) = CR_UNDEFINED \/
  fst (if_datarate (rxif_conf st)) = DR_UNDEFINED ->
  sx126x_start ral RAL_IRQ_RX_DONE RAL_IRQ_RX_CRC_ERROR RAL_IRQ_RX_TIMEOUT st rx
  = (LGW_HAL_ERROR, st, rx, []).
Proof.
  intros H. unfold sx126x_start.
  destruct (Z.eqb_spec (rf_freq_hz (rxrf_conf st)) 0); [reflexivity |].
  destruct (Z.eqb_spec (if_modulation (rxif_conf st)) MOD_UNDEFINED); [reflexivity |].
  destruct (Z.eqb_spec (if_bandwidth (rxif_conf st)) BW_UNDEFINED); [reflexivity |].
  destruct (Z.eqb_spec (if_coderate (rxif_conf st)) CR_UNDEFINED); [reflexivity |].
  destruct (Z.eqb_spec (fst (if_datarate (rxif_conf st))) DR_UNDEFINED); [reflexivity |].
  tauto.
Qed.

Lemma start_set_fields st rx :
  rf_freq_hz (rxrf_conf st) <> 0 -> if_modulation (rxif_conf st) <> MOD_UNDEFINED ->
  if_bandwidth (rxif_conf st) <> BW_UNDEFINED -> if_coderate (rxif_conf st) <> CR_UNDEFINED ->
  fst (if_datarate (rxif_conf st)) <> DR_UNDEFINED ->
  let r := sx126x_start ral RAL_IRQ_RX_DONE RAL_IRQ_RX_CRC_ERROR RAL_IRQ_RX_TIMEOUT st rx in
  let conf := sx126x_radio_configure_rx ral (rf_freq_hz (rxrf_conf st)) (rxif_conf st) rx in
  if fst (sx126x_radio_setup ral) =? LGW_HAL_ERROR
  then fst r = (LGW_HAL_ERROR, st, rx)
  else if fst (fst conf) =? LGW_HAL_ERROR
       then fst r = (LGW_HAL_ERROR, set_rx_status st RX_OFF, snd (fst conf))
       else fst r = (LGW_HAL_SUCCESS, started_state st, snd (fst conf)).
Proof.
  intros H1 H2 H3 H4 H5 r conf. subst r. unfold sx126x_start.
  destruct (Z.eqb_spec (rf_freq_hz (rxrf_conf st)) 0); [contradiction |].
  destruct (Z.eqb_spec (if_modulation (rxif_conf st)) MOD_UNDEFINED); [contradiction |].
  destruct (Z.eqb_spec (if_bandwidth (rxif_conf st)) BW_UNDEFINED); [contradiction |].
  destruct (Z.eqb_spec (if_coderate (rxif_conf st)) CR_UNDEFINED); [contradiction |].
  destruct (Z.eqb_spec (fst (if_datarate (rxif_conf st))) DR_UNDEFINED); [contradiction |].
  change (sx126x_connect =? LGW_HAL_ERROR) with false. cbv iota zeta.
  destruct (sx126x_radio_setup ral) as [err made]. cbn [fst].
  destruct (err =? LGW_HAL_ERROR); [reflexivity |].
  cbn [set_rx_status rxrf_conf rxif_conf]. fold conf.
  destruct conf as [[err' rx'] made']. cbn [fst snd].
  destruct (err' =? LGW_HAL_ERROR); [reflexivity |].
  destruct (sx126x_radio_set_rx ral RAL_IRQ_RX_DONE RAL_IRQ_RX_CRC_ERROR RAL_IRQ_RX_TIMEOUT)
    as [err'' made''].
  cbn [fst snd]. unfold started_state, set_is_started, set_tx_status, set_rx_status.
  cbn [rxrf_conf rxif_conf is_started rx_status tx_status].
  destruct (tx_enable (rxrf_conf st)); reflexivity.
Qed.

Lemma start_fields_dec st :
  (rf_freq_hz (rxrf_conf st) = 0 \/ if_modulation (rxif_conf st) = MOD_UNDEFINED \/
   if_bandwidth (rxif_conf st) = BW_UNDEFINED \/ if_coderate (rxif_conf st) = CR_UNDEFINED \/
   fst (if_datarate (rxif_conf st)) = DR_UNDEFINED) \/
  (rf_freq_hz (rxrf_conf st) <> 0 /\ if_modulation (rxif_conf st) <> MOD_UNDEFINED /\
   if_bandwidth (rxif_conf st) <> BW_UNDEFINED /\ if_coderate (rxif_conf st) <> CR_UNDEFINED /\
   fst (if_datarate (rxif_conf st)) <> DR_UNDEFINED).
Proof.
  destruct (Z.eq_dec (rf_freq_hz (rxrf_conf st)) 0); [tauto |].
  destruct (Z.eq_dec (if_modulation (rxif_conf st)) MOD_UNDEFINED); [tauto |].
  destruct (Z.eq_dec (if_bandwidth (rxif_conf st)) BW_UNDEFINED); [tauto |].
  destruct (Z.eq_dec (if_coderate (rxif_conf st)) CR_UNDEFINED); [tauto |].
  destruct (Z.eq_dec (fst (if_datarate (rxif_conf st))) DR_UNDEFINED); tauto.
Qed.

Lemma start_result :
  forall (st : hal_state) (rx : rx_state),
    let r := sx126x_start ral RAL_IRQ_RX_DONE RAL_IRQ_RX_CRC_ERROR RAL_IRQ_RX_TIMEOUT st rx in
    let ret := fst (fst (fst r)) in
    let st' := snd (fst (fst r)) in
    let rx' := snd (fst r) in
    (ret = LGW_HAL_SUCCESS \/ ret = LGW_HAL_ERROR) /\
    rxrf_conf st' = rxrf_conf st /\ rxif_conf st' = rxif_conf st /\
    (ret = LGW_HAL_SUCCESS ->
     st' = started_state st /\
     main_detector_sf rx' = fst (if_datarate (rxif_conf st)) /\
     side_detector_sf rx' = side_detector_sf rx) /\
    (ret = LGW_HAL_ERROR ->
     is_started st' = is_started st /\ tx_status st' = tx_status st /\
     (st' = st \/ st' = set_rx_status st RX_OFF)).
Proof.
  intros st rx r ret st' rx'. subst ret st' rx'.
  destruct (start_fields_dec st) as [Hu | (H1 & H2 & H3 & H4 & H5)].
  - subst r. rewrite (start_unconfigured st rx Hu). cbn [fst snd].
    split; [auto |]. split; [reflexivity |]. split; [reflexivity |].
    split; [discriminate | auto].
  - pose proof (start_set_fields st rx H1 H2 H3 H4 H5) as Hs. cbv zeta in Hs. fold r in Hs.
    destruct radio_setup_codes as (_ & [Hsetup | Hsetup]); rewrite Hsetup in Hs.
    2: { change (LGW_HAL_ERROR =? LGW_HAL_ERROR) with true in Hs. cbv iota in Hs.
         rewrite Hs. cbn [fst snd].
         split; [auto |]. split; [reflexivity |]. split; [reflexivity |].
         split; [discriminate | auto]. }
    change (LGW_HAL_SUCCESS =? LGW_HAL_ERROR) with false in Hs. cbv iota in Hs.
    destruct (configure_rx_result (rf_freq_hz (rxrf_conf st)) (rxif_conf st) rx)
      as (_ & Hok & Hko).
    cbv zeta in Hok, Hko.
    set (conf := sx126x_radio_configure_rx ral (rf_freq_hz (rxrf_conf st)) (rxif_conf st) rx)
      in *.
    destruct (Z.eq_dec (fst (fst conf)) LGW_HAL_SUCCESS) as [Hc | Hc].
    + rewrite Hc in Hs. change (LGW_HAL_SUCCESS =? LGW_HAL_ERROR) with false in Hs.
      cbv iota in Hs. rewrite Hs. cbn [fst snd].
      destruct (Hok Hc) as (_ & Hm & Hsd).
      split; [auto |]. split; [reflexivity |]. split; [reflexivity |].
      split; [intros _; auto | discriminate].
    + destruct (Hko Hc) as (He & _). rewrite He in Hs.
      change (LGW_HAL_ERROR =? LGW_HAL_ERROR) with true in Hs. cbv iota in Hs.
      rewrite Hs. cbn [fst snd].
      split; [auto |]. split; [reflexivity |]. split; [reflexivity |].
      split; [discriminate | auto].
Qed.

Lemma start_success_iff :
  forall (st : hal_state) (rx : rx_state),
    fst (fst (fst (sx126x_start ral RAL_IRQ_RX_DONE RAL_IRQ_RX_CRC_ERROR
                     RAL_IRQ_RX_TIMEOUT st rx))) = LGW_HAL_SUCCESS
    <-> start_configured st /\ forallb ral (start_calls st) = true.
Proof.
  intros st rx. unfold start_configured, start_calls. rewrite forallb_app.
  rewrite andb_true_iff.
  destruct (start_fields_dec st) as [Hu | (H1 & H2 & H3 & H4 & H5)].
  - rewrite (start_unconfigured st rx Hu). cbn [fst].
    split; [discriminate |]. intros ((Hf & Hm & Hb & Hc & Hd) & _).
    unfold FREQ_HZ_SUBGHZ_MIN in Hf. apply is_lora_cr_cases in Hc.
    unfold BW_125KHZ, BW_250KHZ, BW_500KHZ, BW_UNDEFINED, CR_UNDEFINED, CR_LORA_4_5,
      CR_LORA_4_6, CR_LORA_4_7, CR_LORA_4_8 in *.
    destruct Hu as [Hu | [Hu | [Hu | [Hu | Hu]]]]; try contradiction; lia.
  - pose proof (start_set_fields st rx H1 H2 H3 H4 H5) as Hs. cbv zeta in Hs.
    destruct radio_setup_codes as (Hsetup_iff & [Hsetup | Hsetup]); rewrite Hsetup in Hs.
    2: { change (LGW_HAL_ERROR =? LGW_HAL_ERROR) with true in Hs. cbv iota in Hs.
         rewrite Hs. cbn [fst].
         split; [discriminate |]. intros (_ & Hok & _). apply Hsetup_iff in Hok.
         rewrite Hsetup in Hok. discriminate Hok. }
    change (LGW_HAL_SUCCESS =? LGW_HAL_ERROR) with false in Hs. cbv iota in Hs.
    destruct (configure_rx_result (rf_freq_hz (rxrf_conf st)) (rxif_conf st) rx)
      as (Hiff & _ & Hko).
    cbv zeta in Hiff, Hko.
    set (conf := sx126x_radio_configure_rx ral (rf_freq_hz (rxrf_conf st)) (rxif_conf st) rx)
      in *.
    rewrite check_lora_mod_params_success in Hiff.
    destruct (Z.eq_dec (fst (fst conf)) LGW_HAL_SUCCESS) as [Hc | Hc].
    + rewrite Hc in Hs. change (LGW_HAL_SUCCESS =? LGW_HAL_ERROR) with false in Hs.
      cbv iota in Hs. rewrite Hs. cbn [fst].
      apply Hiff in Hc. destruct Hc as ((Hf & Hb & Hcr) & Hcalls).
      split; [intros _ | reflexivity].
      split; [tauto |]. split; [apply Hsetup_iff; exact Hsetup | exact Hcalls].
    + destruct (Hko Hc) as (He & _). rewrite He in Hs.
      change (LGW_HAL_ERROR =? LGW_HAL_ERROR) with true in Hs. cbv iota in Hs.
      rewrite Hs. cbn [fst].
      split; [discriminate |]. intros ((Hf & Hm & Hb & Hcr & Hd) & _ & Hcalls).
      exfalso. apply Hc. apply Hiff. tauto.
Qed.

(** X12.  [sx126x_radio_configure_rx] returns [LGW_HAL_SUCCESS]
    exactly when the parameters pass [sx126x_check_lora_mod_params] and the
    driver accepts each of its eight requests.  Those requests are then, in
    order: standby, packet type, the modulation (bandwidth and code rate
    always convertible), a preamble of 12 symbols below SF7 and 8 otherwise,
    the sync word 0x12 below SF7 and 0x34 otherwise (never the 2.4 GHz one),
    the frequency, the image calibration on the MHz below and above it, and no
    symbol timeout; the main detector takes [datarate[0]].  Otherwise the
    function returns [LGW_HAL_ERROR] after a prefix of those requests. *)
Theorem configure_rx_requests :
  forall (freq_hz : Z) (c : sx126x_conf_rxif_s) (rx : rx_state),
    let r := sx126x_radio_configure_rx ral freq_hz c rx in
    (fst (fst r) = LGW_HAL_SUCCESS <->
     sx126x_check_lora_mod_params freq_hz (if_bandwidth c) (if_coderate c) = LGW_HAL_SUCCESS /\
     forallb ral (configure_rx_calls freq_hz c) = true) /\
    (fst (fst r) = LGW_HAL_SUCCESS ->
     snd r = configure_rx_calls freq_hz c /\
     main_detector_sf (snd (fst r)) = fst (if_datarate c) /\
     side_detector_sf (snd (fst r)) = side_detector_sf rx) /\
    (fst (fst r) <> LGW_HAL_SUCCESS ->
     fst (fst r) = LGW_HAL_ERROR /\ exists n, snd r = firstn n (configure_rx_calls freq_hz c)).
Proof. exact configure_rx_result. Qed.

(** X13.  [sx126x_start] returns [LGW_HAL_SUCCESS] or [LGW_HAL_ERROR]
    and never changes the stored configurations.  On success the state is
    started, [RX_ON], and [TX_FREE] or [TX_OFF] as [tx_enable] says, and the
    main detector holds [datarate[0]].  On failure [is_started] and
    [tx_status] are as before (a running concentrator stays marked as
    running) and [rx_status] is as before or [RX_OFF]. *)
Theorem start_outcome :
  forall (st : hal_state) (rx : rx_state),
    let r := sx126x_start ral RAL_IRQ_RX_DONE RAL_IRQ_RX_CRC_ERROR RAL_IRQ_RX_TIMEOUT st rx in
    let ret := fst (fst (fst r)) in
    let st' := snd (fst (fst r)) in
    let rx' := snd (fst r) in
    (ret = LGW_HAL_SUCCESS \/ ret = LGW_HAL_ERROR) /\
    rxrf_conf st' = rxrf_conf st /\ rxif_conf st' = rxif_conf st /\
    (ret = LGW_HAL_SUCCESS ->
     st' = started_state st /\
     main_detector_sf rx' = fst (if_datarate (rxif_conf st)) /\
     side_detector_sf rx' = side_detector_sf rx) /\
    (ret = LGW_HAL_ERROR ->
     is_started st' = is_started st /\ tx_status st' = tx_status st /\
     (st' = st \/ st' = set_rx_status st RX_OFF)).
Proof. exact start_result. Qed.

(** X14.  [sx126x_start] succeeds exactly when the configuration is
    complete (frequency in 150..960 MHz, a modulation, one of the bandwidths
    125, 250, 500 kHz, a LoRa code rate, a first data rate) and the driver
    accepts the three set-up requests and the eight requests of
    [sx126x_radio_configure_rx]; the answers to the three requests of
    [sx126x_radio_set_rx], whose return code is dropped, do not count. *)
Theorem start_succeeds_iff :
  forall (st : hal_state) (rx : rx_state),
    fst (fst (fst (sx126x_start ral RAL_IRQ_RX_DONE RAL_IRQ_RX_CRC_ERROR
                     RAL_IRQ_RX_TIMEOUT st rx))) = LGW_HAL_SUCCESS
    <-> start_configured st /\ forallb ral (start_calls st) = true.
Proof. exact start_success_iff. Qed.

(** X15.  A modulation with bandwidth [BW_400KHZ] or [BW_800KHZ] is
    accepted by [sx126x_rxif_setconf] and then refused by [sx126x_start],
    whatever the driver answers: the concentrator stays stopped. *)
Theorem wide_bandwidth_never_starts :
  forall (st : hal_state) (rx : rx_state) (c : sx126x_conf_rxif_s),
    is_started st = false ->
    IS_LORA_DR (fst (if_datarate c)) = true ->
    snd (if_datarate c) = DR_UNDEFINED \/ IS_LORA_DR (snd (if_datarate c)) = true ->
    IS_LORA_CR (if_coderate c) = true ->
    if_bandwidth c = BW_400KHZ \/ if_bandwidth c = BW_800KHZ ->
    sx126x_rxif_setconf (Some c) st = (LGW_HAL_SUCCESS, set_rxif_conf st c) /\
    let r := sx126x_start ral RAL_IRQ_RX_DONE RAL_IRQ_RX_CRC_ERROR RAL_IRQ_RX_TIMEOUT
               (set_rxif_conf st c) rx in
    fst (fst (fst r)) = LGW_HAL_ERROR /\ is_started (snd (fst (fst r))) = false.
Proof.
  intros st rx c Hst Hdr0 Hdr1 Hcr Hbw. split.
  - unfold sx126x_rxif_setconf. rewrite Hst, Hdr0, Hcr. cbn [Bool.eqb].
    assert (Hb : IS_LORA_BW (if_bandwidth c) = true)
      by (destruct Hbw as [-> | ->]; reflexivity).
    rewrite Hb. cbn [Bool.eqb].
    destruct Hdr1 as [-> | ->]; [reflexivity |].
    rewrite andb_false_r. reflexivity.
  - intros r.
    destruct (start_result (set_rxif_conf st c) rx) as ([Hs | He] & _ & _ & _ & Herr);
      fold r in Hs || fold r in He; fold r in Herr.
    + exfalso. apply start_success_iff in Hs. destruct Hs as ((_ & _ & Hb & _) & _).
      cbn [set_rxif_conf rxif_conf] in Hb.
      unfold BW_125KHZ, BW_250KHZ, BW_500KHZ, BW_400KHZ, BW_800KHZ in *.
      destruct Hbw as [Hbw | Hbw]; rewrite Hbw in Hb; lia.
    + split; [exact He |]. destruct (Herr He) as (Hi & _). rewrite Hi. exact Hst.
Qed.

(** ** Stop and status *)

(** X16.  After [sx126x_stop], which always succeeds and only clears
    [is_started], [sx126x_status] reports [TX_OFF] and [RX_OFF] whatever the
    status words hold, and the radio configuration can be set again; after a
    successful [sx126x_start] it reports [RX_ON] and [TX_FREE] or [TX_OFF],
    and both [setconf] functions fail and change nothing. *)
Theorem lifecycle_status :
  forall (st : hal_state) (rx : rx_state) (code : Z),
    (let st1 := snd (sx126x_stop st) in
     fst (sx126x_stop st) = LGW_HAL_SUCCESS /\
     st1 = set_is_started st false /\
     sx126x_status 0 TX_STATUS (Some code) st1 = (LGW_HAL_SUCCESS, Some TX_OFF) /\
     sx126x_status 0 RX_STATUS (Some code) st1 = (LGW_HAL_SUCCESS, Some RX_OFF) /\
     forall c, sx126x_rxrf_setconf (Some c) st1 = (LGW_HAL_SUCCESS, set_rxrf_conf st1 c)) /\
    (let r := sx126x_start ral RAL_IRQ_RX_DONE RAL_IRQ_RX_CRC_ERROR RAL_IRQ_RX_TIMEOUT st rx in
     let st2 := snd (fst (fst r)) in
     fst (fst (fst r)) = LGW_HAL_SUCCESS ->
     sx126x_status 0 RX_STATUS (Some code) st2 = (LGW_HAL_SUCCESS, Some RX_ON) /\
     sx126x_status 0 TX_STATUS (Some code) st2
     = (LGW_HAL_SUCCESS, Some (if tx_enable (rxrf_conf st) then TX_FREE else TX_OFF)) /\
     (forall c, sx126x_rxrf_setconf c st2 = (LGW_HAL_ERROR, st2)) /\
     (forall c, sx126x_rxif_setconf c st2 = (LGW_HAL_ERROR, st2))).
Proof.
  intros st rx code. split.
  - cbv zeta. unfold sx126x_stop.
    destruct (is_started st) eqn:Hs; cbn [Bool.eqb fst snd].
    + repeat split.
    + split; [reflexivity |]. split.
      { destruct st as [s r t c1 c2]. cbn in Hs. subst s. reflexivity. }
      unfold sx126x_status, sx126x_rxrf_setconf. rewrite Hs. repeat split.
  - intros r st2 Hok.
    destruct (start_result st rx) as (_ & _ & _ & Hsucc & _). fold r in Hsucc.
    destruct (Hsucc Hok) as (Hst & _). fold st2 in Hst. rewrite Hst.
    repeat split.
    + intros c. destruct c; reflexivity.
    + intros c. destruct c; reflexivity.
Qed.

(** ** Transmission *)

Section Send.

Variable sx126x_radio_configure_tx : lgw_pkt_tx_s -> Z.
Variable tcxo_startup_time_in_tick : Z.

(** X17.  When [sx126x_send] returns, the configurations and
    [is_started] are as before and the code is [LGW_HAL_SUCCESS] or
    [LGW_HAL_ERROR].  Not started, it fails and changes nothing.  On success
    the state is [TX_FREE] and [RX_ON].  On a failure of a started
    concentrator either the transmission timed out (and the state is
    [TX_FREE], [RX_ON]) or [rx_status] is left at [RX_SUSPENDED], with
    [tx_status] as before, [TX_SCHEDULED] or [TX_EMITTING]. *)
Theorem send_outcome pkt_data st rx clock irqs ret st' rx' made :
  sx126x_send ral RAL_IRQ_RX_DONE RAL_IRQ_RX_CRC_ERROR RAL_IRQ_RX_TIMEOUT RAL_IRQ_TX_DONE
    sx126x_radio_configure_tx tcxo_startup_time_in_tick pkt_data st rx clock irqs
  = Some (ret, st', rx', made) ->
  rxrf_conf st' = rxrf_conf st /\ rxif_conf st' = rxif_conf st /\
  is_started st' = is_started st /\
  (ret = LGW_HAL_SUCCESS \/ ret = LGW_HAL_ERROR) /\
  (is_started st = false -> ret = LGW_HAL_ERROR /\ st' = st /\ rx' = rx /\ made = []) /\
  (ret = LGW_HAL_SUCCESS ->
   is_started st = true /\ rx_status st' = RX_ON /\ tx_status st' = TX_FREE /\
   sx126x_radio_configure_tx pkt_data <> LGW_HAL_ERROR /\ ral ral_set_tx = true) /\
  (is_started st = true -> ret = LGW_HAL_ERROR ->
   (rx_status st' = RX_SUSPENDED /\
    (tx_status st' = tx_status st \/ tx_status st' = TX_SCHEDULED \/
     tx_status st' = TX_EMITTING)) \/
   (rx_status st' = RX_ON /\ tx_status st' = TX_FREE)).
Proof.
  unfold sx126x_send.
  destruct (is_started st) eqn:Hs; cbn [Bool.eqb].
  2: { intros [= <- <- <- <-]. rewrite Hs. repeat split; auto; discriminate. }
  destruct (Z.eqb_spec (sx126x_radio_configure_tx pkt_data) LGW_HAL_ERROR) as [Hc | Hc].
  { destruct (sx126x_radio_configure_rx _ _ _ rx) as [[e1 rx1] m1].
    destruct (sx126x_radio_set_rx _ _ _ _) as [e2 m2].
    intros [= <- <- <- <-]. cbn [set_rx_status rxrf_conf rxif_conf is_started rx_status tx_status].
    repeat split; auto; discriminate. }
  cbv zeta.
  destruct (sx126x_send_wait _ _ clock) as [w |]; [| discriminate].
  destruct (ral ral_set_tx) eqn:Htx; cbn [negb].
  2: { intros [= <- <- <- <-].
       cbn [set_rx_status set_tx_status rxrf_conf rxif_conf is_started rx_status tx_status].
       repeat split; auto; discriminate. }
  destruct (send_wait_tx_done _ _ false false irqs) as [[flag |] |]; [| | discriminate].
  2: { intros [= <- <- <- <-].
       cbn [set_rx_status set_tx_status rxrf_conf rxif_conf is_started rx_status tx_status].
       repeat split; auto; discriminate. }
  destruct (sx126x_radio_configure_rx _ _ _ rx) as [[e1 rx1] m1].
  destruct (sx126x_radio_set_rx _ _ _ _) as [e2 m2].
  intros [= <- <- <- <-].
  cbn [set_rx_status set_tx_status rxrf_conf rxif_conf is_started rx_status tx_status].
  destruct flag; cbn [Bool.eqb]; repeat split; auto; discriminate.
Qed.

Lemma send_tx_done_exit quiet regs more :
  Forall (fun r => fst r = true /\ irq_has (snd r) RAL_IRQ_TX_DONE = false /\
                   irq_has (snd r) RAL_IRQ_RX_TIMEOUT = false) quiet ->
  irq_has regs RAL_IRQ_TX_DONE = true \/ irq_has regs RAL_IRQ_RX_TIMEOUT = true ->
  send_wait_tx_done RAL_IRQ_RX_TIMEOUT RAL_IRQ_TX_DONE false false
                    (quiet ++ (true, regs) :: more)
  = Some (Some (irq_has regs RAL_IRQ_RX_TIMEOUT)).
Proof.
  unfold irq_has. intros Hq Hr.
  induction Hq as [| [ok r] quiet (Hok & Hd & Ht) _ IH]; cbn [app send_wait_tx_done].
  - cbn [negb].
    destruct (Z.land regs RAL_IRQ_TX_DONE =? RAL_IRQ_TX_DONE);
      destruct (Z.land regs RAL_IRQ_RX_TIMEOUT =? RAL_IRQ_RX_TIMEOUT);
      cbn [Bool.eqb andb]; try reflexivity.
    destruct Hr; discriminate.
  - cbn [fst snd] in Hok, Hd, Ht. rewrite Hok, Hd, Ht. cbn [negb Bool.eqb andb]. exact IH.
Qed.

(** X18.  [sx126x_send] returns once the counter shows the target to be
    no further ahead than the TCXO start-up time and the interrupt register
    shows TX_DONE or RX_TIMEOUT: with a started concentrator, a transmit
    configuration and a start that the driver accepts, it then returns
    [LGW_HAL_ERROR] when that register has the RX_TIMEOUT bit (even with
    TX_DONE) and [LGW_HAL_SUCCESS] otherwise, and leaves [TX_FREE] and
    [RX_ON], whether or not [tx_enable] was set. *)
Theorem send_completes pkt_data st rx pre now later quiet regs more :
  is_started st = true ->
  sx126x_radio_configure_tx pkt_data <> LGW_HAL_ERROR ->
  ral ral_set_tx = true ->
  Forall (fun c => send_wait_cond (tx_count_us pkt_data) c
                     (TCXO_STARTUP_TIME_US tcxo_startup_time_in_tick SX126X_RTC_FREQ_IN_HZ)
                   = true) pre ->
  send_wait_cond (tx_count_us pkt_data) now
    (TCXO_STARTUP_TIME_US tcxo_startup_time_in_tick SX126X_RTC_FREQ_IN_HZ) = false ->
  Forall (fun r => fst r = true /\ irq_has (snd r) RAL_IRQ_TX_DONE = false /\
                   irq_has (snd r) RAL_IRQ_RX_TIMEOUT = false) quiet ->
  irq_has regs RAL_IRQ_TX_DONE = true \/ irq_has regs RAL_IRQ_RX_TIMEOUT = true ->
  exists st' rx' made,
    sx126x_send ral RAL_IRQ_RX_DONE RAL_IRQ_RX_CRC_ERROR RAL_IRQ_RX_TIMEOUT RAL_IRQ_TX_DONE
      sx126x_radio_configure_tx tcxo_startup_time_in_tick pkt_data st rx
      (pre ++ now :: later) (quiet ++ (true, regs) :: more)
    = Some ((if irq_has regs RAL_IRQ_RX_TIMEOUT then LGW_HAL_ERROR else LGW_HAL_SUCCESS),
            st', rx', made) /\
    tx_status st' = TX_FREE /\ rx_status st' = RX_ON.
Proof.
  intros Hs Hc Htx Hpre Hnow Hq Hr. unfold sx126x_send. rewrite Hs. cbn [Bool.eqb].
  destruct (Z.eqb_spec (sx126x_radio_configure_tx pkt_data) LGW_HAL_ERROR); [contradiction |].
  cbv zeta. rewrite (send_wait_exit _ _ pre now later Hpre Hnow).
  rewrite Htx. cbn [negb]. rewrite (send_tx_done_exit quiet regs more Hq Hr).
  destruct (sx126x_radio_configure_rx _ _ _ rx) as [[e1 rx1] m1].
  destruct (sx126x_radio_set_rx _ _ _ _) as [e2 m2].
  eexists. eexists. eexists. split.
  - destruct (irq_has regs RAL_IRQ_RX_TIMEOUT); reflexivity.
  - split; reflexivity.
Qed.

End Send.

(** ** Time on air *)

Lemma convert_sf_none sf :
  sx126x_convert_hal_to_ral_sf sf = None <-> IS_LORA_DR sf = false.
Proof.
  unfold sx126x_convert_hal_to_ral_sf, IS_LORA_DR.
  repeat match goal with
  | |- context [?a =? ?b] => destruct (a =? b)
  end; cbn [orb]; split; (discriminate || reflexivity).
Qed.

(** X19.  [sx126x_time_on_air] is 0 unless the packet pointer is not
    NULL, the modulation is [MOD_LORA] and the parameters pass
    [sx126x_check_lora_mod_params]; it is then what the driver computes from
    the packet's preamble, header type, size, CRC and polarity, from the
    conversions of the packet's bandwidth and code rate, which both succeed,
    and from the conversion of the low 8 bits of the packet's [datarate]
    (a [uint32_t] passed to a [uint8_t] parameter), which is the [-1] of the
    conversion exactly when those 8 bits are not a LoRa data rate. *)
Theorem time_on_air_cases :
  forall (toa : ral_lora_pkt_params_t ->
                option ral_lora_sf_t * option ral_lora_bw_t * option ral_lora_cr_t -> Z)
         (packet : option lgw_pkt_tx_s),
    (sx126x_time_on_air toa packet <> 0 ->
     exists p, packet = Some p /\ tx_modulation p = MOD_LORA /\
       sx126x_check_lora_mod_params (tx_freq_hz p) (tx_bandwidth p) (tx_coderate p)
       = LGW_HAL_SUCCESS) /\
    (forall p, packet = Some p -> tx_modulation p = MOD_LORA ->
       sx126x_check_lora_mod_params (tx_freq_hz p) (tx_bandwidth p) (tx_coderate p)
       = LGW_HAL_SUCCESS ->
       exists bw cr,
         sx126x_convert_hal_to_ral_bw (tx_bandwidth p) = Some bw /\
         sx126x_convert_hal_to_ral_cr (tx_coderate p) = Some cr /\
         sx126x_time_on_air toa packet
         = toa (mk_pkt_params (tx_preamble p) (negb (tx_no_header p)) (tx_size p)
                              (negb (tx_no_crc p)) (tx_invert_pol p))
               (sx126x_convert_hal_to_ral_sf (u8 (tx_datarate p)), Some bw, Some cr) /\
         (sx126x_convert_hal_to_ral_sf (u8 (tx_datarate p)) = None
          <-> IS_LORA_DR (u8 (tx_datarate p)) = false)).
Proof.
  intros toa packet. split.
  - unfold sx126x_time_on_air. destruct packet as [p |]; [| intros H; contradiction H; reflexivity].
    destruct (Z.eqb_spec (tx_modulation p) MOD_LORA) as [Hm | Hm];
      [| intros H; contradiction H; reflexivity].
    destruct (Z.eqb_spec (sx126x_check_lora_mod_params (tx_freq_hz p) (tx_bandwidth p)
                            (tx_coderate p)) LGW_HAL_SUCCESS) as [Hc | Hc];
      cbn [negb]; [| intros H; contradiction H; reflexivity].
    intros _. exists p. auto.
  - intros p -> Hm Hc. unfold sx126x_time_on_air. rewrite Hm, Hc.
    change (MOD_LORA =? MOD_LORA) with true.
    change (negb (LGW_HAL_SUCCESS =? LGW_HAL_SUCCESS)) with false. cbv iota zeta.
    apply check_lora_mod_params_success in Hc. destruct Hc as (_ & Hbw & Hcr).
    apply is_lora_cr_cases in Hcr.
    assert (Hb : exists bw, sx126x_convert_hal_to_ral_bw (tx_bandwidth p) = Some bw).
    { destruct Hbw as [-> | [-> | ->]]; eexists; reflexivity. }
    assert (Hr : exists cr, sx126x_convert_hal_to_ral_cr (tx_coderate p) = Some cr).
    { destruct Hcr as [-> | [-> | [-> | ->]]]; eexists; reflexivity. }
    destruct Hb as (bw & Ebw). destruct Hr as (cr & Ecr).
    exists bw, cr. split; [exact Ebw | split; [exact Ecr |]].
    rewrite Ebw, Ecr. split; [| apply convert_sf_none].
    destruct (tx_no_header p); destruct (tx_no_crc p); reflexivity.
Qed.

End HalControlProperties.


Section HalControlInstances.
Import Hal.

(** *** Instances: a configured concentrator, a driver that fails to arm
    reception *)

Lemma configure_rx_requests_witness :
  snd (sx126x_radio_configure_rx ral_all_ok 868100000 example_rxif example_rx)
  = configure_rx_calls 868100000 example_rxif /\
  main_detector_sf
    (snd (fst (sx126x_radio_configure_rx ral_all_ok 868100000 example_rxif example_rx)))
  = fst (if_datarate example_rxif) /\
  side_detector_sf
    (snd (fst (sx126x_radio_configure_rx ral_all_ok 868100000 example_rxif example_rx)))
  = side_detector_sf example_rx.
Proof.
  apply (proj1 (proj2 (configure_rx_requests ral_all_ok 868100000 example_rxif example_rx))).
  reflexivity.
Defined.

Lemma start_outcome_witness :
  snd (fst (fst (sx126x_start ral_no_rx example_irq_rx_done example_irq_rx_crc_error
                   example_irq_rx_timeout hal_configured example_rx)))
  = started_state hal_configured.
Proof.
  destruct (start_outcome ral_no_rx example_irq_rx_done example_irq_rx_crc_error
              example_irq_rx_timeout hal_configured example_rx) as (_ & _ & _ & Hok & _).
  apply Hok. reflexivity.
Defined.

Lemma start_succeeds_iff_witness :
  fst (fst (fst (sx126x_start ral_no_rx example_irq_rx_done example_irq_rx_crc_error
                   example_irq_rx_timeout hal_configured example_rx)))
  = LGW_HAL_SUCCESS.
Proof.
  apply (proj2 (start_succeeds_iff ral_no_rx example_irq_rx_done example_irq_rx_crc_error
                  example_irq_rx_timeout hal_configured example_rx)).
  split; [| reflexivity].
  unfold start_configured. cbn.
  split; [unfold FREQ_HZ_SUBGHZ_MIN, FREQ_HZ_SUBGHZ_MAX; lia |].
  split; [discriminate |]. split; [left; reflexivity |].
  split; [reflexivity | discriminate].
Defined.

Lemma wide_bandwidth_never_starts_witness :
  sx126x_rxif_setconf
    (Some (mk_rxif MOD_LORA BW_800KHZ (DR_LORA_SF7, DR_UNDEFINED)
                       CR_LORA_4_5)) hal_configured
  = (LGW_HAL_SUCCESS,
     set_rxif_conf hal_configured
       (mk_rxif MOD_LORA BW_800KHZ (DR_LORA_SF7, DR_UNDEFINED)
                    CR_LORA_4_5)) /\
  (let r := sx126x_start ral_all_ok example_irq_rx_done example_irq_rx_crc_error
              example_irq_rx_timeout
              (set_rxif_conf hal_configured
                 (mk_rxif MOD_LORA BW_800KHZ (DR_LORA_SF7, DR_UNDEFINED)
                              CR_LORA_4_5)) example_rx in
   fst (fst (fst r)) = LGW_HAL_ERROR /\ is_started (snd (fst (fst r))) = false).
Proof.
  apply (wide_bandwidth_never_starts ral_all_ok example_irq_rx_done example_irq_rx_crc_error
           example_irq_rx_timeout hal_configured example_rx).
  - reflexivity.
  - reflexivity.
  - left. reflexivity.
  - reflexivity.
  - right. reflexivity.
Defined.

Lemma lifecycle_status_witness :
  sx126x_status 0 TX_STATUS (Some 0) (snd (sx126x_stop hal_started))
  = (LGW_HAL_SUCCESS, Some TX_OFF) /\
  sx126x_status 0 RX_STATUS (Some 0)
    (snd (fst (fst (sx126x_start ral_all_ok example_irq_rx_done example_irq_rx_crc_error
                      example_irq_rx_timeout hal_configured example_rx))))
  = (LGW_HAL_SUCCESS, Some RX_ON).
Proof.
  destruct (lifecycle_status ral_all_ok example_irq_rx_done example_irq_rx_crc_error
              example_irq_rx_timeout hal_started example_rx 0) as ((_ & _ & Htx & _) & _).
  destruct (lifecycle_status ral_all_ok example_irq_rx_done example_irq_rx_crc_error
              example_irq_rx_timeout hal_configured example_rx 0) as (_ & Hstart).
  split; [exact Htx |]. apply Hstart. reflexivity.
Defined.

(** A transmission that waits out one reading of the counter, 512
    microseconds before the target, and one round without interrupt. *)
Lemma send_completes_witness :
  exists st' rx' made,
    sx126x_send ral_all_ok example_irq_rx_done example_irq_rx_crc_error
      example_irq_rx_timeout example_irq_tx_done (fun _ => 0) 0 example_pkt_tx
      hal_started example_rx ([0xFFFFFF00] ++ 0x00000100 :: [7])
      ([(true, 0)] ++ (true, 1) :: [(true, 5)])
    = Some ((if irq_has 1 example_irq_rx_timeout then LGW_HAL_ERROR
             else LGW_HAL_SUCCESS), st', rx', made) /\
    tx_status st' = TX_FREE /\ rx_status st' = RX_ON.
Proof.
  apply (send_completes ral_all_ok example_irq_rx_done example_irq_rx_crc_error
           example_irq_rx_timeout example_irq_tx_done (fun _ => 0) 0 example_pkt_tx
           hal_started example_rx [0xFFFFFF00] 0x00000100 [7] [(true, 0)] 1 [(true, 5)]).
  - reflexivity.
  - discriminate.
  - reflexivity.
  - repeat constructor.
  - reflexivity.
  - repeat constructor.
  - left. reflexivity.
Defined.

(** A transmission that the driver refuses to start: the return code and
    the status words it leaves. *)
Lemma send_outcome_witness :
  rx_status (set_tx_status (set_rx_status hal_started RX_SUSPENDED)
                                    TX_SCHEDULED) = RX_SUSPENDED /\
  (tx_status (set_tx_status (set_rx_status hal_started RX_SUSPENDED)
                                     TX_SCHEDULED) = tx_status hal_started \/
   tx_status (set_tx_status (set_rx_status hal_started RX_SUSPENDED)
                                     TX_SCHEDULED) = TX_SCHEDULED \/
   tx_status (set_tx_status (set_rx_status hal_started RX_SUSPENDED)
                                     TX_SCHEDULED) = TX_EMITTING) \/
  rx_status (set_tx_status (set_rx_status hal_started RX_SUSPENDED)
                                    TX_SCHEDULED) = RX_ON /\
  tx_status (set_tx_status (set_rx_status hal_started RX_SUSPENDED)
                                    TX_SCHEDULED) = TX_FREE.
Proof.
  destruct (send_outcome (fun c => match c with ral_set_tx => false | _ => true end)
              example_irq_rx_done example_irq_rx_crc_error example_irq_rx_timeout
              example_irq_tx_done (fun _ => 0) 0 example_pkt_tx hal_started example_rx
              [0x00000100] [] (-1)
              (set_tx_status (set_rx_status hal_started RX_SUSPENDED)
                                 TX_SCHEDULED)
              example_rx [ral_set_tx] eq_refl) as (_ & _ & _ & _ & _ & _ & Herr).
  apply Herr; reflexivity.
Defined.

Lemma time_on_air_cases_witness :
  sx126x_time_on_air example_time_on_air (Some example_pkt_tx_wide)
  = example_time_on_air (mk_pkt_params 8 true 2 true false)
      (Some RAL_LORA_SF7, Some RAL_LORA_BW_125_KHZ, Some RAL_LORA_CR_4_5) /\
  tx_datarate example_pkt_tx_wide = 263 /\
  (sx126x_convert_hal_to_ral_sf (u8 263) = None <-> IS_LORA_DR (u8 263) = false).
Proof.
  destruct (proj2 (time_on_air_cases example_time_on_air (Some example_pkt_tx_wide))
              example_pkt_tx_wide eq_refl eq_refl eq_refl)
    as (bw & cr & Hbw & Hcr & Htoa & Hsf).
  vm_compute in Hbw. vm_compute in Hcr.
  injection Hbw as Hbw. injection Hcr as Hcr. subst bw cr.
  split; [exact Htoa | split; [reflexivity | exact Hsf]].
Defined.

End HalControlInstances.

(** ** The clock *)

Section ClockProperties.
Import Hal.

Lemma instcnt_value tv :
  snd (sx126x_get_instcnt tv) = timeval_us tv mod 4294967296.
Proof.
  unfold sx126x_get_instcnt, timeval_us, u32. cbn [snd].
  rewrite <- Zplus_mod_idemp_l. rewrite Z.mul_mod_idemp_l by lia.
  rewrite Zplus_mod_idemp_l. reflexivity.
Qed.

(** X20.  [sx126x_get_instcnt] gives the microseconds since the epoch
    modulo 2^32, and the signed 32-bit difference of two readings is the time
    between them when that is within 2^31 microseconds. *)
Theorem instcnt_elapsed :
  forall tv1 tv2 : timeval,
    snd (sx126x_get_instcnt tv1) = timeval_us tv1 mod 4294967296 /\
    (-2147483648 <= timeval_us tv2 - timeval_us tv1 < 2147483648 ->
     count_us_ahead (snd (sx126x_get_instcnt tv2)) (snd (sx126x_get_instcnt tv1))
     = timeval_us tv2 - timeval_us tv1).
Proof.
  intros tv1 tv2. split; [apply instcnt_value |]. intros Hr.
  rewrite !instcnt_value. unfold count_us_ahead, s32, u32.
  rewrite Z.mod_mod by lia. rewrite <- Zminus_mod.
  set (e := timeval_us tv2 - timeval_us tv1) in *.
  destruct (Z.lt_ge_cases e 0) as [Hneg | Hpos].
  - replace (e mod 4294967296) with (e + 4294967296).
    + destruct (Z.ltb_spec (e + 4294967296) 2147483648); lia.
    + apply Z.mod_unique with (q := -1); lia.
  - rewrite Z.mod_small by lia.
    destruct (Z.ltb_spec e 2147483648); lia.
Qed.

(** X21.  For two normalised times, the second not before the first and
    less than 2^32 ms after it, [TIMER_SUB] gives their normalised difference
    and [timeout_check] returns -1 exactly when the whole milliseconds elapsed
    reach [timeout_ms], and 0 otherwise. *)
Theorem timeout_check_elapsed :
  forall (start tm : timeval) (timeout_ms : Z),
    timeval_normal start -> timeval_normal tm ->
    0 <= timeval_us tm - timeval_us start ->
    (timeval_us tm - timeval_us start) / 1000 < 4294967296 ->
    timeval_normal (TIMER_SUB tm start) /\
    timeval_us (TIMER_SUB tm start) = timeval_us tm - timeval_us start /\
    (timeout_check start timeout_ms tm = -1
     <-> timeout_ms <= (timeval_us tm - timeval_us start) / 1000) /\
    (timeout_check start timeout_ms tm = 0
     <-> (timeval_us tm - timeval_us start) / 1000 < timeout_ms).
Proof.
  intros start tm timeout_ms Hs Ht He Hms.
  unfold timeval_normal, timeval_us in *.
  assert (Hn : 0 <= tv_usec (TIMER_SUB tm start) < 1000000 /\
               tv_sec (TIMER_SUB tm start) * 1000000 + tv_usec (TIMER_SUB tm start)
               = tv_sec tm * 1000000 + tv_usec tm - (tv_sec start * 1000000 + tv_usec start)).
  { unfold TIMER_SUB. cbn [tv_sec tv_usec].
    destruct (Z.ltb_spec (tv_usec tm - tv_usec start) 0); cbn [tv_sec tv_usec]; lia. }
  destruct Hn as (Hu & Hsum). split; [exact Hu |]. split; [exact Hsum |].
  unfold timeout_check. cbv zeta.
  set (d := TIMER_SUB tm start) in *.
  set (e := tv_sec tm * 1000000 + tv_usec tm - (tv_sec start * 1000000 + tv_usec start)) in *.
  assert (Hsec : 0 <= tv_sec d) by lia.
  rewrite Z.quot_div_nonneg by lia.
  assert (Hq : tv_sec d * 1000 + tv_usec d / 1000 = e / 1000).
  { rewrite <- Hsum. replace (tv_sec d * 1000000 + tv_usec d)
      with (tv_usec d + tv_sec d * 1000 * 1000) by lia.
    rewrite Z.div_add by lia. lia. }
  rewrite Hq. unfold u32.
  assert (0 <= e / 1000) by (apply Z.div_pos; lia).
  rewrite Z.mod_small by lia.
  destruct (Z.geb_spec (e / 1000) timeout_ms); split; split; intros; try lia;
    try reflexivity; try discriminate.
Qed.

Lemma to_long_value long_bits v :
  long_bits = 32 \/ long_bits = 64 -> 0 <= v < 2 ^ long_bits ->
  to_long long_bits v
  = if v <? 2 ^ (long_bits - 1) then v else v - 2 ^ long_bits.
Proof.
  unfold to_long. intros [-> | ->] Hv.
  - change (2 ^ (32 - 1)) with 2147483648. change (2 ^ 32) with 4294967296 in *.
    destruct (Z.ltb_spec v 2147483648); Z.to_euclidean_division_equations; lia.
  - change (2 ^ (64 - 1)) with 9223372036854775808.
    change (2 ^ 64) with 18446744073709551616 in *.
    destruct (Z.ltb_spec v 9223372036854775808);
      Z.to_euclidean_division_equations; lia.
Qed.

Lemma wait_ms_nsec long_bits delay :
  long_bits = 32 \/ long_bits = 64 -> 0 <= delay < 2 ^ long_bits ->
  let nsec := Z.rem (to_long long_bits delay) 1000 * 1000000 in
  (delay < 2 ^ (long_bits - 1) -> nsec = delay mod 1000 * 1000000) /\
  (2 ^ (long_bits - 1) <= delay ->
   -1000000000 < nsec <= 0 /\ delay / 1000 * 1000000000 + nsec < delay * 1000000).
Proof.
  intros Hb Hd nsec. subst nsec. rewrite (to_long_value long_bits delay Hb Hd).
  destruct Hb as [-> | ->].
  - change (2 ^ (32 - 1)) with 2147483648. change (2 ^ 32) with 4294967296 in *.
    destruct (Z.ltb_spec delay 2147483648); split; intros; try lia;
      Z.to_euclidean_division_equations; lia.
  - change (2 ^ (64 - 1)) with 9223372036854775808.
    change (2 ^ 64) with 18446744073709551616 in *.
    destruct (Z.ltb_spec delay 9223372036854775808); split; intros; try lia;
      Z.to_euclidean_division_equations; lia.
Qed.

(** X22.  For a delay of the parameter's type ([unsigned long], of 32 or 64
    bits): [wait_us] does not sleep at all for 0 and 1 microsecond, and for 2
    or more it asks for the whole delay in one sleep when it is not
    interrupted.  [wait_ms] sleeps once for every delay but 0; up to
    [LONG_MAX] the sleep asked for is the whole delay, with [tv_nsec] below one
    second; above [LONG_MAX], where [( long ) delay_ms] is negative, [tv_nsec]
    is not positive and the time asked for is less than the delay. *)
Theorem wait_sleeps :
  forall long_bits delay : Z,
    long_bits = 32 \/ long_bits = 64 ->
    0 <= delay < 2 ^ long_bits ->
    (forall rems, wait_us delay rems = Some [] <-> delay <= 1) /\
    (2 <= delay ->
     forall rems, exists dly,
       wait_us delay (mk_timespec 0 0 :: rems) = Some [dly] /\
       timespec_ns dly = delay * 1000) /\
    (wait_ms long_bits delay = [] <-> delay = 0) /\
    (1 <= delay < 2 ^ (long_bits - 1) ->
     exists dly, wait_ms long_bits delay = [dly] /\
       timespec_ns dly = delay * 1000000 /\ 0 <= ts_nsec dly < 1000000000) /\
    (2 ^ (long_bits - 1) <= delay ->
     exists dly, wait_ms long_bits delay = [dly] /\
       ts_sec dly = delay / 1000 /\ -1000000000 < ts_nsec dly <= 0 /\
       timespec_ns dly < delay * 1000000).
Proof.
  intros long_bits delay Hb Hrange.
  assert (Hd : 0 <= delay) by lia.
  assert (Hhalf : 1000 < 2 ^ (long_bits - 1)).
  { destruct Hb as [-> | ->]; reflexivity. }
  pose proof (Z.div_mod delay 1000000 ltac:(lia)) as Hdm.
  pose proof (Z.mod_pos_bound delay 1000000 ltac:(lia)) as Hm.
  pose proof (Z.div_pos delay 1000000 Hd ltac:(lia)) as Hq.
  pose proof (Z.div_mod delay 1000 ltac:(lia)) as Hdm'.
  pose proof (Z.mod_pos_bound delay 1000 ltac:(lia)) as Hm'.
  pose proof (Z.div_pos delay 1000 Hd ltac:(lia)) as Hq'.
  pose proof (wait_ms_nsec long_bits delay Hb Hrange) as Hns. cbv zeta in Hns.
  destruct Hns as (Hlow & Hhigh).
  split; [| split; [| split; [| split]]].
  - intros rems. unfold wait_us. cbv zeta.
    destruct rems as [| rem later]; cbn [wait_us_loop ts_sec ts_nsec];
      destruct (Z.gtb_spec (delay / 1000000) 0);
      destruct (Z.gtb_spec (delay mod 1000000 * 1000) 1000); cbn [orb];
      try (destruct (wait_us_loop rem later));
      split; intros; try discriminate; try reflexivity; lia.
  - intros H2 rems. unfold wait_us. cbv zeta. cbn [wait_us_loop ts_sec ts_nsec].
    assert (Hc : (delay / 1000000 >? 0) || (delay mod 1000000 * 1000 >? 1000) = true).
    { destruct (Z.gtb_spec (delay / 1000000) 0);
        destruct (Z.gtb_spec (delay mod 1000000 * 1000) 1000); cbn [orb];
        try reflexivity; lia. }
    rewrite Hc.
    assert (Hz : wait_us_loop (mk_timespec 0 0) rems = Some []).
    { destruct rems; reflexivity. }
    rewrite Hz. eexists. split; [reflexivity |].
    unfold timespec_ns. cbn [ts_sec ts_nsec]. lia.
  - unfold wait_ms. cbv zeta. cbn [ts_sec ts_nsec].
    set (nsec := Z.rem (to_long long_bits delay) 1000 * 1000000) in *.
    destruct (Z.gtb_spec (delay / 1000) 0); destruct (Z.eqb_spec (delay / 1000) 0);
      destruct (Z.gtb_spec nsec 100000); cbn [orb andb];
      split; intros; try discriminate; try reflexivity; lia.
  - intros H1. unfold wait_ms. cbv zeta. cbn [ts_sec ts_nsec].
    set (nsec := Z.rem (to_long long_bits delay) 1000 * 1000000) in *.
    assert (Hc : (delay / 1000 >? 0)
                 || ((delay / 1000 =? 0) && (nsec >? 100000)) = true).
    { destruct (Z.gtb_spec (delay / 1000) 0); destruct (Z.eqb_spec (delay / 1000) 0);
        destruct (Z.gtb_spec nsec 100000); cbn [orb andb];
        try reflexivity; lia. }
    rewrite Hc. eexists. split; [reflexivity |].
    unfold timespec_ns. cbn [ts_sec ts_nsec]. lia.
  - intros H1. unfold wait_ms. cbv zeta. cbn [ts_sec ts_nsec].
    set (nsec := Z.rem (to_long long_bits delay) 1000 * 1000000) in *.
    assert (Hc : (delay / 1000 >? 0)
                 || ((delay / 1000 =? 0) && (nsec >? 100000)) = true).
    { destruct (Z.gtb_spec (delay / 1000) 0); cbn [orb]; [reflexivity | lia]. }
    rewrite Hc. eexists. split; [reflexivity |].
    unfold timespec_ns. cbn [ts_sec ts_nsec]. lia.
Qed.

End ClockProperties.


Section ClockInstances.
Import Hal.

(** *** Instances: a counter that wraps, a timeout, short waits *)

Lemma instcnt_elapsed_witness :
  count_us_ahead (snd (sx126x_get_instcnt (mk_timeval 4295 100)))
                 (snd (sx126x_get_instcnt (mk_timeval 4294 967295)))
  = timeval_us (mk_timeval 4295 100) - timeval_us (mk_timeval 4294 967295).
Proof.
  apply (proj2 (instcnt_elapsed (mk_timeval 4294 967295) (mk_timeval 4295 100))).
  unfold timeval_us. cbn. lia.
Defined.

Lemma timeout_check_elapsed_witness :
  timeout_check (mk_timeval 10 900000) 1200 (mk_timeval 12 100000) = -1
  <-> 1200 <= (timeval_us (mk_timeval 12 100000) - timeval_us (mk_timeval 10 900000)) / 1000.
Proof.
  destruct (timeout_check_elapsed (mk_timeval 10 900000) (mk_timeval 12 100000) 1200)
    as (_ & _ & H & _).
  - unfold timeval_normal. cbn. lia.
  - unfold timeval_normal. cbn. lia.
  - unfold timeval_us. cbn. lia.
  - unfold timeval_us. cbn. lia.
  - exact H.
Defined.

Lemma wait_sleeps_witness :
  (wait_us 1 [] = Some [] <-> 1 <= 1) /\
  (exists dly, wait_us 2500000 [mk_timespec 0 0] = Some [dly] /\
     timespec_ns dly = 2500000 * 1000) /\
  (wait_ms 64 0 = [] <-> 0 = 0) /\
  (exists dly, wait_ms 64 1500 = [dly] /\
     timespec_ns dly = 1500 * 1000000 /\ 0 <= ts_nsec dly < 1000000000) /\
  (exists dly, wait_ms 32 4294967295 = [dly] /\
     ts_sec dly = 4294967295 / 1000 /\ -1000000000 < ts_nsec dly <= 0 /\
     timespec_ns dly < 4294967295 * 1000000).
Proof.
  assert (R64 : forall d, 0 <= d < 4294967296 -> 0 <= d < 2 ^ 64).
  { intros d Hd. change (2 ^ 64) with 18446744073709551616. lia. }
  destruct (wait_sleeps 64 1 (or_intror eq_refl) (R64 1 ltac:(lia))) as (Hus & _).
  destruct (wait_sleeps 64 2500000 (or_intror eq_refl) (R64 2500000 ltac:(lia)))
    as (_ & Hus2 & _).
  destruct (wait_sleeps 64 0 (or_intror eq_refl) (R64 0 ltac:(lia)))
    as (_ & _ & Hms0 & _).
  destruct (wait_sleeps 64 1500 (or_intror eq_refl) (R64 1500 ltac:(lia)))
    as (_ & _ & _ & Hms & _).
  destruct (wait_sleeps 32 4294967295 (or_introl eq_refl))
    as (_ & _ & _ & _ & Hbig).
  { change (2 ^ 32) with 4294967296. lia. }
  split; [apply Hus |].
  split; [apply Hus2; lia |].
  split; [exact Hms0 |].
  split; [apply Hms | apply Hbig].
  - change (2 ^ (64 - 1)) with 9223372036854775808. lia.
  - change (2 ^ (32 - 1)) with 2147483648. lia.
Defined.

End ClockInstances.

(** ** Reception *)

Section ReceptionProperties.
Import Hal.

Variables RAL_IRQ_RX_DONE RAL_IRQ_RX_CRC_ERROR RAL_IRQ_RX_TIMEOUT : Z.
Variable sx126x_get_lora_bw_in_hz : Z -> Z.

Lemma shift_product_fits sf :
  DR_LORA_SF5 <= sf <= DR_LORA_SF11 ->
  u32 (Z.shiftl 1 (u8 sf) * 1000000) = 2 ^ sf * 1000000 /\
  0 < 2 ^ sf * 1000000 < 4294967296.
Proof.
  unfold DR_LORA_SF5, DR_LORA_SF11. intros Hsf.
  assert (Hlo : 2 ^ 5 <= 2 ^ sf) by (apply Z.pow_le_mono_r; lia).
  assert (Hhi : 2 ^ sf <= 2 ^ 11) by (apply Z.pow_le_mono_r; lia).
  change (2 ^ 5) with 32 in Hlo. change (2 ^ 11) with 2048 in Hhi.
  unfold u8, u32. rewrite (Z.mod_small sf 256) by lia.
  rewrite Z.shiftl_1_l. rewrite Z.mod_small by lia. lia.
Qed.

Lemma correction_value sf bw :
  DR_LORA_SF5 <= sf <= DR_LORA_SF11 ->
  u32 (sx126x_get_lora_bw_in_hz (u8 bw)) <> 0 ->
  sx126x_radio_timestamp_correction sx126x_get_lora_bw_in_hz sf bw
  = 2 ^ sf * 1000000 / u32 (sx126x_get_lora_bw_in_hz (u8 bw)).
Proof.
  intros Hsf Hnz. unfold sx126x_radio_timestamp_correction. cbv zeta.
  destruct (shift_product_fits sf Hsf) as (-> & Hfit).
  set (h := u32 (sx126x_get_lora_bw_in_hz (u8 bw))) in *.
  assert (Hh : 0 < h).
  { assert (0 <= h < 4294967296) by (subst h; unfold u32; apply Z.mod_pos_bound; lia).
    lia. }
  destruct (Z.eqb_spec h 0) as [E | _]; [contradiction |]. cbn [negb].
  unfold u32. apply Z.mod_small. split.
  - apply Z.div_pos; lia.
  - apply Z.le_lt_trans with (2 ^ sf * 1000000); [| lia].
    apply Z.div_le_upper_bound; [lia | nia].
Qed.

(** X23.  Whatever the bandwidth table is (the body of
    [sx126x_get_lora_bw_in_hz] is not among the sources), the timestamp
    correction is 0 when the table gives 0 Hz.  For SF5 to SF11, where the
    product [( 1 << sf ) * 1000000] fits an [int], it is
    [2^SF * 1000000 / bw_in_hz] with no wrap: the symbol time, 8, 4 and 2
    times 2^SF microseconds when the table gives 125000, 250000 and
    500000 Hz. *)
Theorem timestamp_correction_symbol_time :
  forall sf bw : Z,
    let bw_in_hz := u32 (sx126x_get_lora_bw_in_hz (u8 bw)) in
    let correction :=
      sx126x_radio_timestamp_correction sx126x_get_lora_bw_in_hz sf bw in
    (bw_in_hz = 0 -> correction = 0) /\
    (DR_LORA_SF5 <= sf <= DR_LORA_SF11 -> bw_in_hz <> 0 ->
     correction = 2 ^ sf * 1000000 / bw_in_hz /\
     (bw_in_hz = 125000 -> correction = 8 * 2 ^ sf) /\
     (bw_in_hz = 250000 -> correction = 4 * 2 ^ sf) /\
     (bw_in_hz = 500000 -> correction = 2 * 2 ^ sf)).
Proof.
  intros sf bw bw_in_hz correction. subst bw_in_hz correction. split.
  - intros H. unfold sx126x_radio_timestamp_correction. cbv zeta. rewrite H.
    reflexivity.
  - intros Hsf Hnz. rewrite (correction_value sf bw Hsf Hnz).
    split; [reflexivity |].
    split; [| split]; intros ->.
    + replace (2 ^ sf * 1000000) with (8 * 2 ^ sf * 125000) by lia.
      apply Z.div_mul. lia.
    + replace (2 ^ sf * 1000000) with (4 * 2 ^ sf * 250000) by lia.
      apply Z.div_mul. lia.
    + replace (2 ^ sf * 1000000) with (2 * 2 ^ sf * 500000) by lia.
      apply Z.div_mul. lia.
Qed.

Lemma irq_process_fired rx env :
  irq_fired rx = true ->
  radio_irq_process RAL_IRQ_RX_DONE RAL_IRQ_RX_CRC_ERROR RAL_IRQ_RX_TIMEOUT rx env
  = mk_rx false (irq_count_us rx)
      (irq_has (irq_regs env) RAL_IRQ_RX_DONE || flag_rx_done rx)
      (irq_has (irq_regs env) RAL_IRQ_RX_CRC_ERROR || flag_rx_crc_error rx)
      (irq_has (irq_regs env) RAL_IRQ_RX_TIMEOUT || flag_rx_timeout rx)
      (main_detector_sf rx) (side_detector_sf rx).
Proof.
  intros H. unfold radio_irq_process, irq_has. rewrite H. cbn [Bool.eqb]. cbv zeta.
  destruct (Z.land (irq_regs env) RAL_IRQ_RX_DONE =? RAL_IRQ_RX_DONE);
    destruct (Z.land (irq_regs env) RAL_IRQ_RX_CRC_ERROR =? RAL_IRQ_RX_CRC_ERROR);
    destruct (Z.land (irq_regs env) RAL_IRQ_RX_TIMEOUT =? RAL_IRQ_RX_TIMEOUT);
    reflexivity.
Qed.

Lemma irq_process_idle rx env :
  irq_fired rx = false ->
  radio_irq_process RAL_IRQ_RX_DONE RAL_IRQ_RX_CRC_ERROR RAL_IRQ_RX_TIMEOUT rx env = rx.
Proof. intros H. unfold radio_irq_process. rewrite H. reflexivity. Qed.

Lemma eqb_true_id (b : bool) : Bool.eqb b true = b.
Proof. destruct b; reflexivity. Qed.

(** X24.  A reception with a CRC error and a readable packet status is
    reported as one packet (also when RX_DONE is set with it), with status
    [STAT_CRC_BAD], size 0, a payload of zeros (the payload is not read), the
    RSSI and SNR of the status and the corrected time stamp; the flags are
    cleared and reception is re-armed. *)
Theorem receive_crc_error :
  forall (max_pkt : Z) (p0 : lgw_pkt_rx_s) (others : list lgw_pkt_rx_s)
         (st : hal_state) (rx : rx_state) (env : radio_env),
    is_started st = true -> irq_fired rx = true ->
    irq_has (irq_regs env) RAL_IRQ_RX_CRC_ERROR = true ->
    pkt_status_ok env = true ->
    exists r p,
      sx126x_receive RAL_IRQ_RX_DONE RAL_IRQ_RX_CRC_ERROR RAL_IRQ_RX_TIMEOUT
        sx126x_get_lora_bw_in_hz
        max_pkt (p0 :: others) st rx env = Some r /\
      r_ret r = 1 /\ r_rearmed r = true /\ r_pkt_data r = p :: others /\
      flag_rx_done (r_rx r) = false /\ flag_rx_crc_error (r_rx r) = false /\
      status p = STAT_CRC_BAD /\ size p = 0 /\ payload p = repeat 0 256%nat /\
      rssic p = s8 (rssi_pkt_in_dbm env) /\ snr p = snr_pkt_in_db env /\
      count_us p
      = u32 (irq_count_us rx
             - sx126x_radio_timestamp_correction sx126x_get_lora_bw_in_hz
                 (u32 (main_detector_sf rx)) (if_bandwidth (rxif_conf st))).
Proof.
  intros max_pkt p0 others st rx env Hs Hf Hcrc Hok.
  unfold sx126x_receive, sx126x_radio_get_pkt. rewrite Hs. cbn [Bool.eqb]. cbv zeta.
  rewrite (irq_process_fired rx env Hf). rewrite Hcrc.
  cbn [flag_rx_done flag_rx_crc_error flag_rx_timeout irq_count_us irq_fired
       main_detector_sf side_detector_sf orb].
  rewrite !eqb_true_id. rewrite orb_true_r. rewrite Hok. cbn [negb].
  change (0 + 1 >? 0) with true. cbv iota.
  eexists. eexists. split; [reflexivity |].
  cbn [r_ret r_rearmed r_pkt_data r_rx o_irq_received o_status o_size o_payload o_rssi
       o_snr o_count_us o_sf Bool.eqb flag_rx_done flag_rx_crc_error status size payload
       rssic snr count_us set_payload pkt_rx_zero].
  rewrite Z.add_0_r. repeat split.
Qed.

(** X25.  A reception without CRC error fills the first cell from the
    radio (status [STAT_CRC_OK], size and payload, RSSI, SNR), from the stored
    configuration (frequency, modulation, bandwidth, code rate), from the main
    detector (data rate) and from the interrupt time, less the symbol-time
    correction, modulo 2^32; chains are 0 and reception is re-armed. *)
Theorem receive_fills_packet :
  forall (max_pkt : Z) (p0 : lgw_pkt_rx_s) (others : list lgw_pkt_rx_s)
         (st : hal_state) (rx : rx_state) (env : radio_env),
    is_started st = true -> irq_fired rx = true ->
    irq_has (irq_regs env) RAL_IRQ_RX_DONE = true ->
    irq_has (irq_regs env) RAL_IRQ_RX_CRC_ERROR = false ->
    flag_rx_crc_error rx = false ->
    pkt_status_ok env = true -> pkt_payload_ok env = true ->
    exists r p,
      sx126x_receive RAL_IRQ_RX_DONE RAL_IRQ_RX_CRC_ERROR RAL_IRQ_RX_TIMEOUT
        sx126x_get_lora_bw_in_hz
        max_pkt (p0 :: others) st rx env = Some r /\
      r_ret r = 1 /\ r_rearmed r = true /\ r_pkt_data r = p :: others /\
      status p = STAT_CRC_OK /\ size p = pkt_size env /\
      payload p = pkt_payload env (repeat 0 256%nat) /\
      freq_hz p = rf_freq_hz (rxrf_conf st) /\
      modulation p = if_modulation (rxif_conf st) /\
      bandwidth p = if_bandwidth (rxif_conf st) /\
      coderate p = if_coderate (rxif_conf st) /\
      datarate p = u32 (main_detector_sf rx) /\
      if_chain p = 0 /\ rf_chain p = 0 /\
      rssic p = s8 (rssi_pkt_in_dbm env) /\ snr p = snr_pkt_in_db env /\
      count_us p
      = u32 (irq_count_us rx
             - sx126x_radio_timestamp_correction sx126x_get_lora_bw_in_hz
                 (u32 (main_detector_sf rx)) (if_bandwidth (rxif_conf st))).
Proof.
  intros max_pkt p0 others st rx env Hs Hf Hdone Hcrc Hflag Hok Hpl.
  unfold sx126x_receive, sx126x_radio_get_pkt. rewrite Hs. cbn [Bool.eqb]. cbv zeta.
  rewrite (irq_process_fired rx env Hf). rewrite Hdone, Hcrc, Hflag.
  cbn [flag_rx_done flag_rx_crc_error flag_rx_timeout irq_count_us irq_fired
       main_detector_sf side_detector_sf orb Bool.eqb].
  rewrite Hok, Hpl. cbn [negb].
  change (0 + 1 >? 0) with true. cbv iota.
  eexists. eexists. split; [reflexivity |].
  cbn [r_ret r_rearmed r_pkt_data r_rx o_irq_received o_status o_size o_payload o_rssi
       o_snr o_count_us o_sf Bool.eqb status size payload rssic snr count_us freq_hz
       modulation bandwidth coderate datarate if_chain rf_chain set_payload pkt_rx_zero].
  rewrite Z.add_0_r. repeat split.
Qed.

Lemma get_pkt_after rx env pl :
  let r := sx126x_radio_get_pkt RAL_IRQ_RX_DONE RAL_IRQ_RX_CRC_ERROR RAL_IRQ_RX_TIMEOUT
             rx env pl in
  irq_fired (snd (fst r)) = false /\
  (fst (fst r) = 1 ->
   flag_rx_done (snd (fst r)) = false /\ flag_rx_crc_error (snd (fst r)) = false) /\
  (fst (fst r) = -1 ->
   (flag_rx_done (snd (fst r)) = true \/ flag_rx_crc_error (snd (fst r)) = true) /\
   o_irq_received (snd r) = true).
Proof.
  cbv zeta. unfold sx126x_radio_get_pkt. cbv zeta.
  set (rx1 := radio_irq_process _ _ _ rx env).
  assert (Hfired : irq_fired rx1 = false).
  { subst rx1. unfold radio_irq_process. destruct (irq_fired rx) eqn:E; cbn [Bool.eqb].
    - reflexivity.
    - exact E. }
  rewrite !eqb_true_id.
  destruct (flag_rx_done rx1) eqn:Ed; destruct (flag_rx_crc_error rx1) eqn:Ec;
    cbn [orb];
    try (destruct (pkt_status_ok env); cbn [negb]);
    try (destruct (pkt_payload_ok env); cbn [negb]);
    try (destruct (flag_rx_timeout rx1));
    cbn [fst snd irq_fired flag_rx_done flag_rx_crc_error o_irq_received];
    rewrite ?Ed, ?Ec; repeat split; auto; try discriminate; try lia.
Qed.

Lemma get_pkt_idle rx env pl :
  irq_fired rx = false -> flag_rx_done rx = false -> flag_rx_crc_error rx = false ->
  fst (fst (sx126x_radio_get_pkt RAL_IRQ_RX_DONE RAL_IRQ_RX_CRC_ERROR RAL_IRQ_RX_TIMEOUT
              rx env pl)) = 0.
Proof.
  intros Hf Hd Hc. unfold sx126x_radio_get_pkt. cbv zeta.
  rewrite (irq_process_idle rx env Hf). rewrite Hd, Hc. cbn [Bool.eqb orb].
  destruct (Bool.eqb (flag_rx_timeout rx) true); reflexivity.
Qed.

(** X26.  A packet is reported once: after a call of [sx126x_receive]
    that returned 1, a second call without a new interrupt returns 0.  After a
    call that returned -1 (the driver failed) reception was re-armed and the
    reception flag is still set, so the next call reads the radio again. *)
Theorem receive_then_receive :
  forall (max_pkt max_pkt' : Z) (pkt_data pkt_data' : list lgw_pkt_rx_s)
         (st : hal_state) (rx : rx_state) (env env' : radio_env) (r : receive_result),
    is_started st = true -> pkt_data' <> [] ->
    sx126x_receive RAL_IRQ_RX_DONE RAL_IRQ_RX_CRC_ERROR RAL_IRQ_RX_TIMEOUT
        sx126x_get_lora_bw_in_hz
      max_pkt pkt_data st rx env = Some r ->
    (r_ret r = 1 ->
     exists r',
       sx126x_receive RAL_IRQ_RX_DONE RAL_IRQ_RX_CRC_ERROR RAL_IRQ_RX_TIMEOUT
        sx126x_get_lora_bw_in_hz
         max_pkt' pkt_data' st (r_rx r) env' = Some r' /\
       r_ret r' = 0) /\
    (r_ret r = -1 ->
     r_rearmed r = true /\
     (flag_rx_done (r_rx r) = true \/ flag_rx_crc_error (r_rx r) = true)).
Proof.
  intros max_pkt max_pkt' pkt_data pkt_data' st rx env env' r Hs Hne.
  unfold sx126x_receive at 1. rewrite Hs. cbn [Bool.eqb].
  destruct pkt_data as [| p0 others]; [discriminate |].
  pose proof (get_pkt_after rx env (payload pkt_rx_zero)) as Hafter. cbv zeta in Hafter.
  destruct (sx126x_radio_get_pkt _ _ _ rx env (payload pkt_rx_zero)) as [[nb rx1] out].
  cbn [fst snd] in Hafter. destruct Hafter as (Hfired & Hone & Hfail).
  intros [= <-]. cbn [r_ret r_rx r_rearmed]. split.
  - intros Hnb. destruct (Hone Hnb) as (Hd & Hc).
    unfold sx126x_receive. rewrite Hs. cbn [Bool.eqb].
    destruct pkt_data' as [| q0 others']; [contradiction |].
    pose proof (get_pkt_idle rx1 env' (payload pkt_rx_zero) Hfired Hd Hc) as Hidle.
    destruct (sx126x_radio_get_pkt _ _ _ rx1 env' (payload pkt_rx_zero)) as [[nb' rx2] out'].
    cbn [fst] in Hidle. subst nb'. eexists. split; reflexivity.
  - intros Hnb. destruct (Hfail Hnb) as (Hflags & Hirq).
    rewrite Hirq. split; [reflexivity | exact Hflags].
Qed.

End ReceptionProperties.

Section ReceptionInstances.
Import Hal.

(** *** Instances: SF7 at 125 kHz, a reception with a CRC error, a
    reception read twice *)

Lemma timestamp_correction_symbol_time_witness :
  sx126x_radio_timestamp_correction example_bw_in_hz DR_LORA_SF7 BW_125KHZ = 1024 /\
  sx126x_radio_timestamp_correction example_bw_in_hz DR_LORA_SF9 BW_500KHZ = 1024 /\
  sx126x_radio_timestamp_correction example_bw_in_hz DR_LORA_SF7 BW_UNDEFINED = 0.
Proof.
  pose proof (timestamp_correction_symbol_time example_bw_in_hz) as W.
  cbv zeta in W. split; [| split].
  - destruct (proj2 (W DR_LORA_SF7 BW_125KHZ)) as (_ & H125 & _).
    + unfold DR_LORA_SF5, DR_LORA_SF7, DR_LORA_SF11. lia.
    + discriminate.
    + apply H125. reflexivity.
  - destruct (proj2 (W DR_LORA_SF9 BW_500KHZ)) as (_ & _ & _ & H500).
    + unfold DR_LORA_SF5, DR_LORA_SF9, DR_LORA_SF11. lia.
    + discriminate.
    + apply H500. reflexivity.
  - apply (proj1 (W DR_LORA_SF7 BW_UNDEFINED)). reflexivity.
Defined.

Lemma receive_crc_error_witness :
  exists r p,
    sx126x_receive example_irq_rx_done example_irq_rx_crc_error example_irq_rx_timeout
        example_bw_in_hz
      1 [pkt_rx_zero] hal_started example_rx
      (mk_env 66 true (-80) 7 true (fun buf => buf) 2) = Some r /\
    r_ret r = 1 /\ r_rearmed r = true /\ r_pkt_data r = [p] /\
    flag_rx_done (r_rx r) = false /\ flag_rx_crc_error (r_rx r) = false /\
    status p = STAT_CRC_BAD /\ size p = 0 /\
    payload p = repeat 0 256%nat /\
    rssic p = s8 (-80) /\ snr p = 7 /\
    count_us p
    = u32 (5000000 - sx126x_radio_timestamp_correction example_bw_in_hz
                       (u32 DR_LORA_SF7) BW_125KHZ).
Proof.
  apply (receive_crc_error example_irq_rx_done example_irq_rx_crc_error
           example_irq_rx_timeout example_bw_in_hz 1 pkt_rx_zero [] hal_started example_rx
           (mk_env 66 true (-80) 7 true (fun buf => buf) 2)); reflexivity.
Defined.

Lemma receive_fills_packet_witness :
  exists r p,
    sx126x_receive example_irq_rx_done example_irq_rx_crc_error example_irq_rx_timeout
        example_bw_in_hz
      1 [pkt_rx_zero] hal_started example_rx example_env = Some r /\
    r_ret r = 1 /\ r_rearmed r = true /\ r_pkt_data r = [p] /\
    status p = STAT_CRC_OK /\ size p = 2 /\
    payload p = [0xDE; 0xAD] ++ skipn 2 (repeat 0 256%nat) /\
    freq_hz p = 868100000 /\
    modulation p = MOD_LORA /\
    bandwidth p = BW_125KHZ /\
    coderate p = CR_LORA_4_5 /\
    datarate p = u32 DR_LORA_SF7 /\
    if_chain p = 0 /\ rf_chain p = 0 /\
    rssic p = s8 (-80) /\ snr p = 7 /\
    count_us p
    = u32 (5000000 - sx126x_radio_timestamp_correction example_bw_in_hz
                       (u32 DR_LORA_SF7) BW_125KHZ).
Proof.
  apply (receive_fills_packet example_irq_rx_done example_irq_rx_crc_error
           example_irq_rx_timeout example_bw_in_hz 1 pkt_rx_zero [] hal_started example_rx example_env);
    reflexivity.
Defined.

Lemma receive_then_receive_witness :
  exists r',
    sx126x_receive example_irq_rx_done example_irq_rx_crc_error example_irq_rx_timeout
        example_bw_in_hz
      1 [pkt_rx_zero] hal_started
      (mk_rx false 5000000 false false false DR_LORA_SF7 DR_UNDEFINED)
      example_env = Some r' /\
    r_ret r' = 0.
Proof.
  refine (proj1 (receive_then_receive example_irq_rx_done example_irq_rx_crc_error
                   example_irq_rx_timeout example_bw_in_hz 1 1 [pkt_rx_zero] [pkt_rx_zero]
                   hal_started example_rx example_env example_env
                   (mk_recv 1 _
                      (mk_rx false 5000000 false false false DR_LORA_SF7
                                 DR_UNDEFINED) true)
                   eq_refl _ _) eq_refl).
  - discriminate.
  - vm_compute. reflexivity.
Defined.

End ReceptionInstances.

(** ** The radio over SPI *)

Section SpiProperties.

Lemma write_loop_sends buffer pre rest b :
  buffer = pre ++ rest ->
  let b' := write_loop buffer (Z.of_nat (List.length pre)) (List.length rest) b in
  miso b' = miso b /\ busy_levels b' = busy_levels b /\
  exchanges b' = (exchanges b + List.length rest)%nat /\
  events b' = events b ++ exchanges_of (miso b) (exchanges b) rest.
Proof.
  revert pre b. induction rest as [| o rest IH]; intros pre b Hbuf; cbn [write_loop List.length].
  - cbn [exchanges_of]. rewrite app_nil_r, Nat.add_0_r. repeat split.
  - assert (Ho : byte_at buffer (Z.of_nat (List.length pre)) = o).
    { unfold byte_at. rewrite Nat2Z.id, Hbuf, app_nth2 by lia.
      rewrite Nat.sub_diag. reflexivity. }
    rewrite Ho. unfold spi_transfer. cbn [snd].
    replace (Z.of_nat (List.length pre) + 1) with (Z.of_nat (List.length (pre ++ [o])))
      by (rewrite length_app; cbn [List.length]; lia).
    specialize (IH (pre ++ [o])
                  (mk_bus (miso b) (S (exchanges b)) (busy_levels b)
                          (events b ++ [spi_exchange o (miso b (exchanges b))]))).
    cbv zeta in IH. cbn [miso exchanges busy_levels events] in IH.
    destruct IH as (E1 & E2 & E3 & E4).
    { rewrite Hbuf, <- app_assoc. reflexivity. }
    rewrite E1, E2, E3, E4. cbn [exchanges_of]. rewrite <- app_assoc. cbn [app].
    repeat split. lia.
Qed.

Lemma store_at got x later v :
  store (got ++ x :: later) (Z.of_nat (List.length got)) v = (got ++ [v]) ++ later.
Proof.
  unfold store. rewrite Nat2Z.id.
  rewrite firstn_app, firstn_all, Nat.sub_diag. cbn [firstn]. rewrite app_nil_r.
  replace (S (List.length got)) with (List.length (got ++ [x]))
    by (rewrite length_app; cbn [List.length]; lia).
  replace (got ++ x :: later) with ((got ++ [x]) ++ later)
    by (rewrite <- app_assoc; reflexivity).
  rewrite skipn_app, skipn_all, Nat.sub_diag. cbn [skipn app].
  rewrite <- app_assoc. reflexivity.
Qed.

Lemma read_loop_reads old :
  forall got b,
    let r := read_loop (got ++ old) (Z.of_nat (List.length got)) (List.length old) b in
    fst r = got ++ map (miso b) (seq (exchanges b) (List.length old)) /\
    miso (snd r) = miso b /\ busy_levels (snd r) = busy_levels b /\
    exchanges (snd r) = (exchanges b + List.length old)%nat /\
    events (snd r)
    = events b ++ exchanges_of (miso b) (exchanges b) (repeat 0 (List.length old)).
Proof.
  induction old as [| x old IH]; intros got b; cbn [read_loop List.length].
  - cbn [fst snd seq map repeat exchanges_of]. rewrite !app_nil_r, Nat.add_0_r. repeat split.
  - unfold spi_transfer. rewrite store_at.
    replace (Z.of_nat (List.length got) + 1)
      with (Z.of_nat (List.length (got ++ [miso b (exchanges b)])))
      by (rewrite length_app; cbn [List.length]; lia).
    specialize (IH (got ++ [miso b (exchanges b)])
                  (mk_bus (miso b) (S (exchanges b)) (busy_levels b)
                          (events b ++ [spi_exchange 0 (miso b (exchanges b))]))).
    cbv zeta in IH. cbn [miso exchanges busy_levels events] in IH.
    destruct IH as (E0 & E1 & E2 & E3 & E4).
    rewrite E0, E1, E2, E3, E4. cbn [seq map repeat exchanges_of].
    rewrite <- !app_assoc. cbn [app]. repeat split. lia.
Qed.

Lemma wait_on_busy_ready highs low later :
  Forall (fun l => l = 1) highs -> low <> 1 ->
  wait_on_busy_loop (highs ++ low :: later) = Some later.
Proof.
  intros Hh Hl. induction Hh as [| h highs -> _ IH]; cbn [app wait_on_busy_loop].
  - destruct (Z.eqb_spec low 1); [contradiction | reflexivity].
  - exact IH.
Qed.

Lemma exchanges_of_app m out out' :
  forall k, exchanges_of m k (out ++ out')
            = exchanges_of m k out ++ exchanges_of m (k + List.length out) out'.
Proof.
  induction out as [| o out IH]; intros k; cbn [app exchanges_of List.length].
  - rewrite Nat.add_0_r. reflexivity.
  - rewrite IH. replace (S k + List.length out)%nat with (k + S (List.length out))%nat by lia.
    reflexivity.
Qed.

Lemma write_loop_all buffer b :
  write_loop buffer 0 (List.length buffer) b
  = mk_bus (miso b) (exchanges b + List.length buffer) (busy_levels b)
           (events b ++ exchanges_of (miso b) (exchanges b) buffer).
Proof.
  pose proof (write_loop_sends buffer [] buffer b eq_refl) as H.
  cbv zeta in H. cbn [List.length Z.of_nat] in H.
  destruct (write_loop buffer 0 (List.length buffer) b) as [m e l ev].
  cbn [miso exchanges busy_levels events] in H. destruct H as (-> & -> & -> & ->).
  reflexivity.
Qed.

Lemma read_loop_all data b :
  read_loop data 0 (List.length data) b
  = (map (miso b) (seq (exchanges b) (List.length data)),
     mk_bus (miso b) (exchanges b + List.length data) (busy_levels b)
            (events b ++ exchanges_of (miso b) (exchanges b)
                           (repeat 0 (List.length data)))).
Proof.
  pose proof (read_loop_reads data [] b) as H.
  cbv zeta in H. cbn [List.length Z.of_nat app] in H.
  destruct (read_loop data 0 (List.length data) b) as [d [m e l ev]].
  cbn [fst snd miso exchanges busy_levels events] in H.
  destruct H as (-> & -> & -> & -> & ->). reflexivity.
Qed.

(** X27.  Once the busy pin reads low, [sx126x_hal_write] pulls the chip
    select low, sends the command bytes then the data bytes, one exchange
    each, and releases it; [sx126x_hal_read] sends the command bytes then as
    many zero bytes as [data_length] and stores what comes back during the
    zero bytes, dropping what came back during the command.  Both return
    [SX126X_HAL_STATUS_OK]. *)
Theorem spi_framing :
  forall (context : radio_context_t) (command data : list Z) (b : bus)
         (highs : list Z) (low : Z) (later : list Z),
    busy_levels b = highs ++ low :: later ->
    Forall (fun l => l = 1) highs -> low <> 1 ->
    sx126x_hal_write context command (Z.of_nat (List.length command)) data
                     (Z.of_nat (List.length data)) b
    = Some (SX126X_HAL_STATUS_OK,
            mk_bus (miso b) (exchanges b + List.length command + List.length data) later
                   (events b ++ [gpio_set_level (spi_nss context) 0]
                    ++ exchanges_of (miso b) (exchanges b) (command ++ data)
                    ++ [gpio_set_level (spi_nss context) 1])) /\
    sx126x_hal_read context command (Z.of_nat (List.length command)) data
                    (Z.of_nat (List.length data)) b
    = Some (SX126X_HAL_STATUS_OK,
            map (miso b) (seq (exchanges b + List.length command) (List.length data)),
            mk_bus (miso b) (exchanges b + List.length command + List.length data) later
                   (events b ++ [gpio_set_level (spi_nss context) 0]
                    ++ exchanges_of (miso b) (exchanges b)
                         (command ++ repeat 0 (List.length data))
                    ++ [gpio_set_level (spi_nss context) 1])).
Proof.
  intros context command data b highs low later Hbusy Hh Hl. split.
  - unfold sx126x_hal_write, sx126x_hal_wait_on_busy.
    rewrite Hbusy, (wait_on_busy_ready highs low later Hh Hl). cbv zeta.
    rewrite !Nat2Z.id, !write_loop_all. unfold bus_log.
    cbn [miso exchanges busy_levels events].
    rewrite exchanges_of_app, <- !app_assoc. reflexivity.
  - unfold sx126x_hal_read, sx126x_hal_wait_on_busy.
    rewrite Hbusy, (wait_on_busy_ready highs low later Hh Hl). cbv zeta.
    rewrite !Nat2Z.id, write_loop_all, read_loop_all. unfold bus_log.
    cbn [miso exchanges busy_levels events].
    rewrite exchanges_of_app, <- !app_assoc. reflexivity.
Qed.

End SpiProperties.

Lemma spi_framing_witness :
  sx126x_hal_write example_context [0x0D; 0x07; 0x40] 3 [0x14; 0x24] 2 example_bus
  = Some (SX126X_HAL_STATUS_OK,
          mk_bus (miso example_bus) 5 []
                 [ gpio_set_level 8 0;
                   spi_exchange 0x0D 0; spi_exchange 0x07 1; spi_exchange 0x40 2;
                   spi_exchange 0x14 3; spi_exchange 0x24 4;
                   gpio_set_level 8 1 ]) /\
  sx126x_hal_read example_context [0x1D; 0x07; 0x40] 3 [0x14; 0x24] 2 example_bus
  = Some (SX126X_HAL_STATUS_OK, [3; 4],
          mk_bus (miso example_bus) 5 []
                 [ gpio_set_level 8 0;
                   spi_exchange 0x1D 0; spi_exchange 0x07 1; spi_exchange 0x40 2;
                   spi_exchange 0 3; spi_exchange 0 4;
                   gpio_set_level 8 1 ]).
Proof.
  split.
  - apply (proj1 (spi_framing example_context [0x0D; 0x07; 0x40] [0x14; 0x24] example_bus
                    [1] 0 [] eq_refl ltac:(repeat constructor) ltac:(discriminate))).
  - apply (proj2 (spi_framing example_context [0x1D; 0x07; 0x40] [0x14; 0x24] example_bus
                    [1] 0 [] eq_refl ltac:(repeat constructor) ltac:(discriminate))).
Defined.

(** ** The log thread *)

Section LoggerProperties.

Lemma strndup_spec s :
  forall n,
    (List.length (strndup s n) <= n)%nat /\ ~ In 0 (strndup s n) /\
    (exists later, firstn n s = strndup s n ++ later) /\
    (~ In 0 (firstn n s) -> strndup s n = firstn n s).
Proof.
  induction s as [| c s IH]; intros n.
  - destruct n; cbn [strndup firstn List.length]; repeat split; try lia; auto;
      exists []; reflexivity.
  - destruct n as [| n]; cbn [strndup firstn].
    + cbn [List.length]. repeat split; try lia; auto. exists []. reflexivity.
    + destruct (IH n) as (Hlen & Hnul & (later & Hpre) & Hall).
      destruct (Z.eqb_spec c 0) as [-> | Hc].
      * cbn [List.length]. split; [lia |]. split; [auto |]. split.
        -- eexists. reflexivity.
        -- intros H. exfalso. apply H. left. reflexivity.
      * cbn [List.length]. split; [lia |]. split.
        -- intros [H | H]; [congruence | contradiction].
        -- split.
           ++ exists later. cbn [app]. rewrite Hpre. reflexivity.
           ++ intros H. rewrite Hall; [reflexivity |].
              intros Hin. apply H. right. exact Hin.
Qed.

Lemma strndup_terminated pre later :
  forall n, (List.length pre <= n)%nat ->
            strndup (pre ++ 0 :: later) n = strndup pre n.
Proof.
  induction pre as [| c pre IH]; intros n Hl.
  - destruct n; reflexivity.
  - destruct n as [| n]; [cbn [List.length] in Hl; lia |].
    cbn [app strndup]. destruct (c =? 0); [reflexivity |].
    rewrite IH by (cbn [List.length] in Hl; lia). reflexivity.
Qed.

Lemma s_recv_value size buffer :
  0 <= size -> List.length buffer = 256%nat ->
  s_recv true size buffer
  = Some (strndup (firstn (Z.to_nat (Z.min size 255)) buffer) 255).
Proof.
  intros Hs Hl. unfold s_recv. cbv zeta.
  destruct (Z.eqb_spec size (-1)); [lia |].
  assert (Hk : (if size <? 256 then size else 256 - 1) = Z.min size 255).
  { destruct (Z.ltb_spec size 256); lia. }
  rewrite Hk. unfold store. change (Z.to_nat (256 - 1)) with 255%nat.
  rewrite strndup_terminated; [reflexivity |].
  rewrite length_firstn. lia.
Qed.

Lemma s_recv_null heap_ok size buffer :
  size = -1 \/ heap_ok = false -> s_recv heap_ok size buffer = None.
Proof.
  unfold s_recv. cbv zeta. intros [-> | ->]; [reflexivity |].
  destruct (size =? -1); reflexivity.
Qed.

(** X28.  [s_recv] returns NULL when [zmq_recv] returns -1 and when
    [strndup] gets no memory.  Otherwise it returns a string of at most 255
    characters and no more than were received, which is the start of the
    buffer and holds no NUL; it is the whole message, cut at 255 characters,
    when the message holds no NUL. *)
Theorem s_recv_message :
  forall (heap_ok : bool) (size : Z) (buffer : list Z),
    (size = -1 \/ heap_ok = false -> s_recv heap_ok size buffer = None) /\
    (0 <= size -> List.length buffer = 256%nat -> heap_ok = true ->
     exists msg,
       s_recv heap_ok size buffer = Some msg /\
       Z.of_nat (List.length msg) <= Z.min size 255 /\ ~ In 0 msg /\
       (exists later, buffer = msg ++ later) /\
       (~ In 0 (firstn (Z.to_nat size) buffer) ->
        msg = firstn (Z.to_nat (Z.min size 255)) buffer)).
Proof.
  intros heap_ok size buffer. split; [apply s_recv_null |].
  intros Hs Hl ->. rewrite (s_recv_value size buffer Hs Hl).
  set (k := Z.to_nat (Z.min size 255)).
  assert (Hk : (k <= 255)%nat) by lia.
  destruct (strndup_spec (firstn k buffer) 255) as (_ & Hnul & (later & Hpre) & Hall).
  assert (Hf : firstn 255 (firstn k buffer) = firstn k buffer).
  { rewrite firstn_firstn. f_equal. lia. }
  rewrite Hf in Hpre, Hall.
  eexists. split; [reflexivity |].
  split.
  - apply (f_equal (@List.length Z)) in Hpre.
    rewrite length_app, length_firstn in Hpre. lia.
  - split; [exact Hnul |]. split.
    + exists (later ++ skipn k buffer).
      rewrite app_assoc, <- Hpre. symmetry. apply firstn_skipn.
    + intros Hno. apply Hall. intros Hin. apply Hno.
      assert (Hkk : firstn k buffer = firstn k (firstn (Z.to_nat size) buffer)).
      { rewrite firstn_firstn. f_equal. lia. }
      rewrite Hkk in Hin.
      rewrite <- (firstn_skipn k (firstn (Z.to_nat size) buffer)).
      apply in_or_app. left. exact Hin.
Qed.

(** [strncmp( msg, literal, n ) == 0], for a literal of [n] characters, says
    that the message starts with the literal. *)
Lemma strncmp_equal_starts msg literal n :
  List.length literal = n -> ~ In 0 literal ->
  strncmp_equal msg literal n = true <-> firstn n msg = literal.
Proof.
  intros Hlen Hnul. unfold strncmp_equal.
  assert (Hlit : firstn n (literal ++ [0]) = literal).
  { rewrite firstn_app, Hlen, Nat.sub_diag, <- Hlen, firstn_all.
    cbn [firstn]. apply app_nil_r. }
  rewrite Hlit.
  assert (Hlong : (n <= List.length msg)%nat -> firstn n (msg ++ [0]) = firstn n msg).
  { intros Hle. rewrite firstn_app.
    replace (n - List.length msg)%nat with 0%nat by lia.
    cbn [firstn]. apply app_nil_r. }
  destruct (list_eq_dec Z.eq_dec (firstn n (msg ++ [0])) literal) as [e | ne].
  - split; [intros _ | reflexivity].
    destruct (Nat.le_gt_cases n (List.length msg)) as [Hle | Hgt].
    + rewrite <- (Hlong Hle). exact e.
    + exfalso. apply Hnul. rewrite <- e. rewrite firstn_app.
      apply in_or_app. right.
      destruct (n - List.length msg)%nat as [| k] eqn:E; [lia |].
      left. reflexivity.
  - split; [discriminate |]. intros H. exfalso. apply ne.
    rewrite Hlong; [exact H |].
    apply (f_equal (@List.length Z)) in H. rewrite length_firstn in H. lia.
Qed.

Lemma tag_absent (b : bool) (P : Prop) : (b = true <-> P) -> b = false -> ~ P.
Proof. intros H -> HP. apply H in HP. discriminate HP. Qed.

Ltac literal_facts :=
  let H := fresh in
  intros H; vm_compute in H;
  repeat (destruct H as [H | H]; [discriminate H |]); exact H.

Lemma tag_info msg :
  strncmp_equal msg (c_string "[INFO]") 6 = true <-> firstn 6 msg = c_string "[INFO]".
Proof. apply strncmp_equal_starts; [reflexivity | literal_facts]. Qed.

Lemma tag_warn msg :
  strncmp_equal msg (c_string "[WARN]") 6 = true <-> firstn 6 msg = c_string "[WARN]".
Proof. apply strncmp_equal_starts; [reflexivity | literal_facts]. Qed.

Lemma tag_error msg :
  strncmp_equal msg (c_string "[ERROR]") 7 = true <-> firstn 7 msg = c_string "[ERROR]".
Proof. apply strncmp_equal_starts; [reflexivity | literal_facts]. Qed.

Lemma tag_debug msg :
  strncmp_equal msg (c_string "[DEBUG]") 7 = true <-> firstn 7 msg = c_string "[DEBUG]".
Proof. apply strncmp_equal_starts; [reflexivity | literal_facts]. Qed.

(** Two level tags differ in their second character. *)
Lemma tags_differ (msg : list Z) n m tag tag' :
  firstn n msg = tag -> firstn m msg = tag' ->
  (2 <=? n)%nat && (2 <=? m)%nat = true ->
  firstn 2 tag = firstn 2 tag'.
Proof.
  intros <- <- H. apply andb_prop in H. destruct H as [Hn Hm].
  apply Nat.leb_le in Hn, Hm. rewrite !firstn_firstn.
  replace (Nat.min 2 n) with 2%nat by lia.
  replace (Nat.min 2 m) with 2%nat by lia. reflexivity.
Qed.

Ltac tags_clash :=
  match goal with
  | H1 : firstn _ ?msg = c_string ?a, H2 : firstn _ ?msg = c_string ?b |- _ =>
    let E := fresh in
    pose proof (tags_differ msg _ _ _ _ H1 H2 eq_refl) as E;
    vm_compute in E; discriminate E
  end.

Lemma print_log_cases mask msg :
  (firstn 6 msg = c_string "[INFO]" ->
   print_log_by_level mask msg
   = if Z.land mask LOG_LEVEL_INFO =? 0 then None
     else Some (COLOR_INFO ++ msg ++ COLOR_RESET ++ [10])) /\
  (firstn 6 msg = c_string "[WARN]" ->
   print_log_by_level mask msg
   = if Z.land mask LOG_LEVEL_WARN =? 0 then None
     else Some (COLOR_WARN ++ msg ++ COLOR_RESET ++ [10])) /\
  (firstn 7 msg = c_string "[ERROR]" ->
   print_log_by_level mask msg
   = if Z.land mask LOG_LEVEL_ERROR =? 0 then None
     else Some (COLOR_ERROR ++ msg ++ COLOR_RESET ++ [10])) /\
  (firstn 7 msg = c_string "[DEBUG]" ->
   print_log_by_level mask msg
   = if Z.land mask LOG_LEVEL_DEBUG =? 0 then None
     else Some (COLOR_DEBUG ++ msg ++ COLOR_RESET ++ [10])) /\
  (firstn 6 msg <> c_string "[INFO]" -> firstn 6 msg <> c_string "[WARN]" ->
   firstn 7 msg <> c_string "[ERROR]" -> firstn 7 msg <> c_string "[DEBUG]" ->
   print_log_by_level mask msg = Some (msg ++ [10])).
Proof.
  unfold print_log_by_level.
  destruct (strncmp_equal msg (c_string "[INFO]") 6) eqn:Ei;
    [apply tag_info in Ei | apply (tag_absent _ _ (tag_info msg)) in Ei];
  (destruct (strncmp_equal msg (c_string "[WARN]") 6) eqn:Ew;
    [apply tag_warn in Ew | apply (tag_absent _ _ (tag_warn msg)) in Ew]);
  (destruct (strncmp_equal msg (c_string "[ERROR]") 7) eqn:Ee;
    [apply tag_error in Ee | apply (tag_absent _ _ (tag_error msg)) in Ee]);
  (destruct (strncmp_equal msg (c_string "[DEBUG]") 7) eqn:Ed;
    [apply tag_debug in Ed | apply (tag_absent _ _ (tag_debug msg)) in Ed]);
  (split; [| split; [| split; [| split]]]); intros;
  first [ contradiction
        | tags_clash
        | destruct (Z.land mask _ =? 0); reflexivity
        | reflexivity ].
Qed.

Lemma mask_all_levels :
  (Z.land g_log_level_mask LOG_LEVEL_INFO =? 0) = false /\
  (Z.land g_log_level_mask LOG_LEVEL_WARN =? 0) = false /\
  (Z.land g_log_level_mask LOG_LEVEL_ERROR =? 0) = false /\
  (Z.land g_log_level_mask LOG_LEVEL_DEBUG =? 0) = false.
Proof. repeat split. Qed.

(** X29.  [print_log_by_level] prints a message that starts with a level
    tag when the mask has the bit of that level, and drops it otherwise; what
    it prints is the colour sequence of the level (green for [INFO], yellow
    for [WARN], red for [ERROR], cyan for [DEBUG]), the message, the reset
    sequence and a newline; a message without a tag is printed, followed by a
    newline, under any mask.  One round of [log_pull_thread] prints nothing
    when [s_recv] returns NULL, and otherwise prints the message it received
    in that way, every level being enabled in [g_log_level_mask]. *)
Theorem log_round_prints :
  forall (mask size : Z) (buffer msg : list Z),
    let printed (colour : list Z) := Some (colour ++ msg ++ COLOR_RESET ++ [10]) in
    let untagged :=
      firstn 6 msg <> c_string "[INFO]" /\ firstn 6 msg <> c_string "[WARN]" /\
      firstn 7 msg <> c_string "[ERROR]" /\ firstn 7 msg <> c_string "[DEBUG]" in
    ((firstn 6 msg = c_string "[INFO]" ->
      print_log_by_level mask msg
      = if Z.land mask LOG_LEVEL_INFO =? 0 then None else printed COLOR_INFO) /\
     (firstn 6 msg = c_string "[WARN]" ->
      print_log_by_level mask msg
      = if Z.land mask LOG_LEVEL_WARN =? 0 then None else printed COLOR_WARN) /\
     (firstn 7 msg = c_string "[ERROR]" ->
      print_log_by_level mask msg
      = if Z.land mask LOG_LEVEL_ERROR =? 0 then None else printed COLOR_ERROR) /\
     (firstn 7 msg = c_string "[DEBUG]" ->
      print_log_by_level mask msg
      = if Z.land mask LOG_LEVEL_DEBUG =? 0 then None else printed COLOR_DEBUG) /\
     (untagged -> print_log_by_level mask msg = Some (msg ++ [10]))) /\
    (forall heap_ok,
       size = -1 \/ heap_ok = false -> log_pull_round heap_ok size buffer = None) /\
    (forall heap_ok,
       s_recv heap_ok size buffer = Some msg ->
       (firstn 6 msg = c_string "[INFO]" ->
        log_pull_round heap_ok size buffer = printed COLOR_INFO) /\
       (firstn 6 msg = c_string "[WARN]" ->
        log_pull_round heap_ok size buffer = printed COLOR_WARN) /\
       (firstn 7 msg = c_string "[ERROR]" ->
        log_pull_round heap_ok size buffer = printed COLOR_ERROR) /\
       (firstn 7 msg = c_string "[DEBUG]" ->
        log_pull_round heap_ok size buffer = printed COLOR_DEBUG) /\
       (untagged -> log_pull_round heap_ok size buffer = Some (msg ++ [10]))).
Proof.
  intros mask size buffer msg printed untagged. subst printed untagged. cbv beta.
  split; [| split].
  - destruct (print_log_cases mask msg) as (Hi & Hw & He & Hd & Hu).
    split; [exact Hi | split; [exact Hw | split; [exact He | split; [exact Hd |]]]].
    intros (U1 & U2 & U3 & U4). apply Hu; assumption.
  - intros heap_ok H. unfold log_pull_round. rewrite (s_recv_null _ _ _ H). reflexivity.
  - intros heap_ok Hrecv. unfold log_pull_round. rewrite Hrecv.
    destruct (print_log_cases g_log_level_mask msg) as (Hi & Hw & He & Hd & Hu).
    destruct mask_all_levels as (Mi & Mw & Me & Md).
    rewrite Mi in Hi. rewrite Mw in Hw. rewrite Me in He. rewrite Md in Hd.
    split; [exact Hi | split; [exact Hw | split; [exact He | split; [exact Hd |]]]].
    intros (U1 & U2 & U3 & U4). apply Hu; assumption.
Qed.

Lemma s_recv_message_witness :
  s_recv false 6 example_log_buffer = None /\
  exists msg,
    s_recv true 6 example_log_buffer = Some msg /\
    Z.of_nat (List.length msg) <= Z.min 6 255 /\ ~ In 0 msg /\
    (exists later, example_log_buffer = msg ++ later) /\
    (~ In 0 (firstn (Z.to_nat 6) example_log_buffer) ->
     msg = firstn (Z.to_nat (Z.min 6 255)) example_log_buffer).
Proof.
  split.
  - apply (proj1 (s_recv_message false 6 example_log_buffer)). right. reflexivity.
  - apply (proj2 (s_recv_message true 6 example_log_buffer));
      first [lia | reflexivity].
Defined.

Lemma log_round_prints_witness :
  log_pull_round true 6 example_log_buffer
  = Some (COLOR_WARN ++ c_string "[WARN]" ++ COLOR_RESET ++ [10]) /\
  log_pull_round false 6 example_log_buffer = None /\
  print_log_by_level (Z.lor LOG_LEVEL_INFO LOG_LEVEL_WARN) (c_string "[ERROR] lost")
  = None.
Proof.
  split; [| split].
  - pose proof (log_round_prints 0 6 example_log_buffer (c_string "[WARN]")) as W.
    cbv zeta beta in W. destruct W as (_ & _ & W).
    destruct (W true eq_refl) as (_ & Hw & _). apply Hw. reflexivity.
  - pose proof (log_round_prints 0 6 example_log_buffer []) as W.
    cbv zeta beta in W. destruct W as (_ & W & _).
    apply W. right. reflexivity.
  - pose proof (log_round_prints (Z.lor LOG_LEVEL_INFO LOG_LEVEL_WARN) 0 []
                  (c_string "[ERROR] lost")) as W.
    cbv zeta beta in W. destruct W as ((_ & _ & He & _) & _).
    apply (He eq_refl).
Defined.

End LoggerProperties.
